(** * dot_projector: hand-pose validation and capture gating of [src/app.js]

    A shallow embedding of the pose metrics, the validation chain of
    [updatePalmVisualization], the landmark stabilizer and the auto-capture
    debouncer of the [DotProjector] class, with the properties the
    specification states about them.

    JavaScript numbers are IEEE-754 binary64 values.  The arithmetic the source
    uses is collected in the interface [JsNumber]; the source functions are
    written once over that interface.  Two implementations are given:
    - [float64]: Rocq's primitive binary64 floats, which compute exactly what
      a JavaScript engine computes for [+ - * / Math.sqrt Math.abs] and the
      comparisons, NaN and infinities included;
    - [exact]: the real numbers, i.e. the same code read without rounding,
      used for statements about all inputs. *)

From Stdlib Require Import ZArith List Bool Lia.
From Stdlib Require Import Reals Lra.
From Stdlib Require Import PrimFloat FloatOps SpecFloat Uint63.
From Stdlib Require String Ascii.
Import ListNotations.

Set Implicit Arguments.

(** ** JavaScript numbers *)

Class JsNumber (num : Type) : Type := {
  fromZ : Z -> num;                 (* an integer literal or counter *)
  num_add : num -> num -> num;
  num_sub : num -> num -> num;
  num_mul : num -> num -> num;
  num_div : num -> num -> num;
  num_neg : num -> num;
  num_lt : num -> num -> bool;      (* a < b *)
  num_le : num -> num -> bool;      (* a <= b *)
  Math_sqrt : num -> num;
  Math_abs : num -> num;
  Math_max : num -> num -> num;
  Math_min : num -> num -> num;
  Math_round : num -> num;
  Math_PI : num
}.

(** [Math.atan2] is kept apart: ECMAScript leaves its result
    implementation-approximated, so binary64 has no one function for it. *)
Class JsTrig (num : Type) : Type := {
  Math_atan2 : num -> num -> num
}.

Declare Scope js_scope.
Delimit Scope js_scope with js.
Notation "a + b" := (num_add a b) : js_scope.
Notation "a - b" := (num_sub a b) : js_scope.
Notation "a * b" := (num_mul a b) : js_scope.
Notation "a / b" := (num_div a b) : js_scope.
Notation "- a" := (num_neg a) : js_scope.
Notation "a <? b" := (num_lt a b) (at level 70, no associativity) : js_scope.
Notation "a <=? b" := (num_le a b) (at level 70, no associativity) : js_scope.
(* IEEE-754: [a > b] holds exactly when [b < a] does, [a >= b] when [b <= a]. *)
Notation "a >? b" := (num_lt b a) (at level 70, no associativity) : js_scope.
Notation "a >=? b" := (num_le b a) (at level 70, no associativity) : js_scope.

(** [lit n d] is the decimal literal [n/d]: both a correctly rounded binary64
    division of two small integers and the parse of a decimal literal give
    the double nearest to the rational [n/d]. *)
Definition lit {num} `{JsNumber num} (n d : Z) : num := (fromZ n / fromZ d)%js.

(** *** binary64 *)

Module F64.

Definition ofZ (n : Z) : float :=
  match n with
  | Z0 => PrimFloat.zero
  | Zpos _ => PrimFloat.of_uint63 (Uint63.of_Z n)
  | Zneg p => PrimFloat.opp (PrimFloat.of_uint63 (Uint63.of_Z (Zpos p)))
  end.

Definition is_neg_zero (a : float) : bool :=
  PrimFloat.is_zero a && PrimFloat.get_sign a.

(** [Math.max]: NaN if either argument is NaN; [+0] is larger than [-0]. *)
Definition max (a b : float) : float :=
  if PrimFloat.is_nan a || PrimFloat.is_nan b then PrimFloat.nan
  else if PrimFloat.ltb a b then b
  else if PrimFloat.ltb b a then a
  else if is_neg_zero a then b else a.

(** [Math.min]: NaN if either argument is NaN; [-0] is smaller than [+0]. *)
Definition min (a b : float) : float :=
  if PrimFloat.is_nan a || PrimFloat.is_nan b then PrimFloat.nan
  else if PrimFloat.ltb a b then a
  else if PrimFloat.ltb b a then b
  else if is_neg_zero a then a else b.

(** [Math.round]: the integer nearest to the argument, ties towards
    [+Infinity]; NaN, infinities, zeros and integers are returned as they are.
    A finite double is [(-1)^s * m * 2^e]. *)
Definition round (a : float) : float :=
  match Prim2SF a with
  | S754_finite s m e =>
      if (0 <=? e)%Z then a
      else
        let d := (2 ^ (- e))%Z in
        let q := (Zpos m / d)%Z in
        let r := (Zpos m mod d)%Z in
        if s
        then PrimFloat.opp (ofZ (if (d <? 2 * r)%Z then q + 1 else q)%Z)
        else ofZ (if (d <=? 2 * r)%Z then q + 1 else q)%Z
  | _ => a
  end.

(** The double nearest to pi, the value of [Math.PI]. *)
Definition PI : float := 0x1.921fb54442d18p+1%float.

End F64.

#[export] Instance float64 : JsNumber float := {|
  fromZ := F64.ofZ;
  num_add := PrimFloat.add;
  num_sub := PrimFloat.sub;
  num_mul := PrimFloat.mul;
  num_div := PrimFloat.div;
  num_neg := PrimFloat.opp;
  num_lt := PrimFloat.ltb;
  num_le := PrimFloat.leb;
  Math_sqrt := PrimFloat.sqrt;
  Math_abs := PrimFloat.abs;
  Math_max := F64.max;
  Math_min := F64.min;
  Math_round := F64.round;
  Math_PI := F64.PI
|}.

(** A JavaScript engine, as far as the model depends on it: its [Math.atan2].
    ECMAScript fixes the result for special arguments, of which the model
    needs one ([Math.atan2(y, x)] is [y] itself when [y] is a zero and
    [x > 0]), and leaves the other results to the engine's approximation
    [approx]. *)
Definition engine (approx : float -> float -> float) : JsTrig float :=
  {| Math_atan2 := fun y x =>
       if PrimFloat.is_zero y && PrimFloat.ltb PrimFloat.zero x then y
       else approx y x |}.

(** *** Exact arithmetic *)

Module Exact.

Definition ltb (a b : R) : bool := if Rlt_dec a b then true else false.
Definition leb (a b : R) : bool := if Rle_dec a b then true else false.

(** [Math.round] on the reals: [floor (a + 1/2)]. *)
Definition round (a : R) : R := IZR (Zfloor (a + / 2)).

(** The angle of the point [(x, y)], in [(-pi, pi]]. *)
Definition atan2 (y x : R) : R :=
  if Rlt_dec 0 x then atan (y / x)
  else if Rlt_dec x 0 then
    (if Rle_dec 0 y then atan (y / x) + PI else atan (y / x) - PI)
  else if Rlt_dec 0 y then PI / 2
  else if Rlt_dec y 0 then - (PI / 2)
  else 0.

End Exact.

#[export] Instance exact : JsNumber R := {|
  fromZ := IZR;
  num_add := Rplus;
  num_sub := Rminus;
  num_mul := Rmult;
  num_div := Rdiv;
  num_neg := Ropp;
  num_lt := Exact.ltb;
  num_le := Exact.leb;
  Math_sqrt := R_sqrt.sqrt;
  Math_abs := Rabs;
  Math_max := Rmax;
  Math_min := Rmin;
  Math_round := Exact.round;
  Math_PI := PI
|}.

#[export] Instance exact_trig : JsTrig R := {| Math_atan2 := Exact.atan2 |}.

(** ** JavaScript exceptions

    Reading a property of [undefined] (an array index that is not there, or
    [this.palmData] when it is [null]) throws a [TypeError], which ends the
    running method and every caller up to the frame callback. *)

Inductive Completion (A : Type) : Type :=
| Normal (a : A)
| Throw.
Arguments Throw {A}.

Definition bind {A B} (m : Completion A) (k : A -> Completion B) : Completion B :=
  match m with
  | Normal a => k a
  | Throw => Throw
  end.

Notation "x <- m ;; k" := (bind m (fun x => k))
  (at level 61, m at next level, right associativity).
Notation "' pat <- m ;; k" := (bind m (fun x => match x with pat => k end))
  (at level 61, pat pattern, m at next level, right associativity).

(** [array.forEach] / a [for] loop whose body updates the loop's variables [s]. *)
Fixpoint forEach {A S} (body : S -> A -> Completion S) (l : list A) (s : S)
  : Completion S :=
  match l with
  | [] => Normal s
  | a :: l' => s' <- body s a ;; forEach body l' s'
  end.

(** A loop that pushes one element per iteration onto a fresh array. *)
Fixpoint collect {A B} (body : A -> Completion B) (l : list A) : Completion (list B) :=
  match l with
  | [] => Normal []
  | a :: l' => b <- body a ;; bs <- collect body l' ;; Normal (b :: bs)
  end.

(** ** Data *)

(** MediaPipe's handedness label. *)
Inductive Handedness := Left | Right.

(** The texts [updateStatus] is called with by the modelled methods:
    - [ShowEntireHand]: 'Show entire hand in frame'
    - [ExtendFingers]: 'Extend your fingers'
    - [MoveHandBack]: 'Move hand back slightly'
    - [MoveHandCloser]: 'Move hand closer'
    - [CenterPalm]: 'Center your palm'
    - [ClosePalmABit]: 'Close your palm a bit'
    - [RotateCounterClockwise]: 'Rotate hand counter-clockwise'
    - [RotateClockwise]: 'Rotate hand clockwise'
    - [OpenPalmFully]: 'Open your palm fully'
    - [PerfectHoldSteady]: 'Perfect! Hold steady'
    - [NoPalmDetected]: 'No palm detected'
    - [FacePalmToCamera]: 'Face your palm to the camera'
    - [PlacePalmInView]: 'Place your palm in view'
    - [ReadyToScan]: 'Ready to Scan' *)
Inductive StatusText :=
| ShowEntireHand | ExtendFingers | MoveHandBack | MoveHandCloser | CenterPalm
| ClosePalmABit | RotateCounterClockwise | RotateClockwise | OpenPalmFully
| PerfectHoldSteady | NoPalmDetected | FacePalmToCamera | PlacePalmInView
| ReadyToScan.

(** The second argument of [updateStatus]: 'error', 'warning', 'success', ''. *)
Inductive StatusType := TError | TWarning | TSuccess | TNone.

(** The branch of the validation chain a frame takes, under the
    specification's names. [Rotated true] asks for a counter-clockwise
    correction ([rotation > 0]), [Rotated false] for a clockwise one. *)
Inductive Classification :=
| OutOfFrame | FingersNotExtended | TooClose | TooFar | NotCentered
| WrongOrientation | Rotated (counterClockwise : bool) | NotFlat | Perfect.

Definition guidance (c : Classification) : StatusText * StatusType :=
  match c with
  | OutOfFrame => (ShowEntireHand, TError)
  | FingersNotExtended => (ExtendFingers, TWarning)
  | TooClose => (MoveHandBack, TWarning)
  | TooFar => (MoveHandCloser, TWarning)
  | NotCentered => (CenterPalm, TWarning)
  | WrongOrientation => (ClosePalmABit, TWarning)
  | Rotated true => (RotateCounterClockwise, TWarning)
  | Rotated false => (RotateClockwise, TWarning)
  | NotFlat => (OpenPalmFully, TWarning)
  | Perfect => (PerfectHoldSteady, TSuccess)
  end.

(** [capture] takes one regular image, or an IR and a regular one in IR mode. *)
Inductive CaptureMode := SingleRegular | DualIrRegular.

(** Constructor constants of [DotProjector]. *)
Definition historySize : nat := 5.
Definition captureCooldown : Z := 3000.

(** ** Pose metrics *)

Section PoseMetrics.

Context {num : Type} `{JsNumber num}.
Local Open Scope js_scope.

(** One hand landmark [{x, y, z}]: [x], [y] normalised to the frame, [z] a
    relative depth. *)
Record Landmark := mkLandmark { px : num; py : num; pz : num }.

(** The array of landmarks of one hand (21 of them from MediaPipe). *)
Definition Landmarks := list Landmark.

(** [landmarks[i]] followed by a property read. *)
Definition get (landmarks : Landmarks) (i : nat) : Completion Landmark :=
  match nth_error landmarks i with
  | Some p => Normal p
  | None => Throw
  end.

(** [Math.pow(a, 2)], read as the square. *)
Definition pow2 (a : num) : num := a * a.

(** [stabilizeLandmarks(history)] (lines 653-680); the inner result is [null]
    for an empty history. *)
Definition stabilizeLandmarks (history : list Landmarks)
  : Completion (option Landmarks) :=
  match history with
  | [] => Normal None
  | [frame] => Normal (Some frame)
  | _ =>
    stabilized <-
      collect (fun i : nat =>
        '(x, y, z, weight) <-
          forEach (fun '(x, y, z, weight) '(frameIdx, frame) =>
              let w := fromZ (Z.of_nat frameIdx + 1) / fromZ (Z.of_nat (length history)) in
              p <- get frame i ;;
              Normal (x + px p * w, y + py p * w, z + pz p * w, weight + w))
            (combine (seq 0 (length history)) history)
            (fromZ 0, fromZ 0, fromZ 0, fromZ 0) ;;
        Normal (mkLandmark (x / weight) (y / weight) (z / weight)))
      (seq 0 21) ;;
    Normal (Some stabilized)
  end.

(** [calculatePalmCenter] (lines 1107-1115). *)
Definition calculatePalmCenter (landmarks : Landmarks) : Completion Landmark :=
  wrist <- get landmarks 0 ;;
  middleBase <- get landmarks 9 ;;
  Normal (mkLandmark ((px wrist + px middleBase) / fromZ 2)
                     ((py wrist + py middleBase) / fromZ 2)
                     ((pz wrist + pz middleBase) / fromZ 2)).

(** [calculatePalmArea] (lines 1198-1211): the shoelace sum over wrist and
    finger bases. *)
Definition palmPoints : list nat := [0; 5; 9; 13; 17]%nat.

Definition calculatePalmArea (landmarks : Landmarks) : Completion num :=
  area <-
    forEach (fun area (i : nat) =>
        let j := ((i + 1) mod length palmPoints)%nat in
        p1 <- get landmarks (nth i palmPoints 0%nat) ;;
        p2 <- get landmarks (nth j palmPoints 0%nat) ;;
        Normal (area + (px p1 * py p2 - px p2 * py p1)))
      (seq 0 (length palmPoints)) (fromZ 0) ;;
  Normal (Math_abs (area / fromZ 2)).

(** The mapping from palm area to centimetres inside [calculateDistance]
    (lines 1135-1147). *)
Definition distanceFromArea (palmArea : num) : num :=
  if palmArea >? lit 8 100 then fromZ 5
  else if palmArea >? lit 5 100 then
    Math_round (fromZ 5 + (lit 8 100 - palmArea) * fromZ 500)
  else if palmArea >? lit 1 100 then
    Math_round (fromZ 20 + (lit 5 100 - palmArea) * fromZ 625)
  else
    Math_round (fromZ 45 + (lit 1 100 - palmArea) * fromZ 4000).

(** [calculateDistance(palmCenter)] (lines 1124-1148): the argument is not
    used, the area is taken from [this.palmData]. *)
Definition calculateDistance (this_palmData : option Landmarks) (palmCenter : Landmark)
  : Completion num :=
  match this_palmData with
  | Some palmData =>
      palmArea <- calculatePalmArea palmData ;;
      Normal (distanceFromArea palmArea)
  | None => Throw
  end.

(** [calculateFingerSpread] (lines 1213-1229). *)
Definition fingertips : list nat := [4; 8; 12; 16; 20]%nat.

Definition calculateFingerSpread (landmarks : Landmarks) : Completion num :=
  totalSpread <-
    forEach (fun totalSpread (i : nat) =>
        p1 <- get landmarks (nth i fingertips 0%nat) ;;
        p2 <- get landmarks (nth (i + 1) fingertips 0%nat) ;;
        let distance := Math_sqrt (pow2 (px p1 - px p2) + pow2 (py p1 - py p2)) in
        Normal (totalSpread + distance))
      (seq 0 (length fingertips - 1)) (fromZ 0) ;;
  Normal (totalSpread / fromZ (Z.of_nat (length fingertips - 1))).

(** [calculatePalmNormal] (lines 1560-1602). *)
Definition calculatePalmNormal (landmarks : Landmarks) : Completion Landmark :=
  wrist <- get landmarks 0 ;;
  index <- get landmarks 5 ;;
  pinky <- get landmarks 17 ;;
  let isLeftHand := px index >? px pinky in
  let v1 := mkLandmark (px index - px wrist) (py index - py wrist) (pz index - pz wrist) in
  let v2 := mkLandmark (px pinky - px wrist) (py pinky - py wrist) (pz pinky - pz wrist) in
  let normal := mkLandmark (py v1 * pz v2 - pz v1 * py v2)
                           (pz v1 * px v2 - px v1 * pz v2)
                           (px v1 * py v2 - py v1 * px v2) in
  let normal :=
    if isLeftHand
    then mkLandmark (px normal * fromZ (-1)) (py normal * fromZ (-1)) (pz normal * fromZ (-1))
    else normal in
  let length :=
    Math_sqrt (px normal * px normal + py normal * py normal + pz normal * pz normal) in
  Normal (mkLandmark (px normal / length) (py normal / length) (pz normal / length)).

(** The edge test both visibility checks apply to a landmark. *)
Definition nearEdge (margin : num) (landmark : Landmark) : bool :=
  (px landmark <? margin) || (px landmark >? fromZ 1 - margin) ||
  (py landmark <? margin) || (py landmark >? fromZ 1 - margin).

(** [calculateAlignment] (lines 1150-1196). *)
Definition criticalPoints : list nat := [0; 4; 8; 12; 16; 20]%nat.

Definition calculateAlignment (landmarks : Landmarks) : Completion num :=
  let margin := lit 3 100 in
  allVisible <-
    forEach (fun (allVisible : bool) (idx : nat) =>
        landmark <- get landmarks idx ;;
        Normal (if nearEdge margin landmark then false else allVisible))
      criticalPoints true ;;
  if negb allVisible then Normal (fromZ 0)
  else
    palmArea <- calculatePalmArea landmarks ;;
    let minArea := lit 1 100 in
    let maxArea := lit 4 10 in
    let areaScore :=
      if palmArea <? minArea then palmArea / minArea
      else if palmArea >? maxArea then lit 8 10 else fromZ 1 in
    palmNormal <- calculatePalmNormal landmarks ;;
    let orientationScore :=
      Math_max (fromZ 0) (Math_min (fromZ 1) (pz palmNormal * lit 15 10)) in
    fingerSpread <- calculateFingerSpread landmarks ;;
    let spreadScore := Math_min (fromZ 1) (fingerSpread / lit 1 10) in
    palmCenter <- calculatePalmCenter landmarks ;;
    let centerDistance :=
      Math_sqrt (pow2 (px palmCenter - lit 5 10) + pow2 (py palmCenter - lit 5 10)) in
    let centerScore := Math_max (lit 5 10) (fromZ 1 - centerDistance) in
    let alignment :=
      if allVisible
      then areaScore * lit 25 100 + orientationScore * lit 35 100
           + spreadScore * lit 15 100 + centerScore * lit 25 100
      else fromZ 0 in
    Normal (Math_max (fromZ 0) (Math_min (fromZ 1) alignment)).

(** [checkFingerExtension] (lines 1231-1273): each group is base, joint,
    joint, tip; the second entry is not read. *)
Definition fingerGroups : list (nat * nat * nat * nat) :=
  [(5, 6, 7, 8); (9, 10, 11, 12); (13, 14, 15, 16); (17, 18, 19, 20)]%nat.

Definition checkFingerExtension (landmarks : Landmarks) : Completion bool :=
  extendedCount <-
    forEach (fun (extendedCount : nat) '(f0, _, f2, f3) =>
        base <- get landmarks f0 ;;
        middle <- get landmarks f2 ;;
        tip <- get landmarks f3 ;;
        let v1x := px middle - px base in
        let v1y := py middle - py base in
        let v2x := px tip - px middle in
        let v2y := py tip - py middle in
        let dot := v1x * v2x + v1y * v2y in
        let mag1 := Math_sqrt (v1x * v1x + v1y * v1y) in
        let mag2 := Math_sqrt (v2x * v2x + v2y * v2y) in
        let alignment := dot / (mag1 * mag2) in
        Normal (if alignment >? lit 5 10 then S extendedCount else extendedCount))
      fingerGroups 0%nat ;;
  Normal (3 <=? extendedCount)%nat.

(** [checkHandFlatness] (lines 1282-1326). *)
Definition fingerTips : list nat := [4; 8; 12; 16; 20]%nat.
Definition fingerMids : list nat := [3; 6; 10; 14; 18]%nat.

Definition checkHandFlatness (landmarks : Landmarks) : Completion bool :=
  palmCenter <- calculatePalmCenter landmarks ;;
  openFingers <-
    forEach (fun (openFingers : nat) '(tipIdx, i) =>
        tip <- get landmarks tipIdx ;;
        mid <- get landmarks (nth i fingerMids 0%nat) ;;
        let tipToPalmDist :=
          Math_sqrt (pow2 (px tip - px palmCenter) + pow2 (py tip - py palmCenter)) in
        let tipToMidDist :=
          Math_sqrt (pow2 (px tip - px mid) + pow2 (py tip - py mid)) in
        Normal (if (tipToPalmDist >? lit 15 100) && (tipToMidDist >? lit 5 100)
                then S openFingers else openFingers))
      (combine fingerTips (seq 0 (length fingerTips))) 0%nat ;;
  wrist <- get landmarks 0 ;;
  let palmBase := pz wrist in
  maxZDeviation <-
    forEach (fun maxZDeviation (idx : nat) =>
        p <- get landmarks idx ;;
        let deviation := Math_abs (pz p - palmBase) in
        Normal (Math_max maxZDeviation deviation))
      fingerTips (fromZ 0) ;;
  Normal ((3 <=? openFingers)%nat && (maxZDeviation <? lit 15 100)).

(** [checkPalmOrientation] (lines 1335-1400): the depth check and the sign of
    the z component of the palm normal, which [this.handedness] selects. *)
Definition checkPalmOrientation (this_handedness : option Handedness)
    (landmarks : Landmarks) : Completion bool :=
  wrist <- get landmarks 0 ;;
  indexMcp <- get landmarks 5 ;;
  middleMcp <- get landmarks 9 ;;
  ringMcp <- get landmarks 13 ;;
  pinkyMcp <- get landmarks 17 ;;
  let isLeftHand := match this_handedness with Some Left => true | _ => false end in
  sumZ <- forEach (fun sum (idx : nat) => tip <- get landmarks idx ;; Normal (sum + pz tip))
            [4; 8; 12; 16; 20]%nat (fromZ 0) ;;
  let avgFingertipZ := sumZ / fromZ 5 in
  let avgMcpZ := (pz indexMcp + pz middleMcp + pz ringMcp + pz pinkyMcp) / fromZ 4 in
  let depthCheck := avgFingertipZ <? avgMcpZ + lit 1 100 in
  let v1x := px indexMcp - px wrist in
  let v1y := py indexMcp - py wrist in
  let v2x := px pinkyMcp - px wrist in
  let v2y := py pinkyMcp - py wrist in
  let normal_z := v1x * v2y - v1y * v2x in
  let normalCheck := if isLeftHand then normal_z <? fromZ 0 else normal_z >? fromZ 0 in
  Normal (depthCheck && normalCheck).

(** [checkHandRotation] (lines 1471-1503). *)
Definition checkHandRotation `{JsTrig num} (landmarks : Landmarks) : Completion num :=
  wrist <- get landmarks 0 ;;
  middleBase <- get landmarks 9 ;;
  index <- get landmarks 5 ;;
  pinky <- get landmarks 17 ;;
  let isLeftHand := px index >? px pinky in
  let baseVector_x := px middleBase - px wrist in
  let baseVector_y := py middleBase - py wrist in
  let verticalVector_x := fromZ 0 in
  let verticalVector_y := fromZ (-1) in
  let dot := baseVector_x * verticalVector_x + baseVector_y * verticalVector_y in
  let det := baseVector_x * verticalVector_y - baseVector_y * verticalVector_x in
  let angle := Math_atan2 det dot * (fromZ 180 / Math_PI) in
  Normal (if isLeftHand then - angle else angle).

End PoseMetrics.

(** ** The controller: validation chain, debouncer, capture, session *)

Section Controller.

Context {num : Type} `{JsNumber num} `{JsTrig num}.
Local Open Scope js_scope.

(** A capture that [capture] has started: its mode and the copy of
    [this.palmData] it took ([currentPalmData]).  The image encoding and the
    record pushed onto [this.captures] happen later, in callbacks. *)
Record Shot := mkShot { shotMode : CaptureMode; shotPalm : list (@Landmark num) }.

(** The fields of [DotProjector] the core reads and writes.  [srcObject] tells
    whether [videoElement.srcObject] is set; [status] is the last
    [updateStatus] call; [shots] lists the captures started so far, newest
    first. *)
Record DotProjector := mkDotProjector {
  palmData : option (list (@Landmark num));
  handedness : option Handedness;
  landmarkHistory : list (list (@Landmark num));
  isScanning : bool;
  srcObject : bool;
  irMode : bool;
  isAutoCapturing : bool;
  perfectAlignmentTime : Z;
  lastCaptureTime : Z;
  status : StatusText * StatusType;
  shots : list Shot
}.

(** The state the constructor leaves. *)
Definition initial : DotProjector :=
  mkDotProjector None None [] false false false false 0 0 (ReadyToScan, TNone) [].

Definition updateStatus (this : DotProjector) (text : StatusText) (type : StatusType)
  : DotProjector :=
  mkDotProjector (palmData this) (handedness this) (landmarkHistory this)
    (isScanning this) (srcObject this) (irMode this) (isAutoCapturing this)
    (perfectAlignmentTime this) (lastCaptureTime this) (text, type) (shots this).

(** [this.perfectAlignmentTime = t; this.isAutoCapturing = b]. *)
Definition setDebounce (this : DotProjector) (b : bool) (t : Z) : DotProjector :=
  mkDotProjector (palmData this) (handedness this) (landmarkHistory this)
    (isScanning this) (srcObject this) (irMode this) b t
    (lastCaptureTime this) (status this) (shots this).

Definition setLastCaptureTime (this : DotProjector) (t : Z) : DotProjector :=
  mkDotProjector (palmData this) (handedness this) (landmarkHistory this)
    (isScanning this) (srcObject this) (irMode this) (isAutoCapturing this)
    (perfectAlignmentTime this) t (status this) (shots this).

Definition pushShot (this : DotProjector) (s : Shot) : DotProjector :=
  mkDotProjector (palmData this) (handedness this) (landmarkHistory this)
    (isScanning this) (srcObject this) (irMode this) (isAutoCapturing this)
    (perfectAlignmentTime this) (lastCaptureTime this) (status this) (s :: shots this).

(** [capture()] (lines 1702-1785), up to the start of the image encoding. *)
Definition capture (this : DotProjector) : Completion DotProjector :=
  match palmData this, srcObject this with
  | Some palm, true =>
      isHandFlat <- checkHandFlatness palm ;;
      isPalmOriented <- checkPalmOrientation (handedness this) palm ;;
      if negb isHandFlat then
        Normal (setDebounce (updateStatus this OpenPalmFully TWarning) false 0)
      else if negb isPalmOriented then
        Normal (setDebounce (updateStatus this FacePalmToCamera TWarning) false 0)
      else
        let mode := if irMode this then DualIrRegular else SingleRegular in
        Normal (setDebounce (pushShot this (mkShot mode palm)) false 0)
  | _, _ => Normal (updateStatus this NoPalmDetected TError)
  end.

(** [handlePerfectAlignment()] (lines 1663-1682); [now] is what [Date.now()]
    returns, and the boolean tells whether [this.capture()] was called. *)
Definition handlePerfectAlignment (now : Z) (this : DotProjector)
  : Completion (DotProjector * bool) :=
  if (now - lastCaptureTime this <? captureCooldown)%Z then Normal (this, false)
  else
    let this := if negb (isAutoCapturing this) then setDebounce this true now else this in
    if (now - perfectAlignmentTime this >=? 500)%Z then
      this <- capture this ;;
      let this := setDebounce this false (perfectAlignmentTime this) in
      Normal (setLastCaptureTime this now, true)
    else Normal (this, false).

(** The edge-of-frame test of [updatePalmVisualization] (lines 1038-1046). *)
Definition handFullyVisible (landmarks : list (@Landmark num)) : bool :=
  let margin := lit 5 100 in
  forallb (fun landmark => negb (nearEdge margin landmark)) landmarks.

(** The branch the chain of [updatePalmVisualization] takes (lines 919-921
    and 1038-1104); [None] when no branch is taken. *)
Definition classify (this : DotProjector) (landmarks : list (@Landmark num))
  : Completion (option Classification) :=
  palmCenter <- calculatePalmCenter landmarks ;;
  distance <- calculateDistance (palmData this) palmCenter ;;
  alignment <- calculateAlignment landmarks ;;
  indexMcp <- get landmarks 5 ;;
  pinkyMcp <- get landmarks 17 ;;
  let fullyVisible := handFullyVisible landmarks in
  fingersExtended <- checkFingerExtension landmarks ;;
  if negb fullyVisible then Normal (Some OutOfFrame)
  else if negb fingersExtended then Normal (Some FingersNotExtended)
  else if distance <? fromZ 5 then Normal (Some TooClose)
  else if distance >? fromZ 45 then Normal (Some TooFar)
  else if alignment <? lit 3 10 then Normal (Some NotCentered)
  else if (distance >=? fromZ 5) && (distance <=? fromZ 45)
          && (alignment >=? lit 3 10) && fingersExtended then
    isHandFlat <- checkHandFlatness landmarks ;;
    isPalmFacingCamera <- checkPalmOrientation (handedness this) landmarks ;;
    rotation <- checkHandRotation landmarks ;;
    if negb isPalmFacingCamera then Normal (Some WrongOrientation)
    else if Math_abs rotation >? fromZ 30 then Normal (Some (Rotated (rotation >? fromZ 0)))
    else if negb isHandFlat then Normal (Some NotFlat)
    else Normal (Some Perfect)
  else Normal None.

(** [updatePalmVisualization(landmarks)], the status and debounce effects of
    the branch taken; the boolean tells whether [capture] was called. *)
Definition updatePalmVisualization (now : Z) (this : DotProjector)
    (landmarks : list (@Landmark num)) : Completion (DotProjector * bool) :=
  branch <- classify this landmarks ;;
  match branch with
  | None => Normal (this, false)
  | Some Perfect =>
      handlePerfectAlignment now (updateStatus this PerfectHoldSteady TSuccess)
  | Some c =>
      let '(text, type) := guidance c in
      Normal (setDebounce (updateStatus this text type) false 0, false)
  end.

(** [this.landmarkHistory.push(raw)] followed by the [shift()] past
    [historySize]. *)
Definition pushHistory (history : list (list (@Landmark num)))
    (rawLandmarks : list (@Landmark num)) : list (list (@Landmark num)) :=
  let history := history ++ [rawLandmarks] in
  if (historySize <? length history)%nat then tl history else history.

(** [onHandResults(results)] (lines 609-647): [results] is [None] when no hand
    was detected, and otherwise the first hand's landmarks with its
    handedness label when MediaPipe gives one. *)
Definition onHandResults (now : Z) (this : DotProjector)
    (results : option (list (@Landmark num) * option Handedness))
  : Completion (DotProjector * bool) :=
  match results with
  | Some (rawLandmarks, label) =>
      let history := pushHistory (landmarkHistory this) rawLandmarks in
      stabilized <- stabilizeLandmarks history ;;
      let this :=
        mkDotProjector stabilized
          (match label with Some l => Some l | None => handedness this end)
          history (isScanning this) (srcObject this) (irMode this)
          (isAutoCapturing this) (perfectAlignmentTime this) (lastCaptureTime this)
          (status this) (shots this) in
      match stabilized with
      | Some landmarks => updatePalmVisualization now this landmarks
      | None => Throw
      end
  | None =>
      Normal (mkDotProjector None None [] (isScanning this) (srcObject this)
                (irMode this) (isAutoCapturing this) (perfectAlignmentTime this)
                (lastCaptureTime this) (PlacePalmInView, TWarning) (shots this),
              false)
  end.

(** [stopScanning()] (lines 574-588). *)
Definition stopScanning (this : DotProjector) : DotProjector :=
  mkDotProjector (palmData this) (handedness this) (landmarkHistory this)
    false false (irMode this) (isAutoCapturing this)
    (perfectAlignmentTime this) (lastCaptureTime this) (ReadyToScan, TNone) (shots this).

(** [this.palmData = landmarks], as [onHandResults] sets it before the chain
    runs. *)
Definition setPalmData (this : DotProjector) (landmarks : list (@Landmark num))
  : DotProjector :=
  mkDotProjector (Some landmarks) (handedness this) (landmarkHistory this)
    (isScanning this) (srcObject this) (irMode this) (isAutoCapturing this)
    (perfectAlignmentTime this) (lastCaptureTime this) (status this) (shots this).

(** A run of frames the chain classifies [Perfect], each with its time and its
    stabilized hand: per frame, [this.palmData] is that hand and the Perfect
    branch of [updatePalmVisualization] runs.  The result lists, per frame,
    whether [capture] was called. *)
Fixpoint perfectFrames (frames : list (Z * list (@Landmark num))) (this : DotProjector)
  : Completion (DotProjector * list bool) :=
  match frames with
  | [] => Normal (this, [])
  | (now, landmarks) :: rest =>
      '(this, fired) <-
        handlePerfectAlignment now
          (updateStatus (setPalmData this landmarks) PerfectHoldSteady TSuccess) ;;
      '(this, fires) <- perfectFrames rest this ;;
      Normal (this, fired :: fires)
  end.

(** The frame callback run on a sequence of detector results, each with the
    time [Date.now()] gives during it; the result lists, per frame, the text
    on the status line after it and whether [capture] was called. *)
Fixpoint feed (frames : list (Z * option (list (@Landmark num) * option Handedness)))
    (this : DotProjector) : Completion (DotProjector * list (StatusText * bool)) :=
  match frames with
  | [] => Normal (this, [])
  | (now, results) :: rest =>
      '(this, fired) <- onHandResults now this results ;;
      '(this', log) <- feed rest this ;;
      Normal (this', (fst (status this), fired) :: log)
  end.

(** The hands [palms] as frames [100] ms apart, starting at [t0]. *)
Fixpoint every100ms (t0 : Z) (palms : list (list (@Landmark num)))
  : list (Z * list (@Landmark num)) :=
  match palms with
  | [] => []
  | palm :: rest => (t0, palm) :: every100ms (t0 + 100)%Z rest
  end.

End Controller.

(** ** The display: metrics panel, hand colour, rotation indicator *)

Section Display.

Context {num : Type} `{JsNumber num} `{JsTrig num}.
Local Open Scope js_scope.

(** [array.reduce(f)] without an initial value: a [TypeError] on an empty
    array, and otherwise the fold from the first element on. *)
Definition reduce1 {A} (f : A -> A -> A) (l : list A) : Completion A :=
  match l with
  | [] => Throw
  | a :: l' => Normal (fold_left f l' a)
  end.

(** [detectFeatures] (lines 1633-1647). *)
Definition detectFeatures (landmarks : list (@Landmark num)) : Completion num :=
  fingerSpreads <-
    collect (fun i : nat =>
        finger1 <- get landmarks (4 + i * 4) ;;
        finger2 <- get landmarks (8 + i * 4) ;;
        Normal (Math_sqrt (pow2 (px finger1 - px finger2)
                           + pow2 (py finger1 - py finger2))))
      (seq 0 4) ;;
  total <- reduce1 num_add fingerSpreads ;;
  let avgSpread := total / fromZ (Z.of_nat (length fingerSpreads)) in
  Normal (Math_min (fromZ 100) (avgSpread * fromZ 500)).

(** [updateMetricBar(metric, value, max)] (lines 1649-1653): the percentage
    it sets as the width of the bar. *)
Definition updateMetricBar (value max : num) : num :=
  Math_min (fromZ 100) (value / max * fromZ 100).

(** The result of [calculateHandOrientation], in degrees. *)
Record Orientation := mkOrientation { pitch : num; roll : num; yaw : num }.

(** [calculateHandOrientation] (lines 1512-1558). *)
Definition calculateHandOrientation (landmarks : list (@Landmark num))
  : Completion Orientation :=
  wrist <- get landmarks 0 ;;
  middleBase <- get landmarks 9 ;;
  indexBase <- get landmarks 5 ;;
  pinkyBase <- get landmarks 17 ;;
  let xAxis := mkLandmark (px indexBase - px pinkyBase) (py indexBase - py pinkyBase)
                          (pz indexBase - pz pinkyBase) in
  let yAxis := mkLandmark (px middleBase - px wrist) (py middleBase - py wrist)
                          (pz middleBase - pz wrist) in
  let xLength := Math_sqrt (pow2 (px xAxis) + pow2 (py xAxis) + pow2 (pz xAxis)) in
  let yLength := Math_sqrt (pow2 (px yAxis) + pow2 (py yAxis) + pow2 (pz yAxis)) in
  let xAxis := mkLandmark (px xAxis / xLength) (py xAxis / xLength) (pz xAxis / xLength) in
  let yAxis := mkLandmark (px yAxis / yLength) (py yAxis / yLength) (pz yAxis / yLength) in
  let zAxis := mkLandmark (py xAxis * pz yAxis - pz xAxis * py yAxis)
                          (pz xAxis * px yAxis - px xAxis * pz yAxis)
                          (px xAxis * py yAxis - py xAxis * px yAxis) in
  let pitch :=
    Math_atan2 (- py zAxis) (Math_sqrt (pow2 (px zAxis) + pow2 (pz zAxis)))
    * fromZ 180 / Math_PI in
  let roll := Math_atan2 (pz xAxis) (pz yAxis) * fromZ 180 / Math_PI in
  yaw <- checkHandRotation landmarks ;;
  Normal (mkOrientation pitch roll yaw).

(** What [updateMetrics] stores and shows: [this.currentOrientation],
    [this.currentPosition], the widths of the three bars in percent, and the
    three numbers printed next to them (before 'cm' and '%'). *)
Record MetricsPanel := mkMetricsPanel {
  currentOrientation : Orientation;
  currentPosition : @Landmark num;
  distanceFill : num;
  alignmentFill : num;
  featuresFill : num;
  distanceValue : num;
  alignmentValue : num;
  featuresValue : num
}.

(** [updateMetrics(landmarks)] (lines 1604-1631); [None] when it returns at
    once because [landmarks] is [null]. *)
Definition updateMetrics (this : @DotProjector num)
    (landmarks : option (list (@Landmark num))) : Completion (option MetricsPanel) :=
  match landmarks with
  | None => Normal None
  | Some landmarks =>
      palmCenter <- calculatePalmCenter landmarks ;;
      distance <- calculateDistance (palmData this) palmCenter ;;
      alignment <- calculateAlignment landmarks ;;
      features <- detectFeatures landmarks ;;
      orientation <- calculateHandOrientation landmarks ;;
      Normal (Some (mkMetricsPanel orientation
        (mkLandmark (px palmCenter * fromZ 100) (py palmCenter * fromZ 100) distance)
        (updateMetricBar distance (fromZ 50))
        (updateMetricBar (alignment * fromZ 100) (fromZ 100))
        (updateMetricBar features (fromZ 100))
        (Math_round distance)
        (Math_round (alignment * fromZ 100))
        (Math_round features)))
  end.

(** The content of the rotation indicator: 'Rotate CCW' or 'Rotate CW'. *)
Inductive RotationHint := RotateCCW | RotateCW.

(** [updateRotationIndicator(rotation)] (lines 777-814).  The element
    [rotationIndicator] is [None] while it does not exist, and otherwise its
    content and whether its [display] is 'flex' (not 'none'). *)
Definition updateRotationIndicator (rotation : num)
    (indicator : option (RotationHint * bool)) : option (RotationHint * bool) :=
  if Math_abs rotation >? fromZ 30 then
    Some (if rotation >? fromZ 0 then RotateCCW else RotateCW, true)
  else
    match indicator with
    | Some (hint, _) => Some (hint, false)
    | None => None
    end.

(** The colours of the hand skeleton: [0xff0000], [0x00ff00], [0xffff00]. *)
Inductive HandColor := Red | Green | Yellow.

(** [updateHandVisualization(landmarks)] (lines 682-710): the rotation
    indicator it leaves and the colour it draws the hand in.  The position
    and size buffers it fills afterwards are not part of the model. *)
Definition updateHandVisualization (this : @DotProjector num)
    (indicator : option (RotationHint * bool)) (landmarks : list (@Landmark num))
  : Completion (option (RotationHint * bool) * HandColor) :=
  rotation <- checkHandRotation landmarks ;;
  let indicator := updateRotationIndicator rotation indicator in
  palmCenter <- calculatePalmCenter landmarks ;;
  distance <- calculateDistance (palmData this) palmCenter ;;
  alignment <- calculateAlignment landmarks ;;
  isPalmOriented <- checkPalmOrientation (handedness this) landmarks ;;
  isFlatEnough <- checkHandFlatness landmarks ;;
  fingersExtended <- checkFingerExtension landmarks ;;
  let handColor :=
    if distance >? fromZ 45 then Red
    else if distance <? fromZ 8 then Red
    else if (distance >=? fromZ 8) && (distance <=? fromZ 45)
            && (alignment >=? lit 3 10) && isPalmOriented && isFlatEnough
            && (Math_abs rotation <=? fromZ 30) then Green
    else Yellow in
  Normal (indicator, handColor).

(** The warning triangles of [drawEdgeWarnings]: the edge and the position
    along it. *)
Inductive EdgeWarning :=
| LeftEdge (y : num) | RightEdge (y : num) | TopEdge (x : num) | BottomEdge (x : num).

(** [drawEdgeWarnings(landmarks, ctx, w, h)] (lines 857-916): the triangles
    it draws, in drawing order. *)
Definition drawEdgeWarnings (landmarks : list (@Landmark num)) (w h : num)
  : list EdgeWarning :=
  let margin := lit 5 100 in
  flat_map (fun landmark =>
      if (px landmark <? margin) || (px landmark >? fromZ 1 - margin) ||
         (py landmark <? margin) || (py landmark >? fromZ 1 - margin)
      then
        (if px landmark <? margin then [LeftEdge (py landmark * h)]
         else if px landmark >? fromZ 1 - margin then [RightEdge (py landmark * h)]
         else [])
        ++
        (if py landmark <? margin then [TopEdge (px landmark * w)]
         else if py landmark >? fromZ 1 - margin then [BottomEdge (px landmark * w)]
         else [])
      else [])
    landmarks.

End Display.

(** ** The captured image: palm bounds and framing *)

Section Framing.

Context {num : Type} `{JsNumber num}.
Local Open Scope js_scope.

(** The result of [getPalmBounds], in canvas pixels. *)
Record PalmBounds := mkPalmBounds {
  left : num; top : num; width : num; height : num;
  centerX : num; centerY : num; radius : num
}.

(** [getPalmBounds(landmarks, w, h, padding)] (lines 2294-2331);
    [landmarks] is [None] for [null]. *)
Definition getPalmBounds (landmarks : option (list (@Landmark num)))
    (w h padding : num) : PalmBounds :=
  match landmarks with
  | None | Some [] =>
      mkPalmBounds (w * lit 2 10) (h * lit 2 10) (w * lit 6 10) (h * lit 6 10)
                   (w * lit 5 10) (h * lit 5 10) (Math_min w h * lit 3 10)
  | Some landmarks =>
      let '(minX, maxX, minY, maxY) :=
        fold_left (fun '(minX, maxX, minY, maxY) landmark =>
                     (Math_min minX (px landmark), Math_max maxX (px landmark),
                      Math_min minY (py landmark), Math_max maxY (py landmark)))
                  landmarks (fromZ 1, fromZ 0, fromZ 1, fromZ 0) in
      let left := Math_max (fromZ 0) (minX * w - padding) in
      let top := Math_max (fromZ 0) (minY * h - padding) in
      let right := Math_min w (maxX * w + padding) in
      let bottom := Math_min h (maxY * h + padding) in
      mkPalmBounds left top (right - left) (bottom - top)
                   ((left + right) / fromZ 2) ((top + bottom) / fromZ 2)
                   (Math_max (right - left) (bottom - top) / fromZ 2)
  end.

(** The zoom and translation [createRegularCapture] and
    [createIRVeinCapture] draw the video frame with (lines 1993-2003 and
    2040-2050), and the centre and radius of the vignette that
    [applyPortraitBlur] and [applyIRPortraitEffect] lay over it (lines
    2181-2183 and 2220-2222). *)
Record CaptureFraming := mkCaptureFraming {
  zoomFactor : num; translateX : num; translateY : num;
  vignetteX : num; vignetteY : num; vignetteRadius : num
}.

Definition captureFraming (landmarks : list (@Landmark num)) (w h : num)
  : CaptureFraming :=
  let palmBounds := getPalmBounds (Some landmarks) w h (fromZ 80) in
  let zoomFactorX := w / width palmBounds in
  let zoomFactorY := h / height palmBounds in
  let zoomFactor := Math_min zoomFactorX zoomFactorY * lit 8 10 in
  let translateX :=
    (w - width palmBounds * zoomFactor) / fromZ 2 - left palmBounds * zoomFactor in
  let translateY :=
    (h - height palmBounds * zoomFactor) / fromZ 2 - top palmBounds * zoomFactor in
  mkCaptureFraming zoomFactor translateX translateY
    (translateX + centerX palmBounds * zoomFactor)
    (translateY + centerY palmBounds * zoomFactor)
    (radius palmBounds * zoomFactor * lit 15 10).

End Framing.

(** ** The gallery: storing, deleting and reloading captures *)

Section Gallery.

Context {num : Type} `{JsNumber num}.
Local Open Scope js_scope.

(** The [type] of a capture: 'regular' or 'ir'. *)
Inductive CaptureType := regular | ir.

Record Metrics := mkMetrics { distance : num; alignment : num }.

(** An entry of [this.captures]; [pairedWith] is absent ([None]) on a single
    capture. *)
Record CaptureData := mkCaptureData {
  id : Z;
  image : String.string;
  type : CaptureType;
  timestamp : String.string;
  metrics : Metrics;
  pairedWith : option Z
}.

(** [this.captures] and the item 'palmCaptures' of [localStorage] ([None]
    while there is no such item).  The item is the JSON text of a list of
    captures; the model keeps the list. *)
Record Gallery := mkGallery {
  captures : list CaptureData;
  palmCaptures : option (list CaptureData)
}.

(** What a call of [localStorage.setItem] does: it stores the value, or
    throws an error named 'QuotaExceededError', or throws another error. *)
Inductive SetItem := Stored | QuotaExceededError | OtherError.

(** The constructor's [JSON.parse(localStorage.getItem('palmCaptures') || '[]')]
    (line 91). *)
Definition loadCaptures (item : option (list CaptureData)) : list CaptureData :=
  match item with
  | Some captures => captures
  | None => []
  end.

(** The end of both capture callbacks (lines 1758-1772 and 1923-1937), after
    the new entries are put in front: the cut to 10 entries, the write to
    [localStorage], and the retry with 5 entries when the quota is exceeded.
    [setItem] is the behaviour of the browser's storage on a value.  The
    boolean tells whether the statement after the [try] is reached, which
    shows the success message; it is not when the retry throws. *)
Definition storeCaptures (setItem : list CaptureData -> SetItem) (g : Gallery)
  : Gallery * bool :=
  let captures :=
    if (10 <? length (captures g))%nat then firstn 10 (captures g) else captures g in
  match setItem captures with
  | Stored => (mkGallery captures (Some captures), true)
  | QuotaExceededError =>
      let captures := firstn 5 captures in
      match setItem captures with
      | Stored => (mkGallery captures (Some captures), true)
      | _ => (mkGallery captures (palmCaptures g), false)
      end
  | OtherError => (mkGallery captures (palmCaptures g), true)
  end.

(** The [onloadend] callback of a single capture (lines 1745-1778), run at
    time [now] with the encoded image [result]: [currentPalmData] is the
    copy [capture] took, [this_palmData] is [this.palmData] when the
    callback runs. *)
Definition regularCaptureLoaded (setItem : list CaptureData -> SetItem)
    (now : Z) (result timestamp : String.string)
    (currentPalmData : list (@Landmark num))
    (this_palmData : option (list (@Landmark num))) (g : Gallery)
  : Completion (Gallery * bool) :=
  palmCenter <- calculatePalmCenter currentPalmData ;;
  distance <- calculateDistance this_palmData palmCenter ;;
  alignment <- calculateAlignment currentPalmData ;;
  let captureData :=
    mkCaptureData now result regular timestamp
      (mkMetrics distance (Math_round (alignment * fromZ 100))) None in
  Normal (storeCaptures setItem
            (mkGallery (captureData :: captures g) (palmCaptures g))).

(** The part of [captureDualMode] (lines 1857-1872) that runs inside
    [capture]: the metrics of the pair, or [None] after 'No palm detected'. *)
Definition captureDualMode (this_palmData : option (list (@Landmark num)))
  : Completion (option Metrics) :=
  match this_palmData with
  | None => Normal None
  | Some currentPalmData =>
      palmCenter <- calculatePalmCenter currentPalmData ;;
      distance <- calculateDistance this_palmData palmCenter ;;
      alignment <- calculateAlignment currentPalmData ;;
      Normal (Some (mkMetrics distance (Math_round (alignment * fromZ 100))))
  end.

(** The last callback of a dual capture (lines 1900-1943): [id] and
    [timestamp] are from the time of the capture, [irImage] and
    [regularImage] the two encoded images. *)
Definition dualCaptureLoaded (setItem : list CaptureData -> SetItem)
    (id : Z) (timestamp : String.string) (metrics : Metrics)
    (irImage regularImage : String.string) (g : Gallery) : Gallery * bool :=
  let irCapture := mkCaptureData id irImage ir timestamp metrics (Some (id + 1)%Z) in
  let regularCapture :=
    mkCaptureData (id + 1)%Z regularImage regular timestamp metrics (Some id) in
  storeCaptures setItem
    (mkGallery (irCapture :: regularCapture :: captures g) (palmCaptures g)).

(** [deleteCapture(id)] (lines 2587-2591); the boolean tells whether
    [setItem] returned, after which the gallery view is refreshed. *)
Definition deleteCapture (setItem : list CaptureData -> SetItem) (id0 : Z)
    (g : Gallery) : Gallery * bool :=
  let captures := filter (fun c => negb (id c =? id0)%Z) (captures g) in
  match setItem captures with
  | Stored => (mkGallery captures (Some captures), true)
  | _ => (mkGallery captures (palmCaptures g), false)
  end.

(** [clearAllCaptures()] (lines 2593-2599); [confirmed] is the answer to
    the [confirm] dialog. *)
Definition clearAllCaptures (confirmed : bool) (g : Gallery) : Gallery :=
  if confirmed then mkGallery [] None else g.

End Gallery.

(** ** The session: cameras, starting and stopping, IR mode *)

Section Session.

Import String.
Local Open Scope string_scope.

Context {num : Type} `{JsNumber num}.

(** A video input device as [enumerateDevices] lists it; before the camera
    permission is granted its [label] is empty. *)
Record Camera := mkCamera { deviceId : string; label : string }.

(** [label.toLowerCase()], which depends on the Unicode tables of the
    engine. *)
Variable toLowerCase : string -> string.

(** [s.includes(t)]. *)
Fixpoint includes (s t : string) : bool :=
  prefix t s ||
  match s with
  | EmptyString => false
  | String _ s' => includes s' t
  end.

(** A camera id used as a condition: [null] and the empty string count as
    false. *)
Definition truthy (id : option string) : bool :=
  match id with
  | Some (String _ _) => true
  | _ => false
  end.

(** The test for an infrared camera of [detectCameras] (lines 362-366). *)
Definition looksInfrared (camera : Camera) : bool :=
  let label := toLowerCase (label camera) in
  includes label "ir" || includes label "infrared" ||
  includes label "depth" || includes label "windows hello".

(** The texts the session methods hand to [updateStatus]:
    - [CameraAccessDeniedOrNotAvailable]: 'Camera access denied or not available' ('error')
    - [NoCamerasFound]: 'No cameras found' ('error')
    - [StartingCamera]: 'Starting camera...' ('scanning')
    - [CameraAccessDenied]: 'Camera access denied' ('error')
    - [DetectingHands]: 'Detecting hands...' ('scanning') *)
Inductive SessionText :=
| CameraAccessDeniedOrNotAvailable | NoCamerasFound | StartingCamera
| CameraAccessDenied | DetectingHands.

(** A call of [updateStatus], by a method of the core or of the session. *)
Inductive Shown :=
| ByCore (text : StatusText) (type : StatusType)
| BySession (text : SessionText).

(** The [DotProjector] with its camera management: [this] holds the fields
    of the core, [cameraSelector] tells whether the element 'cameraSelector'
    exists, [statusLog] lists the calls of [updateStatus] the session
    methods made, directly or through [stopScanning], newest first. *)
Record Session := mkSession {
  this : @DotProjector num;
  isProcessingStart : bool;
  availableCameras : list Camera;
  selectedCameraId : option string;
  selectedIRCameraId : option string;
  hasIRCamera : bool;
  cameraSelector : bool;
  statusLog : list Shown
}.

(** The browser's answers to the calls a start awaits: the video inputs of
    [enumerateDevices()] ([None] when it rejects), whether
    [getUserMedia({video: true, audio: false})] resolves, the video inputs
    listed after that, whether [getUserMedia(constraints)] resolves for the
    exact [deviceId] asked for ([None] for no such constraint), and whether
    [videoElement.play()] resolves.  The [loadedmetadata] event is taken to
    arrive. *)
Record Browser := mkBrowser {
  devices : option (list Camera);
  permission : bool;
  devicesWithLabels : option (list Camera);
  stream : option string -> bool;
  plays : bool
}.

Definition setThis (s : Session) (this : @DotProjector num) : Session :=
  mkSession this (isProcessingStart s) (availableCameras s) (selectedCameraId s)
    (selectedIRCameraId s) (hasIRCamera s) (cameraSelector s) (statusLog s).

Definition setProcessingStart (s : Session) (b : bool) : Session :=
  mkSession (this s) b (availableCameras s) (selectedCameraId s)
    (selectedIRCameraId s) (hasIRCamera s) (cameraSelector s) (statusLog s).

Definition setSelected (s : Session) (rgb infrared : option string) : Session :=
  mkSession (this s) (isProcessingStart s) (availableCameras s) rgb infrared
    (hasIRCamera s) (cameraSelector s) (statusLog s).

Definition show (s : Session) (shown : Shown) : Session :=
  mkSession (this s) (isProcessingStart s) (availableCameras s) (selectedCameraId s)
    (selectedIRCameraId s) (hasIRCamera s) (cameraSelector s) (shown :: statusLog s).

(** [this.isScanning = b]. *)
Definition setScanning (this : @DotProjector num) (b : bool) : @DotProjector num :=
  mkDotProjector (palmData this) (handedness this) (landmarkHistory this)
    b (srcObject this) (irMode this) (isAutoCapturing this)
    (perfectAlignmentTime this) (lastCaptureTime this) (status this) (shots this).

(** [this.videoElement.srcObject = stream]. *)
Definition setSrcObject (this : @DotProjector num) : @DotProjector num :=
  mkDotProjector (palmData this) (handedness this) (landmarkHistory this)
    (isScanning this) true (irMode this) (isAutoCapturing this)
    (perfectAlignmentTime this) (lastCaptureTime this) (status this) (shots this).

(** [this.irMode = b]. *)
Definition setIrMode (this : @DotProjector num) (b : bool) : @DotProjector num :=
  mkDotProjector (palmData this) (handedness this) (landmarkHistory this)
    (isScanning this) (srcObject this) b (isAutoCapturing this)
    (perfectAlignmentTime this) (lastCaptureTime this) (status this) (shots this).

(** [stopScanning()] on the session: the core's method, whose status call
    is logged. *)
Definition stop (s : Session) : Session :=
  show (setThis s (stopScanning (this s))) (ByCore ReadyToScan TNone).

(** [addCameraSelector()] (lines 396-488): the selections it leaves. *)
Definition addCameraSelector (s : Session) : Session :=
  if cameraSelector s then s
  else
    let infrared :=
      fold_left (fun selectedIRCameraId camera =>
          let label := toLowerCase (label camera) in
          if negb (label =? "") &&
             (includes label "ir" || includes label "infrared" ||
              includes label "depth" || includes label "windows hello")
          then if truthy selectedIRCameraId then selectedIRCameraId
               else Some (deviceId camera)
          else selectedIRCameraId)
        (availableCameras s) (selectedIRCameraId s) in
    let s :=
      mkSession (this s) (isProcessingStart s) (availableCameras s)
        (selectedCameraId s) infrared (hasIRCamera s) true (statusLog s) in
    match availableCameras s with
    | [] => s
    | first :: _ =>
        setSelected s
          (if truthy (selectedCameraId s) then selectedCameraId s
           else Some (deviceId first))
          (if truthy (selectedIRCameraId s) then selectedIRCameraId s
           else Some (deviceId first))
    end.

(** [detectCameras()] (lines 335-394). *)
Definition detectCameras (browser : Browser) (s : Session) : Session :=
  let failed := show s (BySession CameraAccessDeniedOrNotAvailable) in
  match devices browser with
  | None => failed
  | Some cameras =>
      let unlabelled :=
        match cameras with
        | [] => true
        | first :: _ => (label first =? "") && negb (deviceId first =? "")
        end in
      let cameras :=
        if unlabelled then
          if permission browser then devicesWithLabels browser else None
        else Some cameras in
      match cameras with
      | None => failed
      | Some cameras =>
          let s :=
            mkSession (this s) (isProcessingStart s) cameras (selectedCameraId s)
              (selectedIRCameraId s) (existsb looksInfrared cameras)
              (cameraSelector s) (statusLog s) in
          match cameras with
          | _ :: _ :: _ => addCameraSelector s
          | [only] =>
              setSelected s
                (if truthy (selectedCameraId s) then selectedCameraId s
                 else Some (deviceId only))
                (if truthy (selectedIRCameraId s) then selectedIRCameraId s
                 else Some (deviceId only))
          | [] => s
          end
      end
  end.

(** [startScanning()] (lines 497-572), run to its end. *)
Definition startScanning (browser : Browser) (s : Session) : Session :=
  if isProcessingStart s then s
  else if isScanning (this s) then stop s
  else
    let s := setProcessingStart s true in
    let s :=
      match availableCameras s with
      | [] => detectCameras browser s
      | _ => s
      end in
    let s :=
      match availableCameras s with
      | [] => setThis (show s (BySession NoCamerasFound)) (setScanning (this s) false)
      | _ =>
          let s := setThis s (setScanning (this s) true) in
          let s := show s (BySession StartingCamera) in
          let cameraId :=
            if irMode (this s) then selectedIRCameraId s else selectedCameraId s in
          let denied := stop (show s (BySession CameraAccessDenied)) in
          if stream browser (if truthy cameraId then cameraId else None) then
            let s := setThis s (setSrcObject (this s)) in
            if plays browser then show s (BySession DetectingHands)
            else stop (show s (BySession CameraAccessDenied))
          else denied
      end in
    setProcessingStart s false.

(** [toggleIRMode()] (lines 1787-1826); the boolean tells whether it has
    scheduled [startScanning] for 500 ms later. *)
Definition toggleIRMode (s : Session) : Session * bool :=
  let s := setThis s (setIrMode (this s) (negb (irMode (this s)))) in
  if isScanning (this s) then (stop s, true) else (s, false).

End Session.

(** ** The dot field under the hand *)

(** [Math.cos] and [Math.sin], implementation-approximated like
    [Math.atan2]. *)
Class JsCircle (num : Type) : Type := {
  Math_cos : num -> num;
  Math_sin : num -> num
}.

#[export] Instance exact_circle : JsCircle R := {| Math_cos := cos; Math_sin := sin |}.

Section DotField.

Context {num : Type} `{JsNumber num} `{JsTrig num} `{JsCircle num}.
Local Open Scope js_scope.

(** The reach of a landmark over the dots (lines 966-973): fingertips 18,
    wrist and middle-finger base 20, the others 15. *)
Definition influenceRadius (idx : nat) : num :=
  if existsb (Nat.eqb idx) [4; 8; 12; 16; 20]%nat then fromZ 18
  else if (idx =? 0)%nat || (idx =? 9)%nat then fromZ 20
  else fromZ 15.

(** The inner loop over the landmarks (lines 949-981): the largest
    influence of a landmark on the dot at [dotPos]. *)
Definition maxInfluence (dotPos : @Landmark num) (landmarks : list (@Landmark num))
  : num :=
  fold_left (fun maxInfluence '(idx, landmark) =>
      let landmarkX := (px landmark - lit 5 10) * fromZ 60 in
      let landmarkY := - (py landmark - lit 5 10) * fromZ 60 in
      let landmarkZ := - pz landmark * fromZ 50 in
      let dist :=
        Math_sqrt (pow2 (px dotPos - landmarkX) + pow2 (py dotPos - landmarkY)
                   + pow2 (pz dotPos - landmarkZ) * lit 2 10) in
      let influence := Math_max (fromZ 0) (fromZ 1 - dist / influenceRadius idx) in
      if influence >? maxInfluence then influence else maxInfluence)
    (combine (seq 0 (length landmarks)) landmarks) (fromZ 0).

(** Where a dot is drawn, and how large. *)
Record DotPlacement := mkDotPlacement {
  finalX : num; finalY : num; finalZ : num; scaleValue : num
}.

(** The body of the loop over the dots in [updatePalmVisualization] (lines
    929-1015), for the dot at [dotPos]: its place and scale under a hand
    with the given palm centre. *)
Definition placeDot (palmCenter : @Landmark num) (landmarks : list (@Landmark num))
    (dotPos : @Landmark num) : DotPlacement :=
  let palm3D_x := (px palmCenter - lit 5 10) * fromZ 60 in
  let palm3D_y := - (py palmCenter - lit 5 10) * fromZ 60 in
  let maxInfluence := maxInfluence dotPos landmarks in
  if maxInfluence >? fromZ 0 then
    let pushForce := maxInfluence * fromZ 8 in
    let angle := Math_atan2 (py dotPos - palm3D_y) (px dotPos - palm3D_x) in
    let displacementX := Math_cos angle * pushForce * maxInfluence in
    let displacementY := Math_sin angle * pushForce * maxInfluence in
    mkDotPlacement (px dotPos + displacementX) (py dotPos + displacementY)
      (pz dotPos + maxInfluence * fromZ 10) (fromZ 1 + maxInfluence * fromZ 2)
  else mkDotPlacement (px dotPos) (py dotPos) (pz dotPos) (fromZ 1).

End DotField.

(** ** Vocabulary of the statements *)

(** The call returns normally (no [TypeError]). *)
Definition returns {A} (m : Completion A) : Prop := exists a, m = Normal a.

Section Vocabulary.

Context {num : Type} `{JsNumber num}.
Local Open Scope js_scope.

(** [this.palmData] is [null] or a hand of 21 landmarks, as it is between two
    frame callbacks. *)
Definition palmReady (this : @DotProjector num) : Prop :=
  match palmData this with
  | Some palm => length palm = 21%nat
  | None => True
  end.

(** A steady stream of Perfect frames 100 ms apart goes through a cycle of 35
    frames: arm (0), hold (1-4), fire (5), cool down (6-34). *)
Definition nextPhase (p : nat) : nat := if (p =? 34)%nat then 0%nat else S p.

Fixpoint phaseAfter (p n : nat) : nat :=
  match n with
  | O => p
  | S n' => phaseAfter (nextPhase p) n'
  end.

Fixpoint schedule (p n : nat) : list bool :=
  match n with
  | O => []
  | S n' => (p =? 5)%nat :: schedule (nextPhase p) n'
  end.

(** The debounce fields of a state about to receive the frame of phase [p]
    at time [now]. *)
Definition inPhase (p : nat) (now : Z) (this : @DotProjector num) : Prop :=
  (p = 0%nat /\ isAutoCapturing this = false
   /\ (captureCooldown <= now - lastCaptureTime this)%Z)
  \/ ((1 <= p <= 5)%nat /\ isAutoCapturing this = true
      /\ perfectAlignmentTime this = (now - 100 * Z.of_nat p)%Z
      /\ (captureCooldown <= now - lastCaptureTime this)%Z)
  \/ ((6 <= p <= 34)%nat /\ isAutoCapturing this = false
      /\ lastCaptureTime this = (now - 100 * (Z.of_nat p - 5))%Z).

(** Every hand of the list has 21 landmarks. *)
Definition hands (palms : list (list (@Landmark num))) : Prop :=
  Forall (fun palm => length palm = 21%nat) palms.

(** The decisions of the chain of [updatePalmVisualization] on the values it
    has computed, in the order of its [if ... else if]. *)
Definition chain (fullyVisible fingersExtended : bool) (distance alignment : num)
    (isPalmFacingCamera : bool) (rotation : num) (isHandFlat : bool)
  : option Classification :=
  if negb fullyVisible then Some OutOfFrame
  else if negb fingersExtended then Some FingersNotExtended
  else if (distance <? fromZ 5)%js then Some TooClose
  else if (distance >? fromZ 45)%js then Some TooFar
  else if (alignment <? lit 3 10)%js then Some NotCentered
  else if (distance >=? fromZ 5)%js && (distance <=? fromZ 45)%js
          && (alignment >=? lit 3 10)%js && fingersExtended then
    if negb isPalmFacingCamera then Some WrongOrientation
    else if (Math_abs rotation >? fromZ 30)%js
         then Some (Rotated (rotation >? fromZ 0)%js)
    else if negb isHandFlat then Some NotFlat
    else Some Perfect
  else None.

(** The history after [n] detections of the same [frame], starting from an
    empty history. *)
Fixpoint historyAfter (n : nat) (frame : list (@Landmark num))
  : list (list (@Landmark num)) :=
  match n with
  | O => []
  | S n' => pushHistory (historyAfter n' frame) frame
  end.

(** *** Sample hands, coordinates in 1/10000 of the frame *)

Definition point (x y z : Z) : @Landmark num :=
  mkLandmark (lit x 10000) (lit y 10000) (lit z 10000).

(** An open right hand, palm to the camera, fingers up, centred. *)
Definition openHand : list (@Landmark num) :=
  [ point 5000 8000 0;
    point 4000 7500 (-100); point 3300 6800 (-200); point 2800 6000 (-300);
    point 2400 5300 (-400);
    point 4200 5500 (-100); point 4000 4300 (-200); point 3900 3500 (-300);
    point 3800 2800 (-400);
    point 5000 5300 (-100); point 5000 4000 (-200); point 5000 3100 (-300);
    point 5000 2300 (-400);
    point 5700 5500 (-100); point 5900 4300 (-200); point 6000 3500 (-300);
    point 6100 2800 (-400);
    point 6300 6000 (-100); point 6700 5100 (-200); point 6900 4500 (-300);
    point 7100 3900 (-400) ].

(** The open hand turned: the middle-finger base is to the right of the
    wrist. *)
Definition tiltedHand : list (@Landmark num) :=
  [ point 5000 8000 0;
    point 4000 7500 (-100); point 3300 6800 (-200); point 2800 6000 (-300);
    point 2400 5300 (-400);
    point 4200 5500 (-100); point 4000 4300 (-200); point 3900 3500 (-300);
    point 3800 2800 (-400);
    point 5500 5300 (-100); point 5000 4000 (-200); point 5000 3100 (-300);
    point 5000 2300 (-400);
    point 5700 5500 (-100); point 5900 4300 (-200); point 6000 3500 (-300);
    point 6100 2800 (-400);
    point 6300 6000 (-100); point 6700 5100 (-200); point 6900 4500 (-300);
    point 7100 3900 (-400) ].

(** A hand seen edge-on: wrist, index base and pinky base on one line, the
    fingers straight, all inside the frame. *)
Definition edgeOnHand : list (@Landmark num) :=
  [ point 5000 7500 0;
    point 3750 6875 0; point 3125 6250 0; point 2500 5625 0; point 1875 5000 0;
    point 5000 5000 0; point 5000 3750 0; point 5000 3125 0; point 5000 2500 0;
    point 7500 5000 0; point 7500 3750 0; point 7500 3125 0; point 7500 2500 0;
    point 7500 6250 0; point 8125 5000 0; point 8125 4375 0; point 8125 3750 0;
    point 5000 6250 0; point 6250 6250 0; point 6875 6250 0; point 7500 6250 0 ].

(** The open hand with its wrist at the left edge of the frame and its
    fingertips far behind the wrist in depth. *)
Definition edgeHand : list (@Landmark num) :=
  [ point 100 8000 0;
    point 4000 7500 (-100); point 3300 6800 (-200); point 2800 6000 (-300);
    point 2400 5300 10000;
    point 4200 5500 (-100); point 4000 4300 (-200); point 3900 3500 (-300);
    point 3800 2800 10000;
    point 5000 5300 (-100); point 5000 4000 (-200); point 5000 3100 (-300);
    point 5000 2300 10000;
    point 5700 5500 (-100); point 5900 4300 (-200); point 6000 3500 (-300);
    point 6100 2800 10000;
    point 6300 6000 (-100); point 6700 5100 (-200); point 6900 4500 (-300);
    point 7100 3900 10000 ].

(** A session just started: scanning, camera stream set, nothing seen yet. *)
Definition started : @DotProjector num :=
  mkDotProjector None None [] true true false false 0 0 (ReadyToScan, TNone) [].

(** Detector results: the open right hand, or no hand, at time [now]. *)
Definition seen (now : Z) : Z * option (list (@Landmark num) * option Handedness) :=
  (now, Some (openHand, Some Right)).
Definition lost (now : Z) : Z * option (list (@Landmark num) * option Handedness) :=
  (now, None).

(** A scanning session that holds [palm] as its current hand. *)
Definition scanning (palm : list (@Landmark num)) (label : option Handedness)
  : @DotProjector num :=
  mkDotProjector (Some palm) label [palm] true true false false 0 0
    (ReadyToScan, TNone) [].

End Vocabulary.

Section SpecReading.

Context {num : Type} `{JsNumber num} `{JsTrig num}.
Local Open Scope js_scope.

(** The specification's [rotationDeg(landmarks, handedness)], in its words:
    the signed angle in degrees between the vector from the wrist to the
    middle-finger base and the up vector [(0, -1)], by [atan2] of their 2D
    cross and dot products, negated when the handedness is Left. *)
Definition rotationDeg_spec (landmarks : list (@Landmark num))
    (label : option Handedness) : Completion num :=
  wrist <- get landmarks 0 ;;
  middleBase <- get landmarks 9 ;;
  let vx := px middleBase - px wrist in
  let vy := py middleBase - py wrist in
  let dot := vx * fromZ 0 + vy * fromZ (-1) in
  let cross := vx * fromZ (-1) - vy * fromZ 0 in
  let angle := Math_atan2 cross dot * (fromZ 180 / Math_PI) in
  Normal (match label with Some Left => - angle | _ => angle end).

End SpecReading.

Section MoreVocabulary.

Context {num : Type} `{JsNumber num}.

(** The times of the frames of a run at which [capture] was called. *)
Fixpoint captureTimes (frames : list (Z * list (@Landmark num))) (fires : list bool)
  : list Z :=
  match frames, fires with
  | (now, _) :: frames, fired :: fires =>
      if fired then now :: captureTimes frames fires else captureTimes frames fires
  | _, _ => []
  end.

(** Each time of the list is at least [gap] after the one before it. *)
Fixpoint spaced (gap : Z) (times : list Z) : Prop :=
  match times with
  | t :: (t' :: _) as rest => (gap <= t' - t)%Z /\ spaced gap rest
  | _ => True
  end.

(** The tracking state between two frames: at most [historySize] frames of
    21 landmarks in the history, and a current hand, if any, of 21
    landmarks. *)
Definition tracking (this : @DotProjector num) : Prop :=
  (length (landmarkHistory this) <= historySize)%nat
  /\ Forall (fun frame => length frame = 21%nat) (landmarkHistory this)
  /\ palmReady this.

(** Whether the rotation indicator is on screen: the element exists and
    its [display] is 'flex'. *)
Definition displayed (indicator : option (RotationHint * bool)) : bool :=
  match indicator with
  | Some (_, true) => true
  | _ => false
  end.

End MoreVocabulary.

Section BoxVocabulary.

Context {num : Type} `{JsNumber num}.
Local Open Scope js_scope.



End BoxVocabulary.

(** Decides comparisons of [Rmin] and [Rmax] expressions by cases. *)
Ltac minmax :=
  unfold Rmin, Rmax;
  repeat match goal with |- context [Rle_dec ?a ?b] => destruct (Rle_dec a b) end;
  try lra.

(** *** More samples *)

Section MoreSamples.

Context {num : Type} `{JsNumber num}.
Local Open Scope js_scope.

(** An open right hand held close to the camera: its palm fills an eighth
    of the frame. *)
Definition closeHand : list (@Landmark num) :=
  [ point 5000 9300 0;
    point 3600 8600 (-100); point 2700 7900 (-200); point 1900 7100 (-300);
    point 1200 6300 (-400);
    point 2600 5000 (-100); point 2500 3600 (-200); point 2400 2500 (-300);
    point 2300 1500 (-400);
    point 5000 4500 (-100); point 5000 3200 (-200); point 5000 2000 (-300);
    point 5000 1000 (-400);
    point 6400 4700 (-100); point 6600 3400 (-200); point 6700 2400 (-300);
    point 6800 1400 (-400);
    point 7800 5200 (-100); point 8200 4300 (-200); point 8500 3500 (-300);
    point 8800 2700 (-400) ].

(** A hand turned upside down in the frame. *)
Definition upsideDown (landmarks : list (@Landmark num)) : list (@Landmark num) :=
  map (fun p => mkLandmark (px p) (fromZ 1 - py p) (pz p)) landmarks.

(** A stored single capture with the given id. *)
Definition snapshot (id : Z) : @CaptureData num :=
  mkCaptureData id String.EmptyString regular String.EmptyString
    (mkMetrics (fromZ 30) (fromZ 90)) None.

(** A storage that accepts every value, and one that is full. *)
Definition roomy (value : list (@CaptureData num)) : SetItem := Stored.
Definition full (value : list (@CaptureData num)) : SetItem := QuotaExceededError.

End MoreSamples.

(** An engine whose approximation of [Math.atan2(y, x)] is the first term of
    its series, [y / x]. *)
Definition firstOrder : JsTrig float := engine PrimFloat.div.

Section SessionSamples.

Import String Ascii.
Local Open Scope string_scope.

Context {num : Type} `{JsNumber num}.

(** [toLowerCase] on the letters A to Z. *)
Definition lowerAscii (c : ascii) : ascii :=
  let n := nat_of_ascii c in
  if (65 <=? n)%nat && (n <=? 90)%nat then ascii_of_nat (n + 32) else c.

Fixpoint asciiLowerCase (s : string) : string :=
  match s with
  | EmptyString => EmptyString
  | String c s' => String (lowerAscii c) (asciiLowerCase s')
  end.

Definition webcam : Camera := mkCamera "7f3a" "HD Webcam".
Definition depthCamera : Camera := mkCamera "91c2" "Depth Sensor".

(** A session just constructed. *)
Definition constructed : @Session num :=
  mkSession initial false [] None None false false [].

(** A scanning session that knows one camera. *)
Definition filming : @Session num :=
  mkSession started false [webcam] (Some "7f3a") (Some "7f3a") false false [].

(** A browser that lists the given cameras and grants, or refuses, every
    stream. *)
Definition granting (cameras : list Camera) : Browser :=
  mkBrowser (Some cameras) true (Some cameras) (fun _ => true) true.
Definition refusing (cameras : list Camera) : Browser :=
  mkBrowser (Some cameras) true (Some cameras) (fun _ => false) true.

End SessionSamples.

(** Unfolds the arithmetic of the [exact] numbers. *)
Ltac exact_arith :=
  unfold lit;
  cbn [fromZ num_add num_sub num_mul num_div num_neg num_lt num_le Math_sqrt
       Math_abs Math_max Math_min Math_round Math_PI Math_atan2 exact exact_trig].

(** ** A hand of 21 landmarks: every metric returns *)

(** Names the 21 landmarks of a hand [lm] from [Hl : length lm = 21]. *)
Ltac hand21 lm Hl :=
  do 21 (destruct lm as [|?p lm]; [discriminate Hl|]);
  destruct lm; [clear Hl|discriminate Hl].

Section Totality.

Context {num : Type} `{JsNumber num}.

Lemma calculatePalmCenter_returns (lm : list (@Landmark num))
  (Hl : length lm = 21%nat) : returns (calculatePalmCenter lm).
Proof. hand21 lm Hl. eexists. reflexivity. Qed.

Lemma calculatePalmArea_returns (lm : list (@Landmark num))
  (Hl : length lm = 21%nat) : returns (calculatePalmArea lm).
Proof. hand21 lm Hl. eexists. reflexivity. Qed.

Lemma calculateFingerSpread_returns (lm : list (@Landmark num))
  (Hl : length lm = 21%nat) : returns (calculateFingerSpread lm).
Proof. hand21 lm Hl. eexists. reflexivity. Qed.

Lemma calculatePalmNormal_returns (lm : list (@Landmark num))
  (Hl : length lm = 21%nat) : returns (calculatePalmNormal lm).
Proof. hand21 lm Hl. eexists. reflexivity. Qed.

Lemma checkFingerExtension_returns (lm : list (@Landmark num))
  (Hl : length lm = 21%nat) : returns (checkFingerExtension lm).
Proof. hand21 lm Hl. eexists. reflexivity. Qed.

Lemma checkHandFlatness_returns (lm : list (@Landmark num))
  (Hl : length lm = 21%nat) : returns (checkHandFlatness lm).
Proof. hand21 lm Hl. eexists. reflexivity. Qed.

Lemma checkPalmOrientation_returns h (lm : list (@Landmark num))
  (Hl : length lm = 21%nat) : returns (checkPalmOrientation h lm).
Proof. hand21 lm Hl. eexists. reflexivity. Qed.

Lemma calculateAlignment_returns (lm : list (@Landmark num))
  (Hl : length lm = 21%nat) : returns (calculateAlignment lm).
Proof.
  destruct (calculatePalmArea_returns lm Hl) as [a Ha].
  destruct (calculatePalmNormal_returns lm Hl) as [n Hn].
  destruct (calculateFingerSpread_returns lm Hl) as [s Hs].
  destruct (calculatePalmCenter_returns lm Hl) as [c Hc].
  unfold calculateAlignment. rewrite Ha, Hn, Hs, Hc.
  hand21 lm Hl. cbn.
  match goal with |- returns (if ?b then _ else _) => destruct b end; eexists; reflexivity.
Qed.

End Totality.

(** ** The capture debouncer *)

Section Debouncer.

Context {num : Type} `{JsNumber num}.

Lemma capture_returns (this : @DotProjector num) :
  palmReady this ->
  exists this', capture this = Normal this'
    /\ palmData this' = palmData this
    /\ lastCaptureTime this' = lastCaptureTime this.
Proof.
  destruct this as [pd hd hist sc src ir auto pat lct stt sh].
  unfold palmReady, capture; cbn.
  destruct pd as [palm|]; [|intros _; eexists; cbn; eauto].
  intros Hl. destruct src; [|eexists; cbn; eauto].
  destruct (checkHandFlatness_returns palm Hl) as [f ->].
  destruct (checkPalmOrientation_returns hd palm Hl) as [o ->].
  cbn. destruct f, o; cbn; eexists; eauto.
Qed.

Lemma handlePerfectAlignment_cooldown (now : Z) (this : @DotProjector num) :
  (now - lastCaptureTime this < captureCooldown)%Z ->
  handlePerfectAlignment now this = Normal (this, false).
Proof.
  intros Hc. unfold handlePerfectAlignment.
  destruct (Z.ltb_spec (now - lastCaptureTime this) captureCooldown); [reflexivity|lia].
Qed.

Lemma phase_step (p : nat) (now : Z) (this : @DotProjector num)
    (landmarks : list (@Landmark num)) :
  length landmarks = 21%nat ->
  inPhase p now this ->
  exists this',
    handlePerfectAlignment now
      (updateStatus (setPalmData this landmarks) PerfectHoldSteady TSuccess)
      = Normal (this', (p =? 5)%nat)
    /\ inPhase (nextPhase p) (now + 100) this'.
Proof.
  intros Hl Hp.
  destruct this as [pd hd hist sc src ir auto pat lct stt sh].
  unfold inPhase, captureCooldown in Hp.
  cbn [isAutoCapturing perfectAlignmentTime lastCaptureTime] in Hp.
  unfold handlePerfectAlignment, captureCooldown, updateStatus, setPalmData.
  cbn -[capture Z.sub Z.ltb Z.geb].
  destruct Hp as [(-> & -> & Hc) | [(Hp & -> & Hpat & Hc) | (Hp & -> & Hlct)]].
  - (* idle, cooldown elapsed: the frame arms *)
    destruct (Z.ltb_spec (now - lct) 3000); [lia|].
    cbn -[capture Z.sub Z.ltb Z.geb].
    destruct (Z.geb_spec (now - now) 500); [lia|].
    eexists; split; [reflexivity|]. unfold inPhase, captureCooldown.
    cbn [isAutoCapturing perfectAlignmentTime lastCaptureTime setDebounce].
    right; left. repeat split; lia.
  - (* armed *)
    destruct (Z.ltb_spec (now - lct) 3000); [lia|].
    cbn -[capture Z.sub Z.ltb Z.geb].
    destruct (Nat.eqb_spec p 5) as [->|Hne].
    + destruct (Z.geb_spec (now - pat) 500); [|lia].
      match goal with |- context [capture ?a] => set (armed := a) end.
      destruct (capture_returns armed Hl) as (this' & -> & Hpd & Hlast).
      cbn. eexists; split; [reflexivity|]. unfold inPhase, captureCooldown.
      destruct this' as [pd' hd' hist' sc' src' ir' auto' pat' lct' stt' sh'];
        cbn [isAutoCapturing perfectAlignmentTime lastCaptureTime
             setDebounce setLastCaptureTime] in *.
      right; right. repeat split; lia.
    + destruct (Z.geb_spec (now - pat) 500); [lia|].
      eexists; split; [reflexivity|]. unfold inPhase, captureCooldown.
      cbn [isAutoCapturing perfectAlignmentTime lastCaptureTime setDebounce].
      unfold nextPhase. destruct (Nat.eqb_spec p 34); [lia|].
      right; left. repeat split; lia.
  - (* cooling down *)
    destruct (Z.ltb_spec (now - lct) 3000); [|lia].
    destruct (Nat.eqb_spec p 5); [lia|].
    eexists; split; [reflexivity|]. unfold inPhase, captureCooldown.
    cbn [isAutoCapturing perfectAlignmentTime lastCaptureTime setDebounce].
    unfold nextPhase. destruct (Nat.eqb_spec p 34) as [->|].
    + left. repeat split; lia.
    + right; right. repeat split; lia.
Qed.

(** The frames of a steady Perfect stream follow the cycle. *)
Lemma perfectFrames_schedule (palms : list (list (@Landmark num))) :
  forall (p : nat) (t : Z) (this : @DotProjector num),
  hands palms ->
  inPhase p t this ->
  exists this',
    perfectFrames (every100ms t palms) this = Normal (this', schedule p (length palms))
    /\ inPhase (phaseAfter p (length palms)) (t + 100 * Z.of_nat (length palms)) this'.
Proof.
  induction palms as [|palm palms IH]; intros p t this Hall Hin.
  - exists this. split; [reflexivity|].
    change (phaseAfter p (length (@nil (list (@Landmark num))))) with p.
    now replace (t + 100 * Z.of_nat (length (@nil (list (@Landmark num)))))%Z
      with t by (cbn; lia).
  - inversion Hall as [|? ? Hl Hrest]; subst.
    destruct (phase_step palm Hl Hin) as (this1 & E1 & H1).
    destruct (IH _ _ _ Hrest H1) as (this2 & E2 & H2).
    exists this2. split.
    + cbn [perfectFrames every100ms schedule length]. rewrite E1. cbn [bind].
      rewrite E2. reflexivity.
    + cbn [length]. change (phaseAfter p (S (length palms)))
        with (phaseAfter (nextPhase p) (length palms)).
      now replace (t + 100 * Z.of_nat (S (length palms)))%Z
        with (t + 100 + 100 * Z.of_nat (length palms))%Z by lia.
Qed.

Lemma perfectFrames_app (l1 l2 : list (Z * list (@Landmark num))) :
  forall (this : @DotProjector num),
  perfectFrames (l1 ++ l2) this =
  ('(this1, f1) <- perfectFrames l1 this ;;
   '(this2, f2) <- perfectFrames l2 this1 ;;
   Normal (this2, f1 ++ f2)).
Proof.
  induction l1 as [|[now palm] l1 IH]; intros this; cbn [app perfectFrames bind].
  - destruct (perfectFrames l2 this) as [[this2 f2]|]; reflexivity.
  - destruct (handlePerfectAlignment now _) as [[this1 fired]|]; [|reflexivity].
    cbn [bind]. rewrite IH.
    destruct (perfectFrames l1 this1) as [[this1' f1]|]; [|reflexivity].
    cbn [bind].
    destruct (perfectFrames l2 this1') as [[this2 f2]|]; reflexivity.
Qed.

(** Within the cooldown nothing moves but the hand and the status line. *)
Lemma perfectFrames_cooldown (frames : list (Z * list (@Landmark num))) :
  forall (this : @DotProjector num),
  Forall (fun frame => (fst frame - lastCaptureTime this < captureCooldown)%Z) frames ->
  exists this',
    perfectFrames frames this = Normal (this', repeat false (length frames))
    /\ isAutoCapturing this' = isAutoCapturing this
    /\ perfectAlignmentTime this' = perfectAlignmentTime this
    /\ lastCaptureTime this' = lastCaptureTime this
    /\ shots this' = shots this.
Proof.
  induction frames as [|[now palm] frames IH]; intros this Hall.
  - exists this. repeat split.
  - inversion Hall as [|? ? Hnow Hrest]; subst.
    cbn [perfectFrames].
    rewrite handlePerfectAlignment_cooldown by exact Hnow.
    cbn [bind].
    destruct (IH (updateStatus (setPalmData this palm) PerfectHoldSteady TSuccess) Hrest)
      as (this' & -> & Ha & Hp & Hlast & Hs).
    exists this'. repeat split; assumption.
Qed.

(** C1. From the idle state with the cooldown elapsed, a run of at most 40
    frames classified Perfect, 100 ms apart (the hold and the cooldown after
    it), calls [capture] exactly at its sixth frame, the first one with
    [now - perfectAlignmentTime >= 500], and at no other; while the hold
    lasts (frames 1 to 5 received) the debouncer stays armed with
    [perfectAlignmentTime] still the time of the first frame. *)
Theorem debounce_fires_once_after_hold (t0 : Z) (palms : list (list (@Landmark num)))
    (this : @DotProjector num) :
  isAutoCapturing this = false ->
  (captureCooldown <= t0 - lastCaptureTime this)%Z ->
  hands palms ->
  (length palms <= 40)%nat ->
  exists this',
    perfectFrames (every100ms t0 palms) this
    = Normal (this', map (Nat.eqb 5) (seq 0 (length palms)))
    /\ ((1 <= length palms <= 5)%nat ->
        isAutoCapturing this' = true /\ perfectAlignmentTime this' = t0).
Proof.
  intros Hidle Hcool Hhands Hn.
  assert (Hin : inPhase 0 t0 this) by (left; auto).
  destruct (perfectFrames_schedule Hhands Hin) as (this' & E & Hp).
  exists this'. revert E Hp Hn. generalize (length palms) as n. intros n E Hp Hn. split.
  - rewrite E. f_equal. f_equal.
    do 41 (destruct n as [|n]; [reflexivity|]). lia.
  - intros Hk.
    assert (Hit : phaseAfter 0 n = n).
    { do 6 (destruct n as [|n]; [reflexivity|]). lia. }
    rewrite Hit in Hp.
    destruct Hp as [(-> & _) | [(_ & Ha & Hpat & _) | (Hp & _)]]; try lia.
    split; [assumption|lia].
Qed.

(** C2. While [now - lastCaptureTime < captureCooldown] a Perfect frame leaves
    the state as it is and calls no [capture]: it neither arms nor fires.
    So a full hold sequence followed by any Perfect frames that all come
    less than [captureCooldown] after its capture, a second full hold
    sequence among them, calls [capture] exactly once. *)
Theorem cooldown_suppresses_second_capture :
  (forall (now : Z) (this : @DotProjector num),
      (now - lastCaptureTime this < captureCooldown)%Z ->
      handlePerfectAlignment now this = Normal (this, false))
  /\ (forall (t0 : Z) (palms : list (list (@Landmark num)))
        (later : list (Z * list (@Landmark num))) (this : @DotProjector num),
      isAutoCapturing this = false ->
      (captureCooldown <= t0 - lastCaptureTime this)%Z ->
      hands palms -> length palms = 6%nat ->
      Forall (fun frame => (fst frame - (t0 + 500) < captureCooldown)%Z) later ->
      exists this',
        perfectFrames (every100ms t0 palms ++ later) this
          = Normal (this', [false; false; false; false; false; true]
                           ++ repeat false (length later))
        /\ lastCaptureTime this' = (t0 + 500)%Z).
Proof.
  split; [exact handlePerfectAlignment_cooldown|].
  intros t0 palms later this Hidle Hcool Hhands Hsix Hall.
  assert (Hin : inPhase 0 t0 this) by (left; auto).
  destruct (perfectFrames_schedule Hhands Hin) as (this1 & E1 & Hp).
  rewrite Hsix in E1, Hp.
  cbn [phaseAfter nextPhase Nat.eqb] in Hp.
  destruct Hp as [(Hp & _) | [(Hp & _) | (_ & _ & Hlast)]]; try lia.
  assert (Hlast' : lastCaptureTime this1 = (t0 + 500)%Z) by lia.
  rewrite <- Hlast' in Hall.
  destruct (perfectFrames_cooldown this1 Hall) as (this2 & E2 & _ & _ & Hl2 & _).
  exists this2. split; [|congruence].
  rewrite perfectFrames_app, E1. cbn [bind]. rewrite E2. reflexivity.
Qed.

(** C8. [capture] checks [checkHandFlatness] and [checkPalmOrientation] again
    on the current [palmData]; if either is false it returns after a warning
    status ('Open your palm fully' or 'Face your palm to the camera') with
    the debouncer reset, and starts no capture; if both hold it starts one
    from that palm data. *)
Theorem capture_revalidates_hand_state (this : @DotProjector num)
    (palm : list (@Landmark num)) :
  palmData this = Some palm ->
  srcObject this = true ->
  length palm = 21%nat ->
  exists isHandFlat isPalmOriented this',
    checkHandFlatness palm = Normal isHandFlat
    /\ checkPalmOrientation (handedness this) palm = Normal isPalmOriented
    /\ capture this = Normal this'
    /\ isAutoCapturing this' = false /\ perfectAlignmentTime this' = 0%Z
    /\ (isHandFlat && isPalmOriented = false ->
        shots this' = shots this
        /\ (status this' = (OpenPalmFully, TWarning)
            \/ status this' = (FacePalmToCamera, TWarning)))
    /\ (isHandFlat && isPalmOriented = true ->
        shots this' =
          mkShot (if irMode this then DualIrRegular else SingleRegular) palm
          :: shots this).
Proof.
  intros Hpalm Hsrc Hl.
  destruct this as [pd hd hist sc src ir auto pat lct stt sh].
  cbn in Hpalm, Hsrc. subst pd src.
  destruct (checkHandFlatness_returns palm Hl) as [f Hf].
  destruct (checkPalmOrientation_returns hd palm Hl) as [o Ho].
  exists f, o. unfold capture. cbn [palmData srcObject handedness irMode].
  rewrite Hf, Ho. cbn [bind].
  destruct f, o; cbn; eexists; repeat split; intros; try discriminate; auto.
Qed.

End Debouncer.

(** ** The validation chain *)

Section Gate.

Context {num : Type} `{JsNumber num} `{JsTrig num}.
Local Open Scope js_scope.

Lemma checkHandRotation_returns (lm : list (@Landmark num))
  (Hl : length lm = 21%nat) : returns (checkHandRotation lm).
Proof. hand21 lm Hl. eexists. reflexivity. Qed.

Lemma classify_chain (this : @DotProjector num) (lm : list (@Landmark num)) :
  length lm = 21%nat ->
  palmData this = Some lm ->
  exists palmCenter distance alignment fingersExtended isHandFlat
         isPalmFacingCamera rotation,
    calculatePalmCenter lm = Normal palmCenter
    /\ calculateDistance (palmData this) palmCenter = Normal distance
    /\ calculateAlignment lm = Normal alignment
    /\ checkFingerExtension lm = Normal fingersExtended
    /\ checkHandFlatness lm = Normal isHandFlat
    /\ checkPalmOrientation (handedness this) lm = Normal isPalmFacingCamera
    /\ checkHandRotation lm = Normal rotation
    /\ classify this lm =
       Normal (chain (handFullyVisible lm) fingersExtended distance alignment
                     isPalmFacingCamera rotation isHandFlat).
Proof.
  intros Hl Hpalm.
  destruct (calculatePalmCenter_returns lm Hl) as [c Hc].
  destruct (calculatePalmArea_returns lm Hl) as [area Ha].
  destruct (calculateAlignment_returns lm Hl) as [a Hal].
  destruct (checkFingerExtension_returns lm Hl) as [fe Hfe].
  destruct (checkHandFlatness_returns lm Hl) as [flat Hflat].
  destruct (checkPalmOrientation_returns (handedness this) lm Hl) as [facing Hfacing].
  destruct (checkHandRotation_returns lm Hl) as [rot Hrot].
  exists c, (distanceFromArea area), a, fe, flat, facing, rot.
  assert (Hd : calculateDistance (palmData this) c = Normal (distanceFromArea area)).
  { rewrite Hpalm. unfold calculateDistance. now rewrite Ha. }
  repeat (split; [assumption|]).
  unfold classify. rewrite Hc. cbn [bind]. rewrite Hd, Hal. cbn [bind].
  assert (G5 : returns (get lm 5)) by (hand21 lm Hl; eexists; reflexivity).
  assert (G17 : returns (get lm 17)) by (hand21 lm Hl; eexists; reflexivity).
  destruct G5 as [i5 ->], G17 as [i17 ->]. cbn [bind].
  rewrite Hfe, Hflat, Hfacing, Hrot. cbn [bind].
  unfold chain.
  repeat match goal with |- context [if ?b then _ else _] => destruct b end; reflexivity.
Qed.


(** C3. On a hand of 21 landmarks the first failing check, in the order
    edge of frame, finger extension, too close, too far, alignment, palm
    orientation, rotation, flatness, decides the branch of the chain.  In
    particular a hand with a landmark within the 5% margin is OutOfFrame
    whatever the other checks say, the flatness check included.  (From
    orientation on, the chain has first tested that distance is within
    [5, 45] and alignment at least 0.3.) *)
Theorem classification_priority (this : @DotProjector num)
    (lm : list (@Landmark num)) :
  length lm = 21%nat ->
  palmData this = Some lm ->
  exists palmCenter distance alignment fingersExtended isHandFlat
         isPalmFacingCamera rotation,
    calculatePalmCenter lm = Normal palmCenter
    /\ calculateDistance (palmData this) palmCenter = Normal distance
    /\ calculateAlignment lm = Normal alignment
    /\ checkFingerExtension lm = Normal fingersExtended
    /\ checkHandFlatness lm = Normal isHandFlat
    /\ checkPalmOrientation (handedness this) lm = Normal isPalmFacingCamera
    /\ checkHandRotation lm = Normal rotation
    /\ (handFullyVisible lm = false ->
        classify this lm = Normal (Some OutOfFrame))
    /\ (handFullyVisible lm = true ->
        (fingersExtended = false ->
         classify this lm = Normal (Some FingersNotExtended))
        /\ (fingersExtended = true ->
        ((distance <? fromZ 5) = true ->
         classify this lm = Normal (Some TooClose))
        /\ ((distance <? fromZ 5) = false ->
        ((distance >? fromZ 45) = true ->
         classify this lm = Normal (Some TooFar))
        /\ ((distance >? fromZ 45) = false ->
        ((alignment <? lit 3 10) = true ->
         classify this lm = Normal (Some NotCentered))
        /\ ((alignment <? lit 3 10) = false ->
            (distance >=? fromZ 5) && (distance <=? fromZ 45)
              && (alignment >=? lit 3 10) = true ->
        (isPalmFacingCamera = false ->
         classify this lm = Normal (Some WrongOrientation))
        /\ (isPalmFacingCamera = true ->
        ((Math_abs rotation >? fromZ 30) = true ->
         classify this lm = Normal (Some (Rotated (rotation >? fromZ 0))))
        /\ ((Math_abs rotation >? fromZ 30) = false ->
        (isHandFlat = false ->
         classify this lm = Normal (Some NotFlat))
        /\ (isHandFlat = true ->
         classify this lm = Normal (Some Perfect))))))))).
Proof.
  intros Hl Hpalm.
  destruct (classify_chain this Hl Hpalm)
    as (c & d & a & fe & flat & facing & rot & Hc & Hd & Ha & Hfe & Hflat & Hfacing
        & Hrot & ->).
  exists c, d, a, fe, flat, facing, rot.
  repeat (split; [assumption|]).
  unfold chain.
  split; [intros ->; reflexivity|]. intros ->.
  split; [intros ->; reflexivity|]. intros ->.
  split; [intros ->; reflexivity|]. intros ->.
  split; [intros ->; reflexivity|]. intros ->.
  split; [intros ->; reflexivity|]. intros -> ->.
  split; [intros ->; reflexivity|]. intros ->.
  split; [intros ->; reflexivity|]. intros ->.
  split; intros ->; reflexivity.
Qed.

(** The chain takes a branch whenever the comparisons of distance and
    alignment are decided one way or the other (neither is NaN). *)
Lemma chain_total (fullyVisible fingersExtended : bool) (distance alignment : num)
    (isPalmFacingCamera : bool) (rotation : num) (isHandFlat : bool) :
  ((distance <? fromZ 5) = false -> (distance >=? fromZ 5) = true) ->
  ((distance >? fromZ 45) = false -> (distance <=? fromZ 45) = true) ->
  ((alignment <? lit 3 10) = false -> (alignment >=? lit 3 10) = true) ->
  chain fullyVisible fingersExtended distance alignment isPalmFacingCamera
        rotation isHandFlat <> None.
Proof.
  intros H5 H45 Ha. unfold chain.
  destruct fullyVisible, fingersExtended; cbn [negb]; try discriminate.
  destruct (distance <? fromZ 5); [discriminate|].
  destruct (fromZ 45 <? distance); [discriminate|].
  destruct (alignment <? lit 3 10); [discriminate|].
  rewrite H5, H45, Ha by reflexivity. cbn [andb].
  destruct isPalmFacingCamera; cbn [negb]; [|discriminate].
  destruct (fromZ 30 <? Math_abs rotation); [discriminate|].
  destruct isHandFlat; discriminate.
Qed.

(** A frame without a hand empties the landmark history and leaves the
    debounce fields as they are. *)
Lemma hand_loss_keeps_debouncer (this : @DotProjector num) (now : Z) :
  exists this',
    onHandResults now this None = Normal (this', false)
    /\ landmarkHistory this' = []
    /\ palmData this' = None
    /\ isAutoCapturing this' = isAutoCapturing this
    /\ perfectAlignmentTime this' = perfectAlignmentTime this
    /\ lastCaptureTime this' = lastCaptureTime this.
Proof. eexists. repeat split. Qed.

(** [stopScanning] leaves the landmark history and the debounce fields as
    they are. *)
Lemma stopScanning_keeps_core_state (this : @DotProjector num) :
  isScanning (stopScanning this) = false
  /\ landmarkHistory (stopScanning this) = landmarkHistory this
  /\ isAutoCapturing (stopScanning this) = isAutoCapturing this
  /\ perfectAlignmentTime (stopScanning this) = perfectAlignmentTime this
  /\ lastCaptureTime (stopScanning this) = lastCaptureTime this.
Proof. repeat split. Qed.

(** What [updatePalmVisualization] does on a frame of each kind. *)
Lemma updatePalmVisualization_perfect (now : Z) (this : @DotProjector num)
    (lm : list (@Landmark num)) :
  classify this lm = Normal (Some Perfect) ->
  updatePalmVisualization now this lm
  = handlePerfectAlignment now (updateStatus this PerfectHoldSteady TSuccess).
Proof. intros E. unfold updatePalmVisualization. now rewrite E. Qed.

Lemma updatePalmVisualization_rejected (now : Z) (this : @DotProjector num)
    (lm : list (@Landmark num)) (c : Classification) :
  classify this lm = Normal (Some c) -> c <> Perfect ->
  exists this',
    updatePalmVisualization now this lm = Normal (this', false)
    /\ isAutoCapturing this' = false /\ perfectAlignmentTime this' = 0%Z
    /\ status this' = guidance c.
Proof.
  intros E Hc. unfold updatePalmVisualization. rewrite E. cbn [bind].
  destruct c as [| | | | | |[|] | |]; try contradiction; eexists; repeat split.
Qed.

(** C7, as the code has it.  [checkHandRotation] returns the [atan2] angle, in
    degrees, between the vector from the wrist to the middle-finger base and
    the up vector [(0, -1)], negated exactly when the index base lies to the
    right of the pinky base ([landmarks[5].x > landmarks[17].x]); the
    handedness label is no input of it. *)
Theorem rotation_sign_follows_landmark_geometry (lm : list (@Landmark num))
    (wrist middleBase index pinky : @Landmark num) :
  get lm 0 = Normal wrist ->
  get lm 9 = Normal middleBase ->
  get lm 5 = Normal index ->
  get lm 17 = Normal pinky ->
  let dot := (px middleBase - px wrist) * fromZ 0
             + (py middleBase - py wrist) * fromZ (-1) in
  let det := (px middleBase - px wrist) * fromZ (-1)
             - (py middleBase - py wrist) * fromZ 0 in
  let angle := Math_atan2 det dot * (fromZ 180 / Math_PI) in
  checkHandRotation lm = Normal (if px index >? px pinky then - angle else angle).
Proof.
  intros Hw Hm Hi Hp. unfold checkHandRotation.
  rewrite Hw, Hm, Hi, Hp. reflexivity.
Qed.

Lemma capture_keeps_tracking (this this' : @DotProjector num) :
  capture this = Normal this' ->
  palmData this' = palmData this /\ landmarkHistory this' = landmarkHistory this.
Proof.
  destruct this as [pd hd hist sc src ir auto pat lct stt sh].
  unfold capture; cbn.
  destruct pd as [palm|]; [|intros E; injection E as <-; split; reflexivity].
  destruct src; [|intros E; injection E as <-; split; reflexivity].
  destruct (checkHandFlatness palm) as [f|]; [|discriminate].
  destruct (checkPalmOrientation hd palm) as [o|]; [|discriminate].
  cbn. destruct f, o; cbn; intros E; injection E as <-; split; reflexivity.
Qed.

Lemma handlePerfectAlignment_keeps_tracking (now : Z) (this this' : @DotProjector num)
    (fired : bool) :
  handlePerfectAlignment now this = Normal (this', fired) ->
  palmData this' = palmData this /\ landmarkHistory this' = landmarkHistory this.
Proof.
  unfold handlePerfectAlignment.
  destruct (_ <? _)%Z; [intros E; injection E as <- _; split; reflexivity|].
  set (armed := if negb (isAutoCapturing this) then _ else _).
  assert (Ha : palmData armed = palmData this /\ landmarkHistory armed = landmarkHistory this).
  { subst armed. destruct (isAutoCapturing this); split; reflexivity. }
  destruct (_ >=? _)%Z; [|intros E; injection E as <- _; exact Ha].
  destruct (capture armed) as [c|] eqn:Ec; [|discriminate].
  cbn [bind]. intros E. injection E as <- _.
  destruct (capture_keeps_tracking _ Ec) as [Hp Hh].
  destruct Ha as [Hp' Hh']. split; cbn; congruence.
Qed.

(** After a frame without a hand the stabilizer starts afresh: the next
    detected hand of 21 landmarks becomes [palmData] as it is, and the
    history holds it alone. *)
Theorem stabilizer_restarts_after_hand_loss (this : @DotProjector num) (now now' : Z)
    (raw : list (@Landmark num)) (label : option Handedness) :
  length raw = 21%nat ->
  exists gone this' fired,
    onHandResults now this None = Normal (gone, false)
    /\ onHandResults now' gone (Some (raw, label)) = Normal (this', fired)
    /\ palmData this' = Some raw
    /\ landmarkHistory this' = [raw].
Proof.
  intros Hl.
  destruct (hand_loss_keeps_debouncer this now) as (gone & Eg & Hh & _).
  exists gone. rewrite Eg.
  unfold onHandResults. rewrite Hh. cbn [pushHistory app length Nat.ltb Nat.leb historySize tl].
  cbn [stabilizeLandmarks bind].
  set (seeing := mkDotProjector _ _ _ _ _ _ _ _ _ _ _).
  destruct (classify_chain seeing Hl eq_refl)
    as (c & d & a & fe & flat & facing & rot & _ & _ & _ & _ & Hflat & Hfacing & _ & Hc).
  unfold updatePalmVisualization. rewrite Hc. cbn [bind].
  destruct (chain _ _ _ _ _ _ _) as [[| | | | | |[|] | |]|];
    try (eexists; eexists; repeat split; reflexivity).
  destruct (handlePerfectAlignment now' (updateStatus seeing PerfectHoldSteady TSuccess))
    as [[this' fired]|] eqn:E.
  - exists this', fired. destruct (handlePerfectAlignment_keeps_tracking _ _ E) as [-> ->].
    repeat split.
  - exfalso. revert E. unfold handlePerfectAlignment.
    destruct (_ <? _)%Z; [discriminate|].
    set (armed := if negb _ then _ else _).
    destruct (_ >=? _)%Z; [|discriminate].
    assert (Hr : palmReady armed).
    { subst armed. unfold palmReady. destruct (negb _); exact Hl. }
    destruct (capture_returns armed Hr) as (c' & -> & _). discriminate.
Qed.

End Gate.

(** From idle with the cooldown elapsed, a steady stream of Perfect frames
    100 ms apart calls [capture] at the frames 5, 40, 75, ... (counting from
    0): once per hold of 500 ms and cooldown of 3000 ms. *)
Theorem steady_perfect_stream_fires_every_35th_frame {num : Type} `{JsNumber num}
    (t0 : Z) (palms : list (list (@Landmark num))) (this : @DotProjector num) :
  isAutoCapturing this = false ->
  (captureCooldown <= t0 - lastCaptureTime this)%Z ->
  hands palms ->
  exists this',
    perfectFrames (every100ms t0 palms) this
    = Normal (this', map (fun k => (k mod 35 =? 5)%nat) (seq 0 (length palms))).
Proof.
  intros Hidle Hcool Hhands.
  assert (Hin : inPhase 0 t0 this) by (left; auto).
  destruct (perfectFrames_schedule Hhands Hin) as (this' & E & _).
  exists this'. rewrite E. f_equal. f_equal.
  assert (G : forall m p k, (p < 35)%nat -> (k mod 35 = p)%nat ->
            schedule p m = map (fun k => (k mod 35 =? 5)%nat) (seq k m)).
  { clear. induction m as [|m IH]; intros p k Hp Hk; [reflexivity|].
    cbn [schedule seq map]. rewrite Hk. f_equal.
    apply IH.
    - unfold nextPhase. destruct (Nat.eqb_spec p 34); lia.
    - pose proof (Nat.div_mod_eq k 35) as Hdiv. rewrite Hk in Hdiv.
      unfold nextPhase. destruct (Nat.eqb_spec p 34) as [->|Hne]; symmetry.
      + apply Nat.mod_unique with (q := S (k / 35)); lia.
      + apply Nat.mod_unique with (q := (k / 35)%nat); lia. }
  apply G; [lia|reflexivity].
Qed.

(** The cycle at 41 frames of the open hand: the frames 5 and 40 fire. *)
Lemma steady_perfect_stream_witness :
  exists this',
    perfectFrames (every100ms 5000 (repeat (openHand (num := float)) 41)) started
    = Normal (this', map (fun k => (k mod 35 =? 5)%nat) (seq 0 41)).
Proof.
  apply (@steady_perfect_stream_fires_every_35th_frame float float64 5000
           (repeat openHand 41) started).
  - reflexivity.
  - vm_compute; discriminate.
  - repeat constructor.
Defined.

(** ** Exact arithmetic: distance, stabilizer, rotation *)

Section ExactDistance.
Local Open Scope R_scope.

Lemma round_le (a b : R) : a <= b -> Exact.round a <= Exact.round b.
Proof. intros Hab. unfold Exact.round. apply IZR_le, Zfloor_le. lra. Qed.

Lemma round_IZR (n : Z) : Exact.round (IZR n) = IZR n.
Proof. unfold Exact.round. f_equal. apply Zfloor_eq. lra. Qed.

Lemma round_lb (n : Z) (a : R) : IZR n <= a -> IZR n <= Exact.round a.
Proof. intros Ha. rewrite <- (round_IZR n). now apply round_le. Qed.

Lemma round_ub (n : Z) (a : R) : a <= IZR n -> Exact.round a <= IZR n.
Proof. intros Ha. rewrite <- (round_IZR n). now apply round_le. Qed.

Lemma round_between (lo hi : Z) (a : R) :
  IZR lo <= a <= IZR hi ->
  exists n : Z, Exact.round a = IZR n /\ (lo <= n <= hi)%Z.
Proof.
  intros [Hlo Hhi]. exists (Zfloor (a + / 2)). split; [reflexivity|].
  split; apply le_IZR.
  - now apply round_lb.
  - now apply round_ub.
Qed.

Lemma distance_monotone (a b : R) :
  a <= b -> distanceFromArea b <= distanceFromArea a.
Proof.
  intros Hab. unfold distanceFromArea. exact_arith. unfold Exact.ltb.
  repeat match goal with |- context [Rlt_dec ?u ?v] => destruct (Rlt_dec u v) end;
    try lra;
    first
      [ apply round_le; lra
      | apply round_lb; lra
      | apply Rle_trans with (IZR 20); [apply round_ub; lra | apply round_lb; lra]
      | apply Rle_trans with (IZR 45); [apply round_ub; lra | apply round_lb; lra] ].
Qed.

Lemma distance_at_breakpoints :
  distanceFromArea (lit (num:=R) 8 100) = 5
  /\ distanceFromArea (lit (num:=R) 5 100) = 20
  /\ distanceFromArea (lit (num:=R) 1 100) = 45.
Proof.
  unfold distanceFromArea. exact_arith. unfold Exact.ltb.
  repeat split;
    repeat match goal with |- context [Rlt_dec ?u ?v] => destruct (Rlt_dec u v) end;
    try lra.
  - replace (5 + (8 / 100 - 8 / 100) * 500) with (IZR 5) by lra. apply round_IZR.
  - replace (20 + (5 / 100 - 5 / 100) * 625) with (IZR 20) by lra. apply round_IZR.
  - replace (45 + (1 / 100 - 1 / 100) * 4000) with (IZR 45) by lra. apply round_IZR.
Qed.

Lemma calculatePalmArea_nonneg (lm : list (@Landmark R)) (a : R) :
  calculatePalmArea lm = Normal a -> 0 <= a.
Proof.
  unfold calculatePalmArea.
  destruct (forEach _ _ _) as [s|]; cbn [bind]; [|discriminate].
  intros E. injection E as <-. exact_arith. apply Rabs_pos.
Qed.

Lemma distance_range (a : R) :
  0 <= a -> exists n : Z, distanceFromArea a = IZR n /\ (5 <= n <= 85)%Z.
Proof.
  intros Ha. unfold distanceFromArea. exact_arith. unfold Exact.ltb.
  repeat match goal with |- context [Rlt_dec ?u ?v] => destruct (Rlt_dec u v) end.
  - exists 5%Z. split; [reflexivity|lia].
  - destruct (round_between 5 20 (a := 5 + (8 / 100 - a) * 500)) as (k & -> & Hk);
      [lra|]. exists k. split; [reflexivity|lia].
  - destruct (round_between 20 45 (a := 20 + (5 / 100 - a) * 625)) as (k & -> & Hk);
      [lra|]. exists k. split; [reflexivity|lia].
  - destruct (round_between 45 85 (a := 45 + (1 / 100 - a) * 4000)) as (k & -> & Hk);
      [lra|]. exists k. split; [reflexivity|lia].
Qed.

(** C4. Over exact arithmetic the distance estimate is non-increasing in the
    palm area; at the break points it is 5 (area 0.08), 20 (area 0.05) and
    45 (area 0.01), in exact arithmetic and in binary64 alike; and it is the
    rounded piecewise-linear calibration: 5 above 0.08, from 5 to 20 on
    (0.05, 0.08], from 20 to 45 on (0.01, 0.05], from 45 upwards below. *)
Theorem distance_non_increasing_with_exact_breakpoints :
  (forall a b : R, a <= b -> distanceFromArea b <= distanceFromArea a)
  /\ (distanceFromArea (lit (num := R) 8 100) = 5
      /\ distanceFromArea (lit (num := R) 5 100) = 20
      /\ distanceFromArea (lit (num := R) 1 100) = 45)
  /\ (distanceFromArea (lit (num := float) 8 100) = 5%float
      /\ distanceFromArea (lit (num := float) 5 100) = 20%float
      /\ distanceFromArea (lit (num := float) 1 100) = 45%float)
  /\ (forall a : R,
        (8 / 100 < a -> distanceFromArea a = 5)
        /\ (5 / 100 < a <= 8 / 100 ->
            distanceFromArea a = Exact.round (5 + (8 / 100 - a) * 500)
            /\ 5 <= distanceFromArea a <= 20)
        /\ (1 / 100 < a <= 5 / 100 ->
            distanceFromArea a = Exact.round (20 + (5 / 100 - a) * 625)
            /\ 20 <= distanceFromArea a <= 45)
        /\ (a <= 1 / 100 ->
            distanceFromArea a = Exact.round (45 + (1 / 100 - a) * 4000)
            /\ 45 <= distanceFromArea a)).
Proof.
  split; [exact distance_monotone|].
  split; [exact distance_at_breakpoints|].
  split; [vm_compute; repeat split|].
  intros a. unfold distanceFromArea. exact_arith. unfold Exact.ltb.
  split; [|split; [|split]]; intros Ha;
    repeat match goal with |- context [Rlt_dec ?u ?v] => destruct (Rlt_dec u v) end;
    try lra; repeat split; try reflexivity;
    first [apply round_lb; lra | apply round_ub; lra].
Qed.

(** C10. For every hand of 21 landmarks (real coordinates, exact arithmetic)
    the palm area is not negative and the distance estimate is an integer
    between 5 and 85. *)
Theorem distance_is_integer_between_5_and_85 (landmarks : list (@Landmark R))
    (palmCenter : @Landmark R) :
  length landmarks = 21%nat ->
  exists (palmArea : R) (n : Z),
    calculatePalmArea landmarks = Normal palmArea
    /\ 0 <= palmArea
    /\ calculateDistance (Some landmarks) palmCenter = Normal (IZR n)
    /\ (5 <= n <= 85)%Z.
Proof.
  intros Hl.
  destruct (calculatePalmArea_returns landmarks Hl) as [a Ha].
  pose proof (calculatePalmArea_nonneg landmarks Ha) as Hpos.
  destruct (distance_range Hpos) as (n & Hn & Hrange).
  exists a, n. repeat split; try assumption; try lia.
  unfold calculateDistance. rewrite Ha. cbn [bind]. now rewrite Hn.
Qed.

End ExactDistance.

Section ExactAlignment.
Local Open Scope R_scope.


End ExactAlignment.


Lemma historyAfter_repeat {num} (frame : list (@Landmark num)) (n : nat) :
  historyAfter n frame = repeat frame (Nat.min n 5).
Proof.
  induction n as [|n IH]; [reflexivity|].
  cbn [historyAfter]. rewrite IH.
  destruct (le_lt_dec 5 n) as [Hge|Hlt].
  - rewrite !Nat.min_r by lia. reflexivity.
  - rewrite !Nat.min_l by lia.
    do 5 (destruct n as [|n]; [reflexivity|]). lia.
Qed.

Section ExactStabilizer.
Local Open Scope R_scope.

Lemma stabilize_identical_exact (frame : list (@Landmark R)) (k : nat) :
  length frame = 21%nat -> (1 <= k <= 5)%nat ->
  stabilizeLandmarks (repeat frame k) = Normal (Some frame).
Proof.
  intros Hl Hk. hand21 frame Hl.
  repeat match goal with q : Landmark |- _ => destruct q end.
  destruct k as [|[|[|[|[|[|k]]]]]]; try lia; cbn; try reflexivity.
  all: exact_arith.
  all: repeat f_equal; field.
Qed.
End ExactStabilizer.

(** C6, as the code has it.  With one frame in the history the stabilizer
    returns that frame itself, whatever the numbers; and over exact
    arithmetic, after any [N >= 1] detections of the same hand of 21
    landmarks it returns that hand unchanged.  (In binary64 the weighted sum
    and the division round.) *)
Theorem stabilizer_identity_single_frame_and_exact :
  (forall (num : Type) (H : JsNumber num) (frame : list (@Landmark num)),
      stabilizeLandmarks (historyAfter 1 frame) = Normal (Some frame))
  /\ (forall (frame : list (@Landmark R)) (N : nat),
        length frame = 21%nat -> (1 <= N)%nat ->
        stabilizeLandmarks (historyAfter N frame) = Normal (Some frame)).
Proof.
  split; [reflexivity|].
  intros frame N Hl HN. rewrite historyAfter_repeat.
  apply stabilize_identical_exact; [assumption|lia].
Qed.

Section ExactRotation.
Local Open Scope R_scope.

(** C7 fails as stated: on the tilted hand labelled Left, whose index base
    is left of its pinky base, [checkHandRotation] does not negate the
    angle, while the specification's [rotationDeg] does. *)
Lemma rotation_ignores_handedness_label :
  checkHandRotation (num := R) tiltedHand
  <> rotationDeg_spec (num := R) tiltedHand (Some Left).
Proof.
  unfold checkHandRotation, rotationDeg_spec, tiltedHand, point.
  cbn [get nth_error bind px py pz].
  exact_arith. unfold Exact.ltb.
  destruct (Rlt_dec (6300 / 10000) (4200 / 10000)) as [Habs|_]; [lra|].
  intros E. injection E as E.
  set (det := (5500 / 10000 - 5000 / 10000) * -1 - (5300 / 10000 - 8000 / 10000) * 0) in E.
  set (dot := (5500 / 10000 - 5000 / 10000) * 0 + (5300 / 10000 - 8000 / 10000) * -1) in E.
  assert (Hdot : 0 < dot) by (unfold dot; lra).
  assert (Hdet : det / dot < 0).
  { replace (det / dot) with (- (5 / 27)) by (unfold det, dot; field). lra. }
  unfold Exact.atan2 in E. destruct (Rlt_dec 0 dot) as [_|]; [|contradiction].
  assert (Hat : atan (det / dot) < 0).
  { rewrite <- atan_0. now apply atan_increasing. }
  assert (Hk : 0 < 180 / PI).
  { apply Rdiv_lt_0_compat; [lra|apply PI_RGT_0]. }
  assert (Hneg : atan (det / dot) * (180 / PI) < 0).
  { replace 0 with (0 * (180 / PI)) by ring. now apply Rmult_lt_compat_r. }
  lra.
Qed.
End ExactRotation.


(** ** Evaluations in binary64 *)

(** C6 fails as stated in binary64: two detections of the same open hand do
    not give that hand back (the wrist's y, 0.8, comes back as the next
    double above it). *)
Lemma stabilizer_rounds_identical_frames :
  stabilizeLandmarks (historyAfter 2 (openHand (num := float)))
  <> Normal (Some openHand).
Proof.
  intros E.
  apply (f_equal (fun r => match r with
                           | Normal (Some (p :: _)) =>
                               PrimFloat.eqb (py p) (lit 8000 10000)
                           | _ => true
                           end)) in E.
  vm_compute in E. discriminate E.
Qed.

(** C5: the hold timer outlives a lost hand and a stopped session.  A
    Perfect frame at 10000 arms the debouncer; the no-hand frame at 10100
    empties the history but leaves it armed, and so does [stopScanning],
    which keeps the history too; when the hand is back at 20000 its first
    frame calls [capture] at once, with no new hold of 500 ms. *)
Theorem hold_timer_survives_hand_loss_and_stop (approx : float -> float -> float) :
  (exists armed,
      @feed float float64 (engine approx) [seen 10000] started
        = Normal (armed, [(PerfectHoldSteady, false)])
      /\ isAutoCapturing armed = true
      /\ perfectAlignmentTime armed = 10000%Z
      /\ isAutoCapturing (stopScanning armed) = true
      /\ perfectAlignmentTime (stopScanning armed) = 10000%Z
      /\ landmarkHistory (stopScanning armed) = [openHand])
  /\ (exists gone,
        @feed float float64 (engine approx) [seen 10000; lost 10100] started
          = Normal (gone, [(PerfectHoldSteady, false); (PlacePalmInView, false)])
        /\ landmarkHistory gone = []
        /\ isAutoCapturing gone = true
        /\ perfectAlignmentTime gone = 10000%Z)
  /\ (exists back,
        @feed float float64 (engine approx) [seen 10000; lost 10100; seen 20000] started
          = Normal (back, [(PerfectHoldSteady, false); (PlacePalmInView, false);
                           (PerfectHoldSteady, true)])
        /\ shots back = [mkShot SingleRegular openHand]).
Proof.
  split; [|split].
  - let run := eval vm_compute in
        (@feed float float64 (engine approx) [seen 10000] started) in
    match run with Normal (?this', _) => exists this' end.
    repeat (split; [vm_compute; reflexivity|]). vm_compute; reflexivity.
  - let run := eval vm_compute in
        (@feed float float64 (engine approx) [seen 10000; lost 10100] started) in
    match run with Normal (?this', _) => exists this' end.
    repeat (split; [vm_compute; reflexivity|]). vm_compute; reflexivity.
  - let run := eval vm_compute in
        (@feed float float64 (engine approx) [seen 10000; lost 10100; seen 20000]
           started) in
    match run with Normal (?this', _) => exists this' end.
    split; vm_compute; reflexivity.
Qed.

(** C9: on the edge-on hand (wrist, index base and pinky base on one line)
    [calculatePalmNormal] divides by a zero length, the alignment is NaN,
    neither [alignment < 0.3] nor the guard of the last branch holds, and
    [updatePalmVisualization] takes no branch: the state, status line and
    debounce fields included, stays as it was.  This holds whatever the
    engine's [Math.atan2] is. *)
Theorem gate_falls_through_on_nan_alignment (atan2 : float -> float -> float)
    (now : Z) :
  length (edgeOnHand (num := float)) = 21%nat
  /\ handFullyVisible (edgeOnHand (num := float)) = true
  /\ checkFingerExtension (edgeOnHand (num := float)) = Normal true
  /\ calculateDistance (Some edgeOnHand) (point 0 0 0) = Normal 32%float
  /\ calculateAlignment (edgeOnHand (num := float)) = Normal PrimFloat.nan
  /\ @classify float float64 (engine atan2) (scanning edgeOnHand None) edgeOnHand
     = Normal None
  /\ @updatePalmVisualization float float64 (engine atan2) now
       (scanning edgeOnHand None) edgeOnHand
     = Normal (scanning edgeOnHand None, false).
Proof.
  assert (Hc : @classify float float64 (engine atan2) (scanning edgeOnHand None)
                 edgeOnHand = Normal None)
    by (vm_compute; reflexivity).
  split; [reflexivity|].
  split; [vm_compute; reflexivity|].
  split; [vm_compute; reflexivity|].
  split; [vm_compute; reflexivity|].
  split; [vm_compute; reflexivity|].
  split; [exact Hc|].
  unfold updatePalmVisualization. rewrite Hc. reflexivity.
Qed.

(** [Math.round] in binary64: ties go up, [-0.5] gives [-0], NaN stays. *)
Example round_examples :
  map F64.round [2.5; -2.5; 0x1.fffffffffffffp-2; 44.5; 32.5; -0.5; 0.5; nan]%float
  = [3; -2; 0; 45; 33; -0; 1; nan]%float.
Proof. vm_compute. reflexivity. Qed.

(** [chain_total] at the values of the open hand. *)
Lemma chain_total_witness :
  chain (num := float) true true 33%float (lit 95875 100000) true 0%float true <> None.
Proof.
  apply chain_total; intros _; vm_compute; reflexivity.
Defined.


(** The open hand (palm area 0.0295) shown to a session just started, for
    six frames 100 ms apart: every frame is classified Perfect, [capture] is
    called once, at the sixth frame, and the captured hand has distance 33 cm
    and alignment 96%, whatever the engine's [Math.atan2] is. *)
Theorem six_open_hand_frames_capture_once (approx : float -> float -> float) :
  exists this' palm,
    @feed float float64 (engine approx)
      [seen 5000; seen 5100; seen 5200; seen 5300; seen 5400; seen 5500] started
    = Normal (this', [(PerfectHoldSteady, false); (PerfectHoldSteady, false);
                      (PerfectHoldSteady, false); (PerfectHoldSteady, false);
                      (PerfectHoldSteady, false); (PerfectHoldSteady, true)])
    /\ shots this' = [mkShot SingleRegular palm]
    /\ palmData this' = Some palm
    /\ lastCaptureTime this' = 5500%Z
    /\ calculateDistance (Some palm) (point 0 0 0) = Normal 33%float
    /\ (alignment <- calculateAlignment palm ;;
        Normal (Math_round (alignment * fromZ 100)%js)) = Normal 96%float.
Proof.
  let run := eval vm_compute in
      (@feed float float64 (engine approx)
         [seen 5000; seen 5100; seen 5200; seen 5300; seen 5400; seen 5500] started) in
  match run with
  | Normal (?this', _) =>
      exists this';
      let palm := eval vm_compute in (palmData this') in
      match palm with Some ?p => exists p end
  end.
  split; [vm_compute; reflexivity|].
  split; [vm_compute; reflexivity|].
  split; [vm_compute; reflexivity|].
  split; [vm_compute; reflexivity|].
  split; vm_compute; reflexivity.
Qed.


(** ** The theorems at sample inputs *)

(** C1 at six frames of the open hand from time 5000 on. *)
Lemma debounce_fires_once_after_hold_witness :
  exists this',
    perfectFrames (every100ms 5000 (repeat (openHand (num := float)) 6)) started
      = Normal (this', [false; false; false; false; false; true])
    /\ ((1 <= 6 <= 5)%nat ->
        isAutoCapturing this' = true /\ perfectAlignmentTime this' = 5000%Z).
Proof.
  apply (@debounce_fires_once_after_hold float float64 5000 (repeat openHand 6)
           started).
  - reflexivity.
  - vm_compute; discriminate.
  - repeat constructor.
  - cbn; lia.
Defined.

(** C2 at a hold of the open hand from time 5000 (capture at 5500) and a
    second hold from 7000 to 7500. *)
Lemma cooldown_suppresses_second_capture_witness :
  exists this',
    perfectFrames (every100ms 5000 (repeat (openHand (num := float)) 6)
                   ++ every100ms 7000 (repeat openHand 6)) started
      = Normal (this', [false; false; false; false; false; true]
                       ++ repeat false 6)
    /\ lastCaptureTime this' = 5500%Z.
Proof.
  apply (proj2 (@cooldown_suppresses_second_capture float float64) 5000%Z
           (repeat openHand 6) (every100ms 7000%Z (repeat openHand 6)) started).
  - reflexivity.
  - vm_compute; discriminate.
  - repeat constructor.
  - reflexivity.
  - repeat constructor; vm_compute; reflexivity.
Defined.

Section ExactSamples.
Local Open Scope R_scope.

Lemma edgeHand_not_fully_visible : handFullyVisible (edgeHand (num := R)) = false.
Proof.
  unfold handFullyVisible, edgeHand, point, nearEdge.
  cbn [forallb px py pz]. exact_arith. unfold Exact.ltb.
  destruct (Rlt_dec (100 / 10000) (5 / 100)) as [_|Hn]; [reflexivity|exfalso; lra].
Qed.

Lemma edgeHand_not_flat : checkHandFlatness (edgeHand (num := R)) = Normal false.
Proof.
  unfold checkHandFlatness, calculatePalmCenter, edgeHand, point, fingerTips, fingerMids.
  cbn [get nth_error bind forEach combine seq length nth px py pz].
  f_equal. apply andb_false_intro2.
  exact_arith. unfold Exact.ltb.
  match goal with |- (if Rlt_dec ?m ?c then _ else _) = false =>
    destruct (Rlt_dec m c) as [Hlt|_]; [exfalso|reflexivity] end.
  rewrite (Rabs_right (10000 / 10000 - 0 / 10000)) in Hlt by lra.
  match type of Hlt with Rmax ?u ?v < _ => pose proof (Rmax_r u v) as Hr end.
  lra.
Qed.

(** C3 at the hand with its wrist at the edge and its fingertips out of the
    palm plane: both checks fail, the chain says OutOfFrame. *)
Lemma classification_priority_witness :
  handFullyVisible (edgeHand (num := R)) = false
  /\ checkHandFlatness (edgeHand (num := R)) = Normal false
  /\ classify (scanning (edgeHand (num := R)) None) edgeHand = Normal (Some OutOfFrame).
Proof.
  split; [exact edgeHand_not_fully_visible|].
  split; [exact edgeHand_not_flat|].
  destruct (@classification_priority R exact exact_trig (scanning edgeHand None) edgeHand
              eq_refl eq_refl)
    as (c & d & a & fe & flat & facing & rot & _ & _ & _ & _ & _ & _ & _ & Hedge & _).
  exact (Hedge edgeHand_not_fully_visible).
Defined.
(** The restart of the stabilizer at the open hand, after a lost hand. *)
Lemma stabilizer_restarts_after_hand_loss_witness :
  exists gone this' fired,
    onHandResults 0 (started (num := R)) None = Normal (gone, false)
    /\ onHandResults 100 gone (Some (openHand, Some Right)) = Normal (this', fired)
    /\ palmData this' = Some openHand
    /\ landmarkHistory this' = [openHand].
Proof.
  exact (@stabilizer_restarts_after_hand_loss R exact exact_trig started 0 100
           openHand (Some Right) eq_refl).
Defined.

(** C4 at the areas 0.03 and 0.06. *)
Lemma distance_non_increasing_witness :
  lit (num := R) 3 100 <= lit (num := R) 6 100
  /\ distanceFromArea (lit (num := R) 6 100) <= distanceFromArea (lit (num := R) 3 100).
Proof.
  assert (Hle : lit (num := R) 3 100 <= lit (num := R) 6 100)
    by (exact_arith; lra).
  split; [exact Hle|].
  exact (proj1 distance_non_increasing_with_exact_breakpoints _ _ Hle).
Defined.

(** C10 at the open hand. *)
Lemma distance_is_integer_between_5_and_85_witness :
  exists (palmArea : R) (n : Z),
    calculatePalmArea (openHand (num := R)) = Normal palmArea
    /\ 0 <= palmArea
    /\ calculateDistance (Some (openHand (num := R))) (point 5000 6650 (-50))
       = Normal (IZR n)
    /\ (5 <= n <= 85)%Z.
Proof.
  exact (@distance_is_integer_between_5_and_85 openHand (point 5000 6650 (-50)) eq_refl).
Defined.

(** C6 (exact arithmetic) at three detections of the open hand. *)
Lemma stabilizer_identity_witness :
  stabilizeLandmarks (historyAfter 3 (openHand (num := R))) = Normal (Some openHand).
Proof.
  apply (proj2 stabilizer_identity_single_frame_and_exact openHand 3%nat).
  - reflexivity.
  - lia.
Defined.

(** C7 at the tilted hand. *)
Lemma rotation_sign_witness :
  let wrist := point (num := R) 5000 8000 0 in
  let middleBase := point (num := R) 5500 5300 (-100) in
  let index := point (num := R) 4200 5500 (-100) in
  let pinky := point (num := R) 6300 6000 (-100) in
  let dot := ((px middleBase - px wrist) * fromZ 0
              + (py middleBase - py wrist) * fromZ (-1))%js in
  let det := ((px middleBase - px wrist) * fromZ (-1)
              - (py middleBase - py wrist) * fromZ 0)%js in
  let angle := (Math_atan2 det dot * (fromZ 180 / Math_PI))%js in
  checkHandRotation (num := R) tiltedHand
  = Normal (if (px index >? px pinky)%js then (- angle)%js else angle).
Proof.
  exact (@rotation_sign_follows_landmark_geometry R exact exact_trig tiltedHand
           _ _ _ _ eq_refl eq_refl eq_refl eq_refl).
Defined.

End ExactSamples.

(** C8 at a session holding the hand whose fingertips are out of the palm
    plane: the capture is given up. *)
Lemma capture_revalidates_hand_state_witness :
  checkHandFlatness (edgeHand (num := float)) = Normal false
  /\ exists this',
       capture (scanning (edgeHand (num := float)) None) = Normal this'
       /\ shots this' = []
       /\ (status this' = (OpenPalmFully, TWarning)
           \/ status this' = (FacePalmToCamera, TWarning)).
Proof.
  assert (Hflat : checkHandFlatness (edgeHand (num := float)) = Normal false)
    by (vm_compute; reflexivity).
  split; [exact Hflat|].
  destruct (@capture_revalidates_hand_state float float64 (scanning edgeHand None)
              edgeHand eq_refl eq_refl eq_refl)
    as (f & o & this' & Hf & _ & Hc & _ & _ & Habort & _).
  exists this'. split; [exact Hc|].
  apply Habort. rewrite Hflat in Hf. injection Hf as <-. reflexivity.
Defined.

(** ** Display, gallery, session and dot field *)

Section ExactDisplay.
Local Open Scope R_scope.



Lemma calculateAlignment_range (landmarks : list (@Landmark R)) :
  length landmarks = 21%nat ->
  exists alignment : R,
    calculateAlignment landmarks = Normal alignment /\ 0 <= alignment <= 1.
Proof.
  intros Hl.
  destruct (calculatePalmArea_returns landmarks Hl) as [a Ha].
  destruct (calculatePalmNormal_returns landmarks Hl) as [n Hn].
  destruct (calculateFingerSpread_returns landmarks Hl) as [s Hs].
  destruct (calculatePalmCenter_returns landmarks Hl) as [c Hc].
  unfold calculateAlignment. rewrite Ha, Hn, Hs, Hc.
  hand21 landmarks Hl. cbn [forEach criticalPoints get nth_error bind].
  match goal with |- context [if negb ?b then _ else _] => destruct b end;
    cbn [negb bind]; eexists; (split; [reflexivity|]); exact_arith.
  - split; [apply Rmax_l|]. apply Rmax_lub; [lra|apply Rmin_l].
  - lra.
Qed.

Lemma detectFeatures_spread (landmarks : list (@Landmark R)) :
  length landmarks = 21%nat ->
  exists spread features : R,
    calculateFingerSpread landmarks = Normal spread
    /\ detectFeatures landmarks = Normal features
    /\ features = Rmin 100 (spread * 500)
    /\ 0 <= features <= 100.
Proof.
  intros Hl. hand21 landmarks Hl.
  eexists. eexists. split; [reflexivity|]. split; [reflexivity|].
  cbn. exact_arith. unfold pow2. exact_arith.
  repeat match goal with |- context [R_sqrt.sqrt ?a] =>
    let s := fresh "s" in
    pose proof (sqrt_pos a); set (s := R_sqrt.sqrt a) in * end.
  split; [f_equal; lra|]. minmax.
Qed.

(** The features score is the average distance between neighbouring
    fingertips, the finger spread of the alignment score, times 500 and
    capped at 100; it lies between 0 and 100. *)
Theorem features_are_the_capped_finger_spread (landmarks : list (@Landmark R)) :
  length landmarks = 21%nat ->
  exists spread features : R,
    calculateFingerSpread landmarks = Normal spread
    /\ detectFeatures landmarks = Normal features
    /\ features = Rmin 100 (spread * 500)
    /\ 0 <= features <= 100.
Proof. exact (@detectFeatures_spread landmarks). Qed.



Lemma colour_and_chain (this : @DotProjector R)
    (indicator : option (RotationHint * bool)) (landmarks : list (@Landmark R)) :
  length landmarks = 21%nat ->
  palmData this = Some landmarks ->
  exists (palmCenter : @Landmark R) (distance : R)
         (indicator' : option (RotationHint * bool)) (handColor : HandColor),
    calculatePalmCenter landmarks = Normal palmCenter
    /\ calculateDistance (palmData this) palmCenter = Normal distance
    /\ updateHandVisualization this indicator landmarks
       = Normal (indicator', handColor)
    /\ (classify this landmarks = Normal (Some Perfect) ->
        handColor = if Rlt_dec distance 8 then Red else Green)
    /\ (handColor = Green ->
        handFullyVisible landmarks = true ->
        checkFingerExtension landmarks = Normal true ->
        classify this landmarks = Normal (Some Perfect)).
Proof.
  intros Hl Hpalm.
  destruct (classify_chain this Hl Hpalm)
    as (c & d & a & fe & flat & facing & rot & Hc & Hd & Ha & Hfe & Hflat & Hfacing
        & Hrot & Hclass).
  exists c, d. eexists. eexists.
  split; [assumption|]. split; [assumption|].
  unfold updateHandVisualization.
  rewrite Hrot. cbn [bind]. rewrite Hc. cbn [bind].
  rewrite Hd, Ha, Hfacing, Hflat, Hfe. cbn [bind].
  split; [reflexivity|].
  rewrite Hclass. unfold chain. exact_arith. unfold Exact.ltb, Exact.leb.
  split.
  - destruct (handFullyVisible landmarks), fe, facing, flat; cbn [negb andb];
      repeat match goal with
        | |- context [Rlt_dec ?u ?v] => destruct (Rlt_dec u v)
        | |- context [Rle_dec ?u ?v] => destruct (Rle_dec u v)
        end; cbn [negb andb]; intros E; try discriminate E; try reflexivity; lra.
  - intros Hcol Hvis Hext. rewrite Hvis. injection Hext as ->.
    revert Hcol.
    destruct facing, flat; cbn [negb andb];
      repeat match goal with
        | |- context [Rlt_dec ?u ?v] => destruct (Rlt_dec u v)
        | |- context [Rle_dec ?u ?v] => destruct (Rle_dec u v)
        end; cbn [negb andb]; intros E; try discriminate E; try reflexivity; lra.
Qed.

End ExactDisplay.

(** The colour of the hand against the branch of the chain.  Over exact
    arithmetic, on a tracked hand of 21 landmarks: a hand the chain
    classifies Perfect is drawn green from 8 cm on and red below (the chain
    accepts from 5 cm on); and a green hand that is fully inside the frame
    with its fingers extended is classified Perfect.  In binary64 the close
    hand, at 5 cm, is classified Perfect and drawn red, whatever the
    engine's [Math.atan2] computes outside its fixed special cases. *)
Theorem perfect_hand_is_green_from_8_cm :
  (forall (this : @DotProjector R) (indicator : option (RotationHint * bool))
          (landmarks : list (@Landmark R)),
      length landmarks = 21%nat ->
      palmData this = Some landmarks ->
      exists (palmCenter : @Landmark R) (distance : R)
             (indicator' : option (RotationHint * bool)) (handColor : HandColor),
        calculatePalmCenter landmarks = Normal palmCenter
        /\ calculateDistance (palmData this) palmCenter = Normal distance
        /\ updateHandVisualization this indicator landmarks
           = Normal (indicator', handColor)
        /\ (classify this landmarks = Normal (Some Perfect) ->
            handColor = if Rlt_dec distance 8 then Red else Green)
        /\ (handColor = Green ->
            handFullyVisible landmarks = true ->
            checkFingerExtension landmarks = Normal true ->
            classify this landmarks = Normal (Some Perfect)))
  /\ (forall approx : float -> float -> float,
        calculateDistance (Some (closeHand (num := float))) (point 0 0 0)
        = Normal 5%float
        /\ classify (H0 := engine approx) (scanning closeHand (Some Right)) closeHand
           = Normal (Some Perfect)
        /\ updateHandVisualization (H0 := engine approx)
             (scanning closeHand (Some Right)) None closeHand
           = Normal (None, Red)).
Proof.
  split; [exact colour_and_chain|].
  intros approx. repeat split; vm_compute; reflexivity.
Qed.


Section Indicator.

Context {num : Type} `{JsNumber num} `{JsTrig num}.
Local Open Scope js_scope.

(** The rotation indicator against the branch of the chain, in any
    arithmetic: when the chain asks to rotate the hand, the indicator is
    displayed with the same direction; when the chain gets past its rotation
    test (not flat, or Perfect), no indicator is displayed. *)
Theorem rotation_indicator_agrees_with_the_chain (this : @DotProjector num)
    (indicator indicator' : option (RotationHint * bool))
    (landmarks : list (@Landmark num)) (branch : Classification)
    (handColor : HandColor) :
  classify this landmarks = Normal (Some branch) ->
  updateHandVisualization this indicator landmarks = Normal (indicator', handColor) ->
  match branch with
  | Rotated counterClockwise =>
      indicator' = Some (if counterClockwise then RotateCCW else RotateCW, true)
  | NotFlat | Perfect => displayed indicator' = false
  | _ => True
  end.
Proof.
  unfold classify, updateHandVisualization, updateRotationIndicator.
  destruct (calculatePalmCenter landmarks) as [c|]; cbn [bind]; [|discriminate].
  destruct (calculateDistance (palmData this) c) as [d|]; cbn [bind]; [|discriminate].
  destruct (calculateAlignment landmarks) as [a|]; cbn [bind]; [|discriminate].
  destruct (get landmarks 5) as [i5|]; cbn [bind]; [|discriminate].
  destruct (get landmarks 17) as [i17|]; cbn [bind]; [|discriminate].
  destruct (checkFingerExtension landmarks) as [fe|]; cbn [bind]; [|discriminate].
  destruct (checkHandRotation landmarks) as [rot|]; cbn [bind];
    [|intros _ E; discriminate E].
  destruct (checkPalmOrientation (handedness this) landmarks) as [facing|];
    cbn [bind]; [|intros _ E; discriminate E].
  destruct (checkHandFlatness landmarks) as [flat|]; cbn [bind];
    [|intros _ E; discriminate E].
  intros Hb Hv. injection Hv as <- _. revert Hb.
  repeat match goal with
    | |- context [if ?b then _ else _] =>
        lazymatch b with
        | context [if _ then _ else _] => fail
        | _ => destruct b eqn:?
        end
    end; cbn [bind]; intros E; try discriminate E;
    injection E as <-; try exact I; try reflexivity;
    try (destruct indicator as [[? ?]|]; reflexivity).
Qed.

(** [drawEdgeWarnings] draws a warning exactly when the edge test of
    [updatePalmVisualization] fails, in any arithmetic. *)
Theorem edge_warnings_drawn_exactly_when_hand_leaves_frame
    (landmarks : list (@Landmark num)) (w h : num) :
  drawEdgeWarnings landmarks w h <> [] <-> handFullyVisible landmarks = false.
Proof.
  unfold drawEdgeWarnings, handFullyVisible.
  induction landmarks as [|p lm IH]; cbn [flat_map forallb].
  - split; [intros E; now elim E|discriminate].
  - unfold nearEdge at 1.
    destruct (px p <? lit 5 100) eqn:E1, (px p >? fromZ 1 - lit 5 100) eqn:E2,
             (py p <? lit 5 100) eqn:E3, (py p >? fromZ 1 - lit 5 100) eqn:E4;
      cbn [orb negb andb app];
      try (split; [reflexivity|discriminate]).
    exact IH.
Qed.

End Indicator.

Section ExactFraming.
Local Open Scope R_scope.



(** The running minima and maxima of [getPalmBounds] enclose the start
    values and every landmark. *)
Lemma bounds_fold (lm : list (@Landmark R)) :
  forall a b c d minX maxX minY maxY : R,
  fold_left (fun '(minX, maxX, minY, maxY) landmark =>
               (Rmin minX (px landmark), Rmax maxX (px landmark),
                Rmin minY (py landmark), Rmax maxY (py landmark)))
            lm (a, b, c, d) = (minX, maxX, minY, maxY) ->
  minX <= a /\ b <= maxX /\ minY <= c /\ d <= maxY
  /\ forall p, In p lm -> minX <= px p <= maxX /\ minY <= py p <= maxY.
Proof.
  induction lm as [|q lm IH]; intros a b c d minX maxX minY maxY E; cbn in E.
  - injection E; intros; subst. repeat split; try lra. all: contradiction.
  - apply IH in E. destruct E as (H1 & H2 & H3 & H4 & Hin).
    pose proof (Rmin_l a (px q)). pose proof (Rmin_r a (px q)).
    pose proof (Rmax_l b (px q)). pose proof (Rmax_r b (px q)).
    pose proof (Rmin_l c (py q)). pose proof (Rmin_r c (py q)).
    pose proof (Rmax_l d (py q)). pose proof (Rmax_r d (py q)).
    split; [lra|]. split; [lra|]. split; [lra|]. split; [lra|].
    intros p [<-|Hp]; [lra|apply (Hin _ Hp)].
Qed.

Lemma getPalmBounds_box (landmarks : list (@Landmark R)) (w h padding : R) :
  landmarks <> [] -> 0 <= w -> 0 <= h -> 0 <= padding ->
  exists minX maxX minY maxY : R,
    minX <= 1 /\ 0 <= maxX /\ minY <= 1 /\ 0 <= maxY
    /\ minX <= maxX /\ minY <= maxY
    /\ (forall p, In p landmarks -> minX <= px p <= maxX /\ minY <= py p <= maxY)
    /\ getPalmBounds (Some landmarks) w h padding =
       mkPalmBounds (Rmax 0 (minX * w - padding)) (Rmax 0 (minY * h - padding))
         (Rmin w (maxX * w + padding) - Rmax 0 (minX * w - padding))
         (Rmin h (maxY * h + padding) - Rmax 0 (minY * h - padding))
         ((Rmax 0 (minX * w - padding) + Rmin w (maxX * w + padding)) / 2)
         ((Rmax 0 (minY * h - padding) + Rmin h (maxY * h + padding)) / 2)
         (Rmax (Rmin w (maxX * w + padding) - Rmax 0 (minX * w - padding))
               (Rmin h (maxY * h + padding) - Rmax 0 (minY * h - padding)) / 2).
Proof.
  intros Hne Hw Hh Hp.
  destruct landmarks as [|q lm]; [now elim Hne|].
  unfold getPalmBounds. exact_arith.
  destruct (fold_left _ (q :: lm) (1, 0, 1, 0)) as [[[minX maxX] minY] maxY] eqn:E.
  apply bounds_fold in E. destruct E as (H1 & H2 & H3 & H4 & Hin).
  exists minX, maxX, minY, maxY.
  destruct (Hin q (or_introl eq_refl)) as [Hq1 Hq2].
  repeat split; try lra; try apply Hin; assumption.
Qed.

Lemma getPalmBounds_facts
    (landmarks : list (@Landmark R)) (w h padding : R) :
  landmarks <> [] -> 0 <= w -> 0 <= h -> 0 <= padding ->
  let b := getPalmBounds (Some landmarks) w h padding in
  0 <= left b /\ 0 <= width b /\ left b + width b <= w
  /\ 0 <= top b /\ 0 <= height b /\ top b + height b <= h
  /\ centerX b = left b + width b / 2 /\ centerY b = top b + height b / 2
  /\ radius b = Rmax (width b) (height b) / 2
  /\ forall p, In p landmarks ->
       0 <= px p <= 1 -> 0 <= py p <= 1 ->
       left b <= px p * w <= left b + width b
       /\ top b <= py p * h <= top b + height b.
Proof.
  intros Hne Hw Hh Hp.
  destruct (getPalmBounds_box Hne Hw Hh Hp)
    as (minX & maxX & minY & maxY & H1 & H2 & H3 & H4 & H5 & H6 & Hin & ->).
  cbn [left top width height centerX centerY radius].
  assert (minX * w <= maxX * w) by (apply Rmult_le_compat_r; lra).
  assert (minY * h <= maxY * h) by (apply Rmult_le_compat_r; lra).
  assert (minX * w <= w) by (rewrite <- (Rmult_1_l w) at 2; apply Rmult_le_compat_r; lra).
  assert (minY * h <= h) by (rewrite <- (Rmult_1_l h) at 2; apply Rmult_le_compat_r; lra).
  assert (0 <= maxX * w) by (apply Rmult_le_pos; lra).
  assert (0 <= maxY * h) by (apply Rmult_le_pos; lra).
  repeat split; try (minmax; fail).
  all: intros; destruct (Hin p) as [[Ha Hb] [Hc Hd]]; [assumption|].
  all: assert (minX * w <= px p * w) by (apply Rmult_le_compat_r; lra).
  all: assert (px p * w <= maxX * w) by (apply Rmult_le_compat_r; lra).
  all: assert (minY * h <= py p * h) by (apply Rmult_le_compat_r; lra).
  all: assert (py p * h <= maxY * h) by (apply Rmult_le_compat_r; lra).
  all: assert (px p * w <= w) by (rewrite <- (Rmult_1_l w) at 2; apply Rmult_le_compat_r; lra).
  all: assert (py p * h <= h) by (rewrite <- (Rmult_1_l h) at 2; apply Rmult_le_compat_r; lra).
  all: assert (0 <= px p * w) by (apply Rmult_le_pos; lra).
  all: assert (0 <= py p * h) by (apply Rmult_le_pos; lra).
  all: minmax.
Qed.


(** The bounding box of a non-empty hand, for a canvas of [w] by [h] pixels
    and a padding that are not negative: the box lies inside the canvas, its
    width and height are not negative, its centre is its middle, and every
    landmark that is inside the frame (coordinates in [0, 1]) is inside the
    box. *)
Theorem palm_bounds_stay_in_canvas_and_hold_the_hand
    (landmarks : list (@Landmark R)) (w h padding : R) :
  landmarks <> [] -> 0 <= w -> 0 <= h -> 0 <= padding ->
  let b := getPalmBounds (Some landmarks) w h padding in
  0 <= left b /\ 0 <= width b /\ left b + width b <= w
  /\ 0 <= top b /\ 0 <= height b /\ top b + height b <= h
  /\ centerX b = left b + width b / 2 /\ centerY b = top b + height b / 2
  /\ radius b = Rmax (width b) (height b) / 2
  /\ forall p, In p landmarks ->
       0 <= px p <= 1 -> 0 <= py p <= 1 ->
       left b <= px p * w <= left b + width b
       /\ top b <= py p * h <= top b + height b.
Proof. exact (@getPalmBounds_facts landmarks w h padding). Qed.

(** The framing of a capture on a canvas of positive size: the zoom is
    positive, the vignette is centred on the centre of the canvas wherever
    the hand is, and every landmark inside the frame is drawn within the
    middle 80 percent of the canvas in both directions.  (The video frame is
    drawn after [translate(translateX, translateY)] and
    [scale(zoomFactor, zoomFactor)], so that the landmark at [(x, y)] lands
    on [(translateX + x * w * zoomFactor, translateY + y * h * zoomFactor)].) *)
Theorem capture_framing_centres_the_hand (landmarks : list (@Landmark R)) (w h : R) :
  0 < w -> 0 < h ->
  let f := captureFraming landmarks w h in
  0 < zoomFactor f
  /\ vignetteX f = w / 2 /\ vignetteY f = h / 2
  /\ forall p, In p landmarks ->
       0 <= px p <= 1 -> 0 <= py p <= 1 ->
       w / 10 <= translateX f + px p * w * zoomFactor f <= w * 9 / 10
       /\ h / 10 <= translateY f + py p * h * zoomFactor f <= h * 9 / 10.
Proof.
  intros Hw Hh. unfold captureFraming.
  set (b := getPalmBounds (Some landmarks) w h (fromZ 80)).
  assert (Hb : 0 < width b /\ 0 < height b
               /\ centerX b = left b + width b / 2
               /\ centerY b = top b + height b / 2
               /\ forall p, In p landmarks ->
                    0 <= px p <= 1 -> 0 <= py p <= 1 ->
                    left b <= px p * w <= left b + width b
                    /\ top b <= py p * h <= top b + height b).
  { subst b. destruct landmarks as [|q lm].
    - cbn. exact_arith. repeat split; try lra. all: contradiction.
    - assert (Hne : q :: lm <> []) by discriminate.
      destruct (getPalmBounds_facts (w := w) (h := h) (padding := 80) Hne)
        as (_ & _ & _ & _ & _ & _ & Hcx & Hcy & _ & Hin); try lra.
      destruct (getPalmBounds_box (w := w) (h := h) (padding := 80) Hne)
        as (minX & maxX & minY & maxY & H1 & H2 & H3 & H4 & H5 & H6 & _ & E);
        try lra.
      change (fromZ (num := R) 80) with 80.
      split; [|split; [|repeat split; try assumption; apply Hin; assumption]].
      + rewrite E. cbn [width].
        assert (minX * w <= maxX * w) by (apply Rmult_le_compat_r; lra).
        assert (minX * w <= w)
          by (rewrite <- (Rmult_1_l w) at 2; apply Rmult_le_compat_r; lra).
        assert (0 <= maxX * w) by (apply Rmult_le_pos; lra).
        minmax.
      + rewrite E. cbn [height].
        assert (minY * h <= maxY * h) by (apply Rmult_le_compat_r; lra).
        assert (minY * h <= h)
          by (rewrite <- (Rmult_1_l h) at 2; apply Rmult_le_compat_r; lra).
        assert (0 <= maxY * h) by (apply Rmult_le_pos; lra).
        minmax. }
  destruct Hb as (Hwd & Hht & Hcx & Hcy & Hin).
  cbn [zoomFactor translateX translateY vignetteX vignetteY]. exact_arith.
  set (z := Rmin (w / width b) (h / height b) * (8 / 10)).
  assert (Hzx : 0 < w / width b) by (apply Rdiv_lt_0_compat; lra).
  assert (Hzy : 0 < h / height b) by (apply Rdiv_lt_0_compat; lra).
  assert (Hz : 0 < z) by (subst z; minmax).
  assert (Hzw : width b * z <= w * (8 / 10)).
  { subst z. replace (w * (8 / 10)) with (width b * (w / width b * (8 / 10)))
      by (field; lra).
    apply Rmult_le_compat_l; [lra|]. apply Rmult_le_compat_r; [lra|apply Rmin_l]. }
  assert (Hzh : height b * z <= h * (8 / 10)).
  { subst z. replace (h * (8 / 10)) with (height b * (h / height b * (8 / 10)))
      by (field; lra).
    apply Rmult_le_compat_l; [lra|]. apply Rmult_le_compat_r; [lra|apply Rmin_r]. }
  assert (Hzw0 : 0 < width b * z) by (apply Rmult_lt_0_compat; lra).
  assert (Hzh0 : 0 < height b * z) by (apply Rmult_lt_0_compat; lra).
  split; [assumption|]. split; [rewrite Hcx; lra|]. split; [rewrite Hcy; lra|].
  intros p Hp Hx Hy. destruct (Hin p Hp Hx Hy) as [[Ha Hb] [Hc Hd]].
  assert (0 <= (px p * w - left b) * z) by (apply Rmult_le_pos; lra).
  assert ((px p * w - left b) * z <= width b * z)
    by (apply Rmult_le_compat_r; lra).
  assert (0 <= (py p * h - top b) * z) by (apply Rmult_le_pos; lra).
  assert ((py p * h - top b) * z <= height b * z)
    by (apply Rmult_le_compat_r; lra).
  lra.
Qed.

End ExactFraming.

Section ExactHandedness.
Local Open Scope R_scope.



Lemma div_nonpos (a l : R) : a <= 0 -> 0 <= l -> a / l <= 0.
Proof.
  intros Ha Hl. destruct (Req_dec l 0) as [->|Hne].
  - unfold Rdiv. rewrite Rinv_0. lra.
  - assert (0 <= (- a) * / l).
    { apply Rmult_le_pos; [lra|]. left. apply Rinv_0_lt_compat. lra. }
    unfold Rdiv. lra.
Qed.

(** Two notions of handedness meet in the alignment score.  The palm
    orientation check goes by MediaPipe's label, the palm normal of the
    alignment score by the landmarks (index base right of pinky base means
    left hand).  A hand that passes the orientation check while the two
    disagree gets no orientation score: its alignment is at most 0.65. *)
Theorem handedness_disagreement_caps_alignment (label : option Handedness)
    (landmarks : list (@Landmark R)) (indexMcp pinkyMcp : @Landmark R)
    (alignment : R) :
  get landmarks 5 = Normal indexMcp ->
  get landmarks 17 = Normal pinkyMcp ->
  checkPalmOrientation label landmarks = Normal true ->
  (label = Some Left <-> px indexMcp <= px pinkyMcp) ->
  calculateAlignment landmarks = Normal alignment ->
  alignment <= 65 / 100.
Proof.
  unfold checkPalmOrientation, calculateAlignment, calculatePalmNormal.
  intros H5 H17. rewrite H5, H17.
  destruct (get landmarks 0) as [wrist|]; cbn [bind]; [|discriminate].
  destruct (get landmarks 9) as [middleMcp|]; cbn [bind]; [|discriminate].
  destruct (get landmarks 13) as [ringMcp|]; cbn [bind]; [|discriminate].
  destruct (forEach _ [4; 8; 12; 16; 20]%nat _) as [sumZ|]; cbn [bind];
    [|discriminate].
  intros Hfacing Hdis. injection Hfacing as Hfacing.
  apply andb_prop in Hfacing. destruct Hfacing as [_ Hnormal].
  destruct (forEach _ criticalPoints true) as [allVisible|]; cbn [bind];
    [|discriminate].
  destruct allVisible; cbn [negb];
    [|intros E; injection E as <-; exact_arith; lra].
  destruct (calculatePalmArea landmarks) as [palmArea|]; cbn [bind]; [|discriminate].
  destruct (calculateFingerSpread landmarks) as [spread|]; cbn [bind];
    [|discriminate].
  destruct (calculatePalmCenter landmarks) as [center|]; cbn [bind];
    [|discriminate].
  intros E. injection E as <-.
  revert Hnormal. exact_arith. unfold Exact.ltb. cbn [px py pz].
  set (nz := (px indexMcp - px wrist) * (py pinkyMcp - py wrist)
             - (py indexMcp - py wrist) * (px pinkyMcp - px wrist)).
  intros Hnormal.
  match goal with |- context [Rmin 1 (?z * (15 / 10))] =>
    assert (Hz : z <= 0); [|set (zn := z) in *] end.
  { destruct (Rlt_dec (px pinkyMcp) (px indexMcp)) as [Hgeo|Hgeo]; cbn [px py pz];
      apply div_nonpos; try apply sqrt_pos.
    - (* geometry says left: the label is not Left, so nz > 0 *)
      destruct label as [[|]|];
        try (destruct (proj1 Hdis eq_refl); lra; fail);
        destruct (Rlt_dec 0 nz); try discriminate; fold nz; lra.
    - (* geometry says right: the label is Left, so nz < 0 *)
      assert (Hl : label = Some Left) by (apply Hdis; lra).
      rewrite Hl in Hnormal.
      destruct (Rlt_dec nz 0); try discriminate; fold nz; lra. }
  match goal with |- context [Rmax 0 (Rmin 1 (zn * ?k))] =>
    assert (Ho : Rmax 0 (Rmin 1 (zn * k)) = 0) by minmax; rewrite Ho end.
  match goal with |- context [Rmax (5 / 10) (1 - R_sqrt.sqrt ?c)] =>
    pose proof (sqrt_pos c);
    assert (Hc : Rmax (5 / 10) (1 - R_sqrt.sqrt c) <= 1) by minmax;
    set (centerScore := Rmax (5 / 10) (1 - R_sqrt.sqrt c)) in * end.
  match goal with |- context [Rmin 1 (spread / ?c)] =>
    assert (Hs : Rmin 1 (spread / c) <= 1) by apply Rmin_l;
    set (spreadScore := Rmin 1 (spread / c)) in * end.
  match goal with |- context [?a * (25 / 100) + 0 * _] =>
    assert (Ha : a <= 1);
    [|set (areaScore := a) in *] end.
  { repeat match goal with |- context [Rlt_dec ?a ?b] => destruct (Rlt_dec a b) end;
      lra. }
  minmax.
Qed.

End ExactHandedness.

Section GalleryFacts.

Context {num : Type} `{JsNumber num}.

Lemma storeCaptures_cut (setItem : list (@CaptureData num) -> SetItem)
    (g g' : @Gallery num) (ok : bool) :
  storeCaptures setItem g = (g', ok) ->
  exists k : nat, (5 <= k)%nat /\ captures g' = firstn k (captures g)
    /\ (length (captures g') <= 10)%nat.
Proof.
  unfold storeCaptures.
  destruct (Nat.ltb_spec 10 (length (captures g))) as [Hlen|Hlen].
  - destruct (setItem (firstn 10 (captures g))).
    + intros E; apply pair_equal_spec in E; destruct E as [<- <-]. exists 10%nat. cbn [captures].
      rewrite length_firstn. repeat split; lia.
    + rewrite firstn_firstn. cbn [Nat.min].
      destruct (setItem _); intros E; apply pair_equal_spec in E; destruct E as [<- <-]; exists 5%nat;
        cbn [captures]; rewrite length_firstn; repeat split; lia.
    + intros E; apply pair_equal_spec in E; destruct E as [<- <-]. exists 10%nat. cbn [captures].
      rewrite length_firstn. repeat split; lia.
  - destruct (setItem (captures g)).
    + intros E; apply pair_equal_spec in E; destruct E as [<- <-]. exists (length (captures g) + 5)%nat.
      cbn [captures]. rewrite firstn_all2 by lia. repeat split; lia.
    + destruct (setItem _); intros E; apply pair_equal_spec in E; destruct E as [<- <-]; exists 5%nat;
        cbn [captures]; rewrite length_firstn; repeat split; lia.
    + intros E; apply pair_equal_spec in E; destruct E as [<- <-]. exists (length (captures g) + 5)%nat.
      cbn [captures]. rewrite firstn_all2 by lia. repeat split; lia.
Qed.

(** A single capture is stored in front of the gallery, with the time and
    image of its callback and without partner; behind it come the newest
    captures the gallery had, and the gallery never holds more than 10. *)
Theorem single_capture_leads_a_gallery_of_at_most_ten
    (setItem : list (@CaptureData num) -> SetItem) (now : Z)
    (result timestamp : String.string) (currentPalmData : list (@Landmark num))
    (this_palmData : option (list (@Landmark num))) (g g' : @Gallery num)
    (ok : bool) :
  regularCaptureLoaded setItem now result timestamp currentPalmData this_palmData g
    = Normal (g', ok) ->
  exists (captureData : @CaptureData num) (k : nat),
    captures g' = captureData :: firstn k (captures g)
    /\ id captureData = now /\ image captureData = result
    /\ type captureData = regular /\ pairedWith captureData = None
    /\ (length (captures g') <= 10)%nat.
Proof.
  unfold regularCaptureLoaded.
  destruct (calculatePalmCenter currentPalmData) as [c|]; cbn [bind]; [|discriminate].
  destruct (calculateDistance this_palmData c) as [d|]; cbn [bind]; [|discriminate].
  destruct (calculateAlignment currentPalmData) as [a|]; cbn [bind]; [|discriminate].
  intros E. injection E as E.
  destruct (storeCaptures_cut _ _ E) as (k & Hk & Hcut & Hlen).
  cbn [captures] in Hcut.
  destruct k as [|k]; [lia|]. cbn [firstn] in Hcut.
  eexists. exists k. split; [exact Hcut|]. repeat split. exact Hlen.
Qed.

(** A dual capture is stored as a pair in front of the gallery: the IR
    image first, then the regular one, with ids [id] and [id + 1], each
    naming the other in [pairedWith], both with the same metrics; the
    gallery never holds more than 10. *)
Theorem dual_capture_is_stored_as_a_linked_pair
    (setItem : list (@CaptureData num) -> SetItem) (id0 : Z)
    (timestamp : String.string) (metrics0 : @Metrics num)
    (irImage regularImage : String.string) (g g' : @Gallery num) (ok : bool) :
  dualCaptureLoaded setItem id0 timestamp metrics0 irImage regularImage g = (g', ok) ->
  exists (irCapture regularCapture : @CaptureData num) (k : nat),
    captures g' = irCapture :: regularCapture :: firstn k (captures g)
    /\ type irCapture = ir /\ type regularCapture = regular
    /\ id irCapture = id0 /\ id regularCapture = (id0 + 1)%Z
    /\ pairedWith irCapture = Some (id regularCapture)
    /\ pairedWith regularCapture = Some (id irCapture)
    /\ image irCapture = irImage /\ image regularCapture = regularImage
    /\ metrics irCapture = metrics0 /\ metrics regularCapture = metrics0
    /\ (length (captures g') <= 10)%nat.
Proof.
  unfold dualCaptureLoaded. intros E.
  destruct (storeCaptures_cut _ _ E) as (k & Hk & Hcut & Hlen).
  cbn [captures] in Hcut.
  destruct k as [|[|k]]; [lia|lia|]. cbn [firstn] in Hcut.
  eexists. eexists. exists k. split; [exact Hcut|]. repeat split. exact Hlen.
Qed.

(** The distance a single capture is stored with is computed when its image
    has been encoded, from the hand tracked at that time, not from the hand
    that was captured: with another hand [later] in [this.palmData] the
    capture carries the distance of [later] beside the alignment of the
    captured hand, and with no hand tracked the callback throws and nothing
    is stored.  (A dual capture computes both inside [capture].) *)
Theorem single_capture_takes_its_distance_at_encoding_time
    (setItem : list (@CaptureData num) -> SetItem) (now : Z)
    (result timestamp : String.string) (currentPalmData later : list (@Landmark num))
    (g : @Gallery num) :
  length currentPalmData = 21%nat ->
  length later = 21%nat ->
  regularCaptureLoaded setItem now result timestamp currentPalmData None g = Throw
  /\ exists (palmArea alignment : num) (g' : @Gallery num) (ok : bool)
            (older : list (@CaptureData num)),
       calculatePalmArea later = Normal palmArea
       /\ calculateAlignment currentPalmData = Normal alignment
       /\ regularCaptureLoaded setItem now result timestamp currentPalmData
            (Some later) g = Normal (g', ok)
       /\ captures g' =
          mkCaptureData now result regular timestamp
            (mkMetrics (distanceFromArea palmArea)
                       (Math_round (num_mul alignment (fromZ 100)))) None
          :: older.
Proof.
  intros Hc Hl.
  destruct (calculatePalmCenter_returns currentPalmData Hc) as [c Hcen].
  destruct (calculatePalmArea_returns later Hl) as [area Harea].
  destruct (calculateAlignment_returns currentPalmData Hc) as [a Ha].
  unfold regularCaptureLoaded. rewrite Hcen. cbn [bind calculateDistance].
  split; [reflexivity|].
  rewrite Harea. cbn [bind]. rewrite Ha. cbn [bind].
  destruct (storeCaptures setItem _) as [g' ok] eqn:E.
  destruct (storeCaptures_cut _ _ E) as (k & Hk & Hcut & _).
  cbn [captures] in Hcut.
  destruct k as [|k]; [lia|]. cbn [firstn] in Hcut.
  exists area, a, g', ok. eexists. repeat split. exact Hcut.
Qed.

(** When the quota is exceeded and the retry fails too, the exception
    leaves the callback: the success message is not shown, the gallery in
    memory has been cut to its 5 newest captures, and the stored item is
    the one from before, which a reload brings back. *)
Theorem failed_retry_leaves_the_old_item_stored
    (setItem : list (@CaptureData num) -> SetItem) (g g' : @Gallery num) :
  storeCaptures setItem g = (g', false) ->
  captures g' = firstn 5 (captures g)
  /\ palmCaptures g' = palmCaptures g
  /\ loadCaptures (palmCaptures g') = loadCaptures (palmCaptures g)
  /\ setItem (firstn 10 (captures g)) = QuotaExceededError
  /\ setItem (firstn 5 (captures g)) <> Stored.
Proof.
  unfold storeCaptures.
  assert (Hcut : (if (10 <? length (captures g))%nat then firstn 10 (captures g)
                  else captures g) = firstn 10 (captures g)).
  { destruct (Nat.ltb_spec 10 (length (captures g))); [reflexivity|].
    symmetry. apply firstn_all2. lia. }
  rewrite Hcut.
  destruct (setItem (firstn 10 (captures g))) eqn:E10; try discriminate.
  rewrite firstn_firstn. cbn [Nat.min].
  destruct (setItem (firstn 5 (captures g))) eqn:E5; try discriminate;
    intros E; injection E as <-; cbn [captures palmCaptures];
    repeat split; discriminate.
Qed.

(** With a storage that throws nothing but quota errors, every operation on
    the gallery that runs to its end leaves in [localStorage] what it leaves
    in [this.captures]: the next session loads the gallery as it was shown. *)
Theorem reload_gives_the_gallery_back
    (setItem : list (@CaptureData num) -> SetItem) (g g' : @Gallery num) :
  (forall l, setItem l <> OtherError) ->
  storeCaptures setItem g = (g', true)
  \/ (exists id0, deleteCapture setItem id0 g = (g', true))
  \/ clearAllCaptures true g = g' ->
  loadCaptures (palmCaptures g') = captures g'.
Proof.
  intros Hq [E|[[id0 E]|E]].
  - revert E. unfold storeCaptures.
    match goal with |- context [setItem ?l] =>
      destruct (setItem l) eqn:E1; [| |now elim (Hq l)] end.
    + intros E; injection E as <-. reflexivity.
    + match goal with |- context [setItem ?l] =>
        destruct (setItem l) eqn:E2 end; intros E; try discriminate E.
      injection E as <-. reflexivity.
  - revert E. unfold deleteCapture.
    match goal with |- context [setItem ?l] => destruct (setItem l) end;
      intros E; try discriminate E.
    injection E as <-. reflexivity.
  - subst g'. reflexivity.
Qed.

(** Deleting a capture that has just been saved under a fresh id, with a
    storage that accepts every value: below 10 captures the gallery and the
    stored item are as before the save; at 10, the oldest capture is gone. *)
Theorem deleting_a_new_capture_undoes_its_save
    (setItem : list (@CaptureData num) -> SetItem) (captureData : @CaptureData num)
    (g : @Gallery num) :
  (forall l, setItem l = Stored) ->
  (forall c, In c (captures g) -> id c <> id captureData) ->
  palmCaptures g = Some (captures g) ->
  (length (captures g) <= 10)%nat ->
  let saved :=
    fst (storeCaptures setItem
           (mkGallery (captureData :: captures g) (palmCaptures g))) in
  fst (deleteCapture setItem (id captureData) saved) =
  if (length (captures g) <? 10)%nat then g
  else mkGallery (firstn 9 (captures g)) (Some (firstn 9 (captures g))).
Proof.
  intros Hs Hfresh Hstored Hlen.
  assert (Hfilter : forall l : list (@CaptureData num),
             (forall c, In c l -> id c <> id captureData) ->
             filter (fun c => negb (id c =? id captureData)%Z) l = l).
  { induction l as [|c l IH]; intros Hl; [reflexivity|]. cbn [filter].
    destruct (Z.eqb_spec (id c) (id captureData)) as [E|_].
    - now elim (Hl c (or_introl eq_refl)).
    - cbn [negb]. f_equal. apply IH. intros c' Hc'. apply Hl. now right. }
  unfold storeCaptures. cbn [captures palmCaptures length].
  destruct (Nat.ltb_spec (length (captures g)) 10) as [Hlt|Hge].
  - destruct (Nat.ltb_spec 10 (S (length (captures g)))); [lia|].
    rewrite Hs. cbn [fst]. unfold deleteCapture. rewrite Hs. cbn [fst captures filter].
    rewrite Z.eqb_refl. cbn [negb]. rewrite (Hfilter _ Hfresh).
    destruct g as [cs item]. cbn in *. now subst item.
  - destruct (Nat.ltb_spec 10 (S (length (captures g)))); [|lia].
    rewrite Hs. cbn [fst]. unfold deleteCapture. rewrite Hs.
    cbn [fst captures filter firstn].
    rewrite Z.eqb_refl. cbn [negb].
    rewrite Hfilter; [reflexivity|].
    intros c Hc. apply Hfresh. rewrite <- (firstn_skipn 9 (captures g)).
    apply in_or_app. now left.
Qed.

End GalleryFacts.

Section SessionFacts.

Import String.
Local Open Scope string_scope.

Context {num : Type} `{JsNumber num}.
Variable toLowerCase : string -> string.

Lemma stop_fields (s : @Session num) :
  isScanning (this (stop s)) = false
  /\ srcObject (this (stop s)) = false
  /\ isProcessingStart (stop s) = isProcessingStart s
  /\ statusLog (stop s) = ByCore ReadyToScan TNone :: statusLog s.
Proof. repeat split. Qed.

Lemma addCameraSelector_this (s : @Session num) :
  this (addCameraSelector toLowerCase s) = this s
  /\ isProcessingStart (addCameraSelector toLowerCase s) = isProcessingStart s
  /\ availableCameras (addCameraSelector toLowerCase s) = availableCameras s
  /\ statusLog (addCameraSelector toLowerCase s) = statusLog s.
Proof.
  unfold addCameraSelector. destruct (cameraSelector s); [repeat split|].
  cbn [availableCameras]. destruct (availableCameras s); repeat split.
Qed.

Lemma detectCameras_this (browser : Browser) (s : @Session num) :
  this (detectCameras toLowerCase browser s) = this s
  /\ isProcessingStart (detectCameras toLowerCase browser s) = isProcessingStart s.
Proof.
  unfold detectCameras.
  destruct (devices browser) as [cameras|]; [|repeat split].
  match goal with |- context [if ?b then _ else Some cameras] => destruct b end.
  - destruct (permission browser); [|repeat split].
    destruct (devicesWithLabels browser) as [[|c1 [|c2 l]]|];
      try (split; reflexivity).
    match goal with |- context [addCameraSelector _ ?s] =>
      destruct (addCameraSelector_this s) as (-> & -> & _) end.
    split; reflexivity.
  - destruct cameras as [|c1 [|c2 l]]; try (split; reflexivity).
    match goal with |- context [addCameraSelector _ ?s] =>
      destruct (addCameraSelector_this s) as (-> & -> & _) end.
    split; reflexivity.
Qed.

(** A start from a session that is neither starting nor scanning, whatever
    the browser answers: at its end [isProcessingStart] is false again; the
    session is scanning exactly when the camera stream was obtained and
    played, and then the status line reads 'Detecting hands...'; a start
    that failed leaves no stream and the status line at 'No cameras found'
    or, after a camera error, at 'Ready to Scan': the text 'Camera access
    denied' is replaced as soon as it is written. *)
Theorem start_ends_scanning_or_ready (browser : Browser) (s : @Session num) :
  isProcessingStart s = false ->
  isScanning (this s) = false ->
  srcObject (this s) = false ->
  let s' := startScanning toLowerCase browser s in
  isProcessingStart s' = false
  /\ (isScanning (this s') = true ->
      srcObject (this s') = true
      /\ exists log, statusLog s' = BySession DetectingHands :: log)
  /\ (isScanning (this s') = false ->
      srcObject (this s') = false
      /\ exists log,
           statusLog s' = BySession NoCamerasFound :: log
           \/ statusLog s' = ByCore ReadyToScan TNone
                             :: BySession CameraAccessDenied :: log).
Proof.
  intros Hp Hs Hsrc. unfold startScanning. rewrite Hp, Hs.
  set (s1 := match availableCameras (setProcessingStart s true) with
             | [] => detectCameras toLowerCase browser (setProcessingStart s true)
             | _ => setProcessingStart s true
             end).
  assert (Hthis : this s1 = this s).
  { subst s1. destruct (availableCameras _); [|reflexivity].
    now destruct (detectCameras_this browser (setProcessingStart s true)) as [-> _]. }
  cbv zeta.
  destruct (availableCameras s1).
  - cbn. rewrite Hthis, Hsrc. split; [reflexivity|]. split; [discriminate|].
    intros _. split; [reflexivity|]. eexists. left. reflexivity.
  - destruct (stream browser _); [destruct (plays browser)|]; cbn.
    + split; [reflexivity|]. split; [|discriminate].
      intros _. split; [reflexivity|]. eexists. reflexivity.
    + split; [reflexivity|]. split; [discriminate|].
      intros _. split; [reflexivity|]. eexists. right. reflexivity.
    + split; [reflexivity|]. split; [discriminate|].
      intros _. split; [reflexivity|]. eexists. right. reflexivity.
Qed.

Lemma startScanning_succeeds (browser : Browser) (s : @Session num) :
  isProcessingStart s = false ->
  isScanning (this s) = false ->
  availableCameras s <> [] ->
  (forall id, stream browser id = true) ->
  plays browser = true ->
  isScanning (this (startScanning toLowerCase browser s)) = true
  /\ isProcessingStart (startScanning toLowerCase browser s) = false.
Proof.
  intros Hp Hs Hc Hstream Hplay. unfold startScanning. rewrite Hp, Hs.
  change (availableCameras (setProcessingStart s true)) with (availableCameras s).
  destruct (availableCameras s) as [|c l] eqn:Hcam; [now elim Hc|].
  change (availableCameras (setProcessingStart s true)) with (availableCameras s).
  rewrite Hcam, Hstream, Hplay. split; reflexivity.
Qed.

(** The restart that [toggleIRMode] schedules is a call of
    [startScanning], which stops a running scan.  So when the mode is
    toggled on a scanning session and a start (the Start button) brings the
    camera up before the 500 ms are over, the scheduled call ends that scan
    again. *)
Theorem scheduled_restart_stops_a_scan_started_meanwhile
    (browser later : Browser) (s : @Session num) :
  isScanning (this s) = true ->
  isProcessingStart s = false ->
  availableCameras s <> [] ->
  (forall id, stream browser id = true) ->
  plays browser = true ->
  let (toggled, scheduled) := toggleIRMode s in
  let restarted := startScanning toLowerCase browser toggled in
  let final := startScanning toLowerCase later restarted in
  scheduled = true
  /\ irMode (this toggled) = negb (irMode (this s))
  /\ isScanning (this toggled) = false
  /\ isScanning (this restarted) = true
  /\ isScanning (this final) = false
  /\ exists log, statusLog final = ByCore ReadyToScan TNone :: log.
Proof.
  intros Hs Hp Hc Hstream Hplay.
  unfold toggleIRMode. cbn [this setThis isScanning setIrMode]. rewrite Hs.
  cbv zeta.
  set (toggled := stop (setThis s (setIrMode (this s) (negb (irMode (this s)))))).
  destruct (@startScanning_succeeds browser toggled) as [Hr1 Hr2];
    try assumption; try reflexivity.
  split; [reflexivity|]. split; [reflexivity|]. split; [reflexivity|].
  split; [exact Hr1|].
  set (restarted := startScanning toLowerCase browser toggled) in *.
  assert (Hfinal : startScanning toLowerCase later restarted = stop restarted).
  { unfold startScanning at 1. now rewrite Hr2, Hr1. }
  rewrite Hfinal. split; [reflexivity|]. eexists. reflexivity.
Qed.

End SessionFacts.

Section CameraFacts.

Import String.
Local Open Scope string_scope.

Context {num : Type} `{JsNumber num}.
Variable toLowerCase : string -> string.

Lemma includes_empty (t : string) : t <> "" -> includes "" t = false.
Proof. destruct t; [intros E; now elim E|reflexivity]. Qed.

Lemma truthy_id (id : string) : id <> "" -> truthy (Some id) = true.
Proof. destruct id; [intros E; now elim E|reflexivity]. Qed.

(** The loop of [addCameraSelector] over cameras with non-empty ids picks
    the first camera that looks infrared, and keeps a choice once made. *)
Lemma infrared_fold (cameras : list Camera) :
  (forall c, In c cameras -> deviceId c <> "") ->
  forall chosen : option string,
  fold_left (fun selectedIRCameraId camera =>
      let label := toLowerCase (label camera) in
      if negb (label =? "") &&
         (includes label "ir" || includes label "infrared" ||
          includes label "depth" || includes label "windows hello")
      then if truthy selectedIRCameraId then selectedIRCameraId
           else Some (deviceId camera)
      else selectedIRCameraId)
    cameras chosen
  = if truthy chosen then chosen
    else match find (looksInfrared toLowerCase) cameras with
         | Some c => Some (deviceId c)
         | None => chosen
         end.
Proof.
  induction cameras as [|c l IH]; intros Hid chosen; cbn [fold_left find].
  - now destruct (truthy chosen).
  - rewrite IH by (intros c' Hc'; apply Hid; now right).
    unfold looksInfrared at 2.
    destruct (toLowerCase (label c) =? "") eqn:El.
    + apply String.eqb_eq in El. rewrite El. cbn [negb andb].
      rewrite !includes_empty by discriminate. cbn [orb]. reflexivity.
    + cbn [negb andb].
      destruct (includes _ "ir" || includes _ "infrared" ||
                includes _ "depth" || includes _ "windows hello"); [|reflexivity].
      destruct (truthy chosen) eqn:Et; [now rewrite Et|].
      now rewrite truthy_id by (apply Hid; now left).
Qed.

(** The first detection of cameras (no camera known or selected, no
    selector yet), when it finds cameras and all have an id: the regular
    camera is the first one listed; the IR camera is the first one whose
    label looks infrared, or the first one listed when none does. *)
Theorem first_detection_selects_default_cameras (browser : Browser)
    (s : @Session num) (first : Camera) (others : list Camera) :
  availableCameras s = [] ->
  selectedCameraId s = None ->
  selectedIRCameraId s = None ->
  cameraSelector s = false ->
  availableCameras (detectCameras toLowerCase browser s) = first :: others ->
  (forall c, In c (first :: others) -> deviceId c <> "") ->
  let s' := detectCameras toLowerCase browser s in
  hasIRCamera s' = existsb (looksInfrared toLowerCase) (first :: others)
  /\ selectedCameraId s' = Some (deviceId first)
  /\ selectedIRCameraId s' =
     Some (deviceId match find (looksInfrared toLowerCase) (first :: others) with
                    | Some camera => camera
                    | None => first
                    end).
Proof.
  intros Hav Hrgb Hir Hsel. unfold detectCameras.
  assert (G : forall cameras : list Camera,
    let s1 := mkSession (this s) (isProcessingStart s) cameras (selectedCameraId s)
                (selectedIRCameraId s) (existsb (looksInfrared toLowerCase) cameras)
                (cameraSelector s) (statusLog s) in
    let s' := match cameras with
              | _ :: _ :: _ => addCameraSelector toLowerCase s1
              | [only] =>
                  setSelected s1
                    (if truthy (selectedCameraId s1) then selectedCameraId s1
                     else Some (deviceId only))
                    (if truthy (selectedIRCameraId s1) then selectedIRCameraId s1
                     else Some (deviceId only))
              | [] => s1
              end in
    availableCameras s' = first :: others ->
    (forall c, In c (first :: others) -> deviceId c <> "") ->
    hasIRCamera s' = existsb (looksInfrared toLowerCase) (first :: others)
    /\ selectedCameraId s' = Some (deviceId first)
    /\ selectedIRCameraId s' =
       Some (deviceId match find (looksInfrared toLowerCase) (first :: others) with
                      | Some camera => camera
                      | None => first
                      end)).
  { intros cameras. cbv zeta. destruct cameras as [|c1 [|c2 l]].
    - cbn. discriminate.
    - cbn [availableCameras setSelected selectedCameraId selectedIRCameraId
           hasIRCamera]. rewrite Hrgb, Hir. cbn [truthy].
      intros E _. injection E as <- <-. cbn [find].
      now destruct (looksInfrared toLowerCase c1).
    - unfold addCameraSelector.
      cbn [cameraSelector availableCameras selectedCameraId selectedIRCameraId
           hasIRCamera setSelected this isProcessingStart statusLog].
      rewrite Hsel, Hrgb, Hir.
      cbn [availableCameras setSelected selectedCameraId selectedIRCameraId
           hasIRCamera truthy].
      intros E Hid. injection E as <- <-.
      pose proof (@infrared_fold _ Hid None) as Hf. cbv zeta in Hf. rewrite Hf.
      cbn [truthy].
      split; [reflexivity|]. split; [reflexivity|].
      destruct (find (looksInfrared toLowerCase) (c1 :: c2 :: l)) as [c|] eqn:Ef.
      + apply find_some in Ef. destruct Ef as [Hin _].
        now rewrite truthy_id by (apply Hid; exact Hin).
      + reflexivity. }
  destruct (devices browser) as [cameras|].
  - match goal with |- context [if ?b then _ else Some cameras] => destruct b end.
    + destruct (permission browser).
      * destruct (devicesWithLabels browser) as [cameras'|].
        -- apply G.
        -- cbn [availableCameras show]. rewrite Hav. discriminate.
      * cbn [availableCameras show]. rewrite Hav. discriminate.
    + apply G.
  - cbn [availableCameras show]. rewrite Hav. discriminate.
Qed.

End CameraFacts.

Section Spacing.

Context {num : Type} `{JsNumber num}.

(** One Perfect frame: whether it fires, and the debounce fields after it. *)
Lemma perfect_frame (now : Z) (this : @DotProjector num)
    (landmarks : list (@Landmark num)) :
  length landmarks = 21%nat ->
  exists this' fired,
    handlePerfectAlignment now
      (updateStatus (setPalmData this landmarks) PerfectHoldSteady TSuccess)
    = Normal (this', fired)
    /\ (fired = true ->
        isAutoCapturing this' = false /\ lastCaptureTime this' = now
        /\ isAutoCapturing this = true
        /\ (500 <= now - perfectAlignmentTime this)%Z)
    /\ (fired = false ->
        lastCaptureTime this' = lastCaptureTime this
        /\ (isAutoCapturing this' = true ->
            (isAutoCapturing this = true
             /\ perfectAlignmentTime this' = perfectAlignmentTime this)
            \/ (perfectAlignmentTime this' = now
                /\ (captureCooldown <= now - lastCaptureTime this)%Z))).
Proof.
  intros Hl.
  destruct this as [pd hd hist sc src ir auto pat lct stt sh].
  unfold handlePerfectAlignment, captureCooldown, updateStatus, setPalmData.
  cbn -[capture Z.sub Z.ltb Z.geb].
  destruct (Z.ltb_spec (now - lct) 3000).
  - eexists. eexists. split; [reflexivity|]. split; [discriminate|].
    intros _. split; [reflexivity|]. intros Ha. left. split; [exact Ha|reflexivity].
  - destruct auto; cbn -[capture Z.sub Z.ltb Z.geb].
    + destruct (Z.geb_spec (now - pat) 500).
      * match goal with |- context [capture ?a] => set (armed := a) end.
        destruct (capture_returns armed Hl) as (this' & -> & Hpd & Hlast).
        cbn. eexists. eexists. split; [reflexivity|].
        split; [|discriminate]. intros _. repeat split. lia.
      * eexists. eexists. split; [reflexivity|]. split; [discriminate|].
        intros _. split; [reflexivity|]. intros _. left. split; reflexivity.
    + destruct (Z.geb_spec (now - now) 500); [lia|].
      eexists. eexists. split; [reflexivity|]. split; [discriminate|].
      intros _. split; [reflexivity|]. intros _. right. split; [reflexivity|lia].
Qed.

Lemma perfectFrames_after_capture (frames : list (Z * list (@Landmark num))) :
  forall this : @DotProjector num,
  hands (map snd frames) ->
  (isAutoCapturing this = true ->
   (lastCaptureTime this + captureCooldown <= perfectAlignmentTime this)%Z) ->
  exists this' fires,
    perfectFrames frames this = Normal (this', fires)
    /\ length fires = length frames
    /\ spaced 3500 (lastCaptureTime this :: captureTimes frames fires).
Proof.
  induction frames as [|[now lm] frames IH]; intros this Hh Harmed.
  - exists this, []. repeat split.
  - inversion Hh as [|? ? Hl Hrest]; subst.
    destruct (perfect_frame now this lm Hl) as (this1 & fired & E & Hfire & Hquiet).
    cbn [perfectFrames]. rewrite E. cbn [bind].
    destruct fired.
    + destruct (Hfire eq_refl) as (Ha & Hl1 & Hwas & Hhold).
      specialize (Harmed Hwas). unfold captureCooldown in Harmed.
      destruct (IH this1 Hrest) as (this' & fires & -> & Hlen & Hsp).
      { rewrite Ha. discriminate. }
      exists this', (true :: fires). cbn [bind captureTimes length].
      split; [reflexivity|]. split; [now rewrite Hlen|].
      rewrite Hl1 in Hsp. cbn [spaced]. split; [lia|exact Hsp].
    + destruct (Hquiet eq_refl) as (Hl1 & Ha1).
      destruct (IH this1 Hrest) as (this' & fires & -> & Hlen & Hsp).
      { intros Ha. rewrite Hl1.
        destruct (Ha1 Ha) as [[Hwas ->]|[-> Hc]]; [now apply Harmed|lia]. }
      exists this', (false :: fires). cbn [bind captureTimes length].
      split; [reflexivity|]. split; [now rewrite Hlen|]. now rewrite Hl1 in Hsp.
Qed.

(** Whatever the frame rate and the state a run of Perfect frames starts
    in, two successive captures of the run are at least 3500 ms apart: the
    cooldown of 3000 ms and a new hold of 500 ms. *)
Theorem captures_are_at_least_3500_ms_apart
    (frames : list (Z * list (@Landmark num))) (this : @DotProjector num) :
  hands (map snd frames) ->
  exists this' fires,
    perfectFrames frames this = Normal (this', fires)
    /\ length fires = length frames
    /\ spaced 3500 (captureTimes frames fires).
Proof.
  revert this. induction frames as [|[now lm] frames IH]; intros this Hh.
  - exists this, []. repeat split.
  - inversion Hh as [|? ? Hl Hrest]; subst.
    destruct (perfect_frame now this lm Hl) as (this1 & fired & E & Hfire & Hquiet).
    cbn [perfectFrames]. rewrite E. cbn [bind].
    destruct fired.
    + destruct (Hfire eq_refl) as (Ha & Hl1 & _).
      destruct (@perfectFrames_after_capture frames this1 Hrest)
        as (this' & fires & -> & Hlen & Hsp).
      { rewrite Ha. discriminate. }
      exists this', (true :: fires). cbn [bind captureTimes length].
      split; [reflexivity|]. split; [now rewrite Hlen|now rewrite Hl1 in Hsp].
    + destruct (IH this1 Hrest) as (this' & fires & -> & Hlen & Hsp).
      exists this', (false :: fires). cbn [bind captureTimes length].
      split; [reflexivity|]. split; [now rewrite Hlen|exact Hsp].
Qed.

End Spacing.

Section HoldInterrupted.

Context {num : Type} `{JsNumber num} `{JsTrig num}.

(** A frame the chain rejects ends a hold, however long it has lasted.
    Whatever the debounce state before it, once the cooldown is over the
    Perfect frames that follow, 100 ms apart, need a whole new hold: the
    capture comes at their sixth frame and at no other of the first 40. *)
Theorem rejected_frame_restarts_the_hold (now t0 : Z) (this : @DotProjector num)
    (landmarks : list (@Landmark num)) (branch : Classification)
    (palms : list (list (@Landmark num))) :
  classify this landmarks = Normal (Some branch) ->
  branch <> Perfect ->
  (captureCooldown <= t0 - lastCaptureTime this)%Z ->
  hands palms ->
  (length palms <= 40)%nat ->
  exists rejected this',
    updatePalmVisualization now this landmarks = Normal (rejected, false)
    /\ isAutoCapturing rejected = false
    /\ perfectFrames (every100ms t0 palms) rejected
       = Normal (this', map (Nat.eqb 5) (seq 0 (length palms))).
Proof.
  intros E Hb Hcool Hhands Hn.
  assert (Hr : exists rejected,
             updatePalmVisualization now this landmarks = Normal (rejected, false)
             /\ isAutoCapturing rejected = false
             /\ lastCaptureTime rejected = lastCaptureTime this).
  { unfold updatePalmVisualization. rewrite E. cbn [bind].
    destruct branch as [| | | | | |[|] | |]; try contradiction;
      eexists; repeat split. }
  destruct Hr as (rejected & Er & Ha & Hl).
  assert (Hin : inPhase 0 t0 rejected) by (left; rewrite Hl; auto).
  destruct (perfectFrames_schedule Hhands Hin) as (this' & Ep & _).
  exists rejected, this'. split; [exact Er|]. split; [exact Ha|].
  rewrite Ep. f_equal. f_equal. revert Hn. generalize (length palms) as n. intros n Hn.
  do 41 (destruct n as [|n]; [reflexivity|]). lia.
Qed.

End HoldInterrupted.

(** A hold of the open hand that has lasted 400 ms, then the hand at the
    edge of the frame, then the open hand again for six frames. *)
Lemma rejected_frame_restarts_the_hold_witness :
  exists rejected this',
    updatePalmVisualization (H0 := firstOrder) 5400
      (setDebounce (scanning edgeHand (Some Right)) true 5000) edgeHand
    = Normal (rejected, false)
    /\ isAutoCapturing rejected = false
    /\ perfectFrames (every100ms 5500 (repeat (openHand (num := float)) 6)) rejected
       = Normal (this', map (Nat.eqb 5) (seq 0 6)).
Proof.
  apply (@rejected_frame_restarts_the_hold float float64 firstOrder 5400 5500
           (setDebounce (scanning edgeHand (Some Right)) true 5000) edgeHand
           OutOfFrame (repeat openHand 6)).
  - vm_compute; reflexivity.
  - discriminate.
  - vm_compute; discriminate.
  - repeat constructor.
  - cbn; lia.
Defined.

Section FrameSafety.

Context {num : Type} `{JsNumber num} `{JsTrig num}.
Local Open Scope js_scope.

Lemma collect_all {A B} (P : B -> Prop) (body : A -> Completion B) (l : list A) :
  (forall a, In a l -> exists b, body a = Normal b /\ P b) ->
  exists bs, collect body l = Normal bs /\ length bs = length l /\ Forall P bs.
Proof.
  induction l as [|a l IH]; intros Hb.
  - exists []. repeat split. constructor.
  - destruct (Hb a (or_introl eq_refl)) as (b & Eb & Pb).
    destruct IH as (bs & Ebs & Hlen & Hall); [intros a' Ha'; apply Hb; now right|].
    exists (b :: bs). cbn [collect]. rewrite Eb. cbn [bind]. rewrite Ebs. cbn [bind].
    split; [reflexivity|]. split; [cbn; now rewrite Hlen|now constructor].
Qed.

Lemma forEach_returns {A S} (body : S -> A -> Completion S) (l : list A) :
  (forall s a, In a l -> returns (body s a)) ->
  forall s, returns (forEach body l s).
Proof.
  induction l as [|a l IH]; intros Hb s.
  - eexists. reflexivity.
  - destruct (Hb s a (or_introl eq_refl)) as [s' Es].
    cbn [forEach]. rewrite Es. cbn [bind]. apply IH.
    intros s0 a0 Ha0. apply Hb. now right.
Qed.

Lemma stabilizeLandmarks_returns (history : list (list (@Landmark num))) :
  history <> [] ->
  Forall (fun frame => length frame = 21%nat) history ->
  exists palm, stabilizeLandmarks history = Normal (Some palm)
               /\ length palm = 21%nat.
Proof.
  intros Hne Hall.
  destruct history as [|f1 [|f2 rest]]; [now elim Hne| |].
  - exists f1. split; [reflexivity|]. now inversion Hall.
  - set (history := f1 :: f2 :: rest) in *.
    unfold stabilizeLandmarks. fold history.
    change (match history with
            | [] => Normal None
            | [frame] => Normal (Some frame)
            | _ => ?k
            end) with k.
    match goal with |- context [collect ?body (seq 0 21)] =>
      destruct (@collect_all _ _ (fun _ => True) body (seq 0 21))
        as (bs & Ebs & Hlen & _) end.
    { intros i Hi. apply in_seq in Hi. cbv beta.
      match goal with |- exists b, bind (forEach ?body ?l ?s0) _ = _ /\ _ =>
        assert (Hbody : forall s a, In a l -> returns (body s a));
        [|destruct (@forEach_returns _ _ body l Hbody s0) as [[[[x y] z] w] E]] end.
      - intros [[[x y] z] w] [k frame] Hk. apply in_combine_r in Hk.
        rewrite Forall_forall in Hall. specialize (Hall frame Hk).
        unfold get. destruct (nth_error frame i) as [p|] eqn:Ep.
        + eexists. reflexivity.
        + apply nth_error_None in Ep. lia.
      - rewrite E. cbn [bind]. eexists. split; [reflexivity|exact I]. }
    rewrite Ebs. cbn [bind]. exists bs. split; [reflexivity|]. now rewrite Hlen.
Qed.

Lemma pushHistory_tracking (history : list (list (@Landmark num)))
    (raw : list (@Landmark num)) :
  (length history <= historySize)%nat ->
  Forall (fun frame => length frame = 21%nat) history ->
  length raw = 21%nat ->
  pushHistory history raw <> []
  /\ (length (pushHistory history raw) <= historySize)%nat
  /\ Forall (fun frame => length frame = 21%nat) (pushHistory history raw).
Proof.
  intros Hlen Hall Hraw. unfold pushHistory, historySize in *.
  assert (Hall' : Forall (fun frame => length frame = 21%nat) (history ++ [raw])).
  { apply Forall_app. split; [assumption|]. now constructor. }
  assert (Hl : length (history ++ [raw]) = S (length history))
    by (rewrite length_app; cbn; lia).
  destruct (Nat.ltb_spec 5 (length (history ++ [raw]))) as [Hgt|Hle].
  - destruct (history ++ [raw]) as [|f l] eqn:El; [cbn in Hl; lia|].
    cbn [tl]. cbn [length] in Hl. inversion Hall'; subst.
    destruct l; [cbn in Hgt; lia|].
    repeat split; [discriminate|lia|assumption].
  - repeat split; [|lia|assumption].
    destruct history; discriminate.
Qed.

Lemma detectFeatures_returns (lm : list (@Landmark num))
  (Hl : length lm = 21%nat) : returns (detectFeatures lm).
Proof. hand21 lm Hl. eexists. reflexivity. Qed.

Lemma calculateHandOrientation_returns (lm : list (@Landmark num))
  (Hl : length lm = 21%nat) : returns (calculateHandOrientation lm).
Proof.
  destruct (checkHandRotation_returns lm Hl) as [r Hr].
  unfold calculateHandOrientation. rewrite Hr.
  hand21 lm Hl. eexists. reflexivity.
Qed.

Lemma display_returns (this : @DotProjector num)
    (indicator : option (RotationHint * bool)) (palm : list (@Landmark num)) :
  palmData this = Some palm -> length palm = 21%nat ->
  returns (updateHandVisualization this indicator palm)
  /\ returns (updateMetrics this (Some palm)).
Proof.
  intros Hp Hl.
  destruct (classify_chain this Hl Hp)
    as (c & d & a & fe & flat & facing & rot & Hc & Hd & Ha & Hfe & Hflat & Hfacing
        & Hrot & _).
  destruct (detectFeatures_returns palm Hl) as [f Hf].
  destruct (calculateHandOrientation_returns palm Hl) as [o Ho].
  split.
  - unfold updateHandVisualization. rewrite Hrot. cbn [bind]. rewrite Hc. cbn [bind].
    rewrite Hd, Ha, Hfacing, Hflat, Hfe. eexists. reflexivity.
  - unfold updateMetrics. rewrite Hc. cbn [bind]. rewrite Hd, Ha, Hf, Ho.
    eexists. reflexivity.
Qed.

Lemma updatePalmVisualization_returns (now : Z) (this : @DotProjector num)
    (palm : list (@Landmark num)) :
  palmData this = Some palm -> length palm = 21%nat ->
  exists this' fired,
    updatePalmVisualization now this palm = Normal (this', fired)
    /\ palmData this' = palmData this
    /\ landmarkHistory this' = landmarkHistory this.
Proof.
  intros Hp Hl.
  destruct (classify_chain this Hl Hp)
    as (c & d & a & fe & flat & facing & rot & _ & _ & _ & _ & _ & _ & _ & Hc).
  unfold updatePalmVisualization. rewrite Hc. cbn [bind].
  destruct (chain _ _ _ _ _ _ _) as [[| | | | | |[|] | |]|];
    try (eexists; eexists; repeat split; reflexivity).
  destruct (handlePerfectAlignment now (updateStatus this PerfectHoldSteady TSuccess))
    as [[this' fired]|] eqn:E.
  - exists this', fired. destruct (handlePerfectAlignment_keeps_tracking _ _ E) as [-> ->].
    repeat split.
  - exfalso. revert E. unfold handlePerfectAlignment.
    destruct (_ <? _)%Z; [discriminate|].
    set (armed := if negb _ then _ else _).
    destruct (_ >=? _)%Z; [|discriminate].
    assert (Hr : palmReady armed).
    { subst armed. unfold palmReady. destruct (negb _); cbn; rewrite Hp; exact Hl. }
    destruct (capture_returns armed Hr) as (c' & -> & _). discriminate.
Qed.

(** The frame callback never throws on the detector's output.  From a
    tracking state (at most 5 frames of 21 landmarks in the history), a
    frame without a hand or with a hand of 21 landmarks is processed to its
    end and leaves a tracking state; after a hand, the tracked hand has 21
    landmarks and the two display methods of the same callback,
    [updateHandVisualization] and [updateMetrics], return on it as well. *)
Theorem frame_callback_never_throws (now : Z) (this : @DotProjector num)
    (results : option (list (@Landmark num) * option Handedness))
    (indicator : option (RotationHint * bool)) :
  tracking this ->
  (forall raw label, results = Some (raw, label) -> length raw = 21%nat) ->
  exists this' fired,
    onHandResults now this results = Normal (this', fired)
    /\ tracking this'
    /\ (results = None -> palmData this' = None /\ landmarkHistory this' = [])
    /\ (forall raw label, results = Some (raw, label) ->
        exists palm,
          palmData this' = Some palm /\ length palm = 21%nat
          /\ returns (updateHandVisualization this' indicator palm)
          /\ returns (updateMetrics this' (Some palm))).
Proof.
  intros (Hlen & Hall & _) Hraw.
  destruct results as [[raw label]|].
  - specialize (Hraw raw label eq_refl).
    destruct (pushHistory_tracking raw Hlen Hall Hraw) as (Hne & Hlen' & Hall').
    destruct (stabilizeLandmarks_returns Hne Hall') as (palm & Es & Hl).
    unfold onHandResults. rewrite Es. cbn [bind].
    set (seeing := mkDotProjector _ _ _ _ _ _ _ _ _ _ _).
    destruct (updatePalmVisualization_returns now seeing eq_refl Hl)
      as (this' & fired & E & Hp & Hh).
    exists this', fired. split; [exact E|].
    assert (Hpalm : palmData this' = Some palm) by (rewrite Hp; reflexivity).
    split; [|split; [discriminate|]].
    + unfold tracking, palmReady. rewrite Hh, Hpalm. cbn [landmarkHistory seeing].
      repeat split; assumption.
    + intros raw' label' _. exists palm. split; [exact Hpalm|]. split; [exact Hl|].
      now apply display_returns.
  - eexists. eexists. split; [reflexivity|]. cbn.
    split; [|split; [intros _; split; reflexivity|discriminate]].
    unfold tracking, palmReady, historySize. cbn. repeat split; [lia|constructor].
Qed.

End FrameSafety.

Section ExactSmoothing.
Local Open Scope R_scope.




End ExactSmoothing.

Section ExactDotField.
Local Open Scope R_scope.

Lemma influenceRadius_pos (idx : nat) : 15 <= influenceRadius (num := R) idx <= 20.
Proof.
  unfold influenceRadius. exact_arith.
  destruct (existsb _ _); [lra|]. destruct (_ || _)%bool; lra.
Qed.

Lemma maxInfluence_fold (dotPos : @Landmark R) (frames : list (nat * @Landmark R)) :
  forall acc : R,
  0 <= acc <= 1 ->
  let m := fold_left (fun maxInfluence '(idx, landmark) =>
      let landmarkX := ((px landmark - lit 5 10) * fromZ 60)%js in
      let landmarkY := (- (py landmark - lit 5 10) * fromZ 60)%js in
      let landmarkZ := (- pz landmark * fromZ 50)%js in
      let dist :=
        Math_sqrt (pow2 (px dotPos - landmarkX) + pow2 (py dotPos - landmarkY)
                   + pow2 (pz dotPos - landmarkZ) * lit 2 10)%js in
      let influence :=
        Math_max (fromZ 0) (fromZ 1 - dist / influenceRadius idx)%js in
      if (influence >? maxInfluence)%js then influence else maxInfluence)
    frames acc in
  0 <= m <= 1
  /\ (acc = 0 ->
      (forall idx landmark, In (idx, landmark) frames ->
         400 <= (px dotPos - (px landmark - 5 / 10) * 60) ^ 2
                + (py dotPos - - (py landmark - 5 / 10) * 60) ^ 2) ->
      m = 0).
Proof.
  induction frames as [|[idx landmark] frames IH]; intros acc Hacc; cbn [fold_left].
  - split; [exact Hacc|auto].
  - cbv zeta. exact_arith.
    match goal with |- context [R_sqrt.sqrt ?a] => set (d2 := a) end.
    pose proof (sqrt_pos d2) as Hd.
    pose proof (influenceRadius_pos idx) as Hr.
    set (r := influenceRadius idx) in *.
    assert (Hq : 0 <= R_sqrt.sqrt d2 / r).
    { apply Rmult_le_pos; [assumption|]. left. apply Rinv_0_lt_compat. lra. }
    set (influence := Rmax 0 (1 - R_sqrt.sqrt d2 / r)).
    assert (Hi : 0 <= influence <= 1) by (unfold influence; minmax).
    unfold Exact.ltb. destruct (Rlt_dec acc influence) as [Hlt|Hge].
    + destruct (IH influence Hi) as [Hm _]. split; [exact Hm|].
      intros -> Hfar. exfalso.
      assert (Hfar0 := Hfar idx landmark (or_introl eq_refl)).
      assert (H20 : 20 <= R_sqrt.sqrt d2).
      { rewrite <- (sqrt_square 20) by lra.
        assert (Hsq : 20 * 20 <= d2 /\ 0 <= d2).
        { unfold d2, pow2. exact_arith. cbn [pow] in Hfar0.
          match goal with |- _ <= ?A * ?A + ?B * ?B + ?C * ?C * _ /\ _ =>
            pose proof (Rle_0_sqr A); pose proof (Rle_0_sqr B);
            pose proof (Rle_0_sqr C); unfold Rsqr in * end.
          lra. }
        apply sqrt_le_1; lra. }
      assert (1 <= R_sqrt.sqrt d2 / r).
      { apply Rmult_le_reg_r with r; [lra|].
        unfold Rdiv. rewrite Rmult_assoc, Rinv_l by lra. lra. }
      unfold influence in Hlt. revert Hlt. minmax.
    + destruct (IH acc Hacc) as [Hm Hz]. split; [exact Hm|].
      intros E Hfar. apply Hz; [exact E|].
      intros idx' l' Hin. apply (Hfar idx' l'). now right.
Qed.

(** The dot field under a hand, over exact arithmetic.  The influence of the
    hand on a dot lies between 0 and 1; the dot is drawn at most 8 units
    aside of its place in the grid and at most 10 in front of it, at one to
    three times its size; and a dot with no landmark within 20 units of it
    in the plane of the grid stays at its place at its own size. *)
Theorem dots_move_within_reach_of_the_hand (palmCenter dotPos : @Landmark R)
    (landmarks : list (@Landmark R)) :
  let m := maxInfluence dotPos landmarks in
  let placed := placeDot palmCenter landmarks dotPos in
  0 <= m <= 1
  /\ (finalX placed - px dotPos) ^ 2 + (finalY placed - py dotPos) ^ 2
     = (8 * m ^ 2) ^ 2
  /\ finalZ placed = pz dotPos + 10 * m
  /\ scaleValue placed = 1 + 2 * m
  /\ ((forall p, In p landmarks ->
         400 <= (px dotPos - (px p - 5 / 10) * 60) ^ 2
                + (py dotPos - - (py p - 5 / 10) * 60) ^ 2) ->
      placed = mkDotPlacement (px dotPos) (py dotPos) (pz dotPos) 1).
Proof.
  cbv zeta.
  assert (Hf : 0 <= maxInfluence dotPos landmarks <= 1
               /\ (0 = 0 ->
                   (forall idx landmark,
                      In (idx, landmark) (combine (seq 0 (length landmarks)) landmarks) ->
                      400 <= (px dotPos - (px landmark - 5 / 10) * 60) ^ 2
                             + (py dotPos - - (py landmark - 5 / 10) * 60) ^ 2) ->
                   maxInfluence dotPos landmarks = 0)).
  { apply (@maxInfluence_fold dotPos (combine (seq 0 (length landmarks)) landmarks) 0).
    lra. }
  destruct Hf as [Hm Hz].
  unfold placeDot. set (m := maxInfluence dotPos landmarks) in *.
  exact_arith. cbn [Math_cos Math_sin exact_circle]. unfold Exact.ltb.
  split; [exact Hm|].
  destruct (Rlt_dec 0 m) as [Hpos|Hzero]; cbn [finalX finalY finalZ scaleValue].
  - split.
    + match goal with |- context [cos ?a] =>
        pose proof (sin2_cos2 a) as Hsc; unfold Rsqr in Hsc;
        set (c := cos a) in *; set (s := sin a) in * end.
      replace ((px dotPos + c * (m * 8) * m - px dotPos) ^ 2
               + (py dotPos + s * (m * 8) * m - py dotPos) ^ 2)
        with ((s * s + c * c) * (8 * m ^ 2) ^ 2) by ring.
      rewrite Hsc. ring.
    + split; [ring|]. split; [ring|].
      intros Hfar. exfalso. assert (m = 0); [|lra].
      apply Hz; [reflexivity|]. intros idx p Hin. apply Hfar.
      now apply in_combine_r in Hin.
  - assert (Em : m = 0) by lra. rewrite Em.
    split; [ring|]. split; [ring|]. split; [ring|]. intros _. reflexivity.
Qed.

End ExactDotField.

(** ** The further theorems at sample inputs *)

Section MoreExactSamples.
Local Open Scope R_scope.

(** The features score of the open hand. *)
Lemma features_are_the_capped_finger_spread_witness :
  exists spread features : R,
    calculateFingerSpread (openHand (num := R)) = Normal spread
    /\ detectFeatures (openHand (num := R)) = Normal features
    /\ features = Rmin 100 (spread * 500)
    /\ 0 <= features <= 100.
Proof. exact (@features_are_the_capped_finger_spread openHand eq_refl). Defined.



(** Colour and branch of the open hand. *)
Lemma perfect_hand_is_green_from_8_cm_witness :
  exists (palmCenter : @Landmark R) (distance : R)
         (indicator' : option (RotationHint * bool)) (handColor : HandColor),
    calculatePalmCenter (openHand (num := R)) = Normal palmCenter
    /\ calculateDistance (palmData (scanning openHand (Some Right))) palmCenter
       = Normal distance
    /\ updateHandVisualization (scanning openHand (Some Right)) None openHand
       = Normal (indicator', handColor)
    /\ (classify (scanning openHand (Some Right)) openHand = Normal (Some Perfect) ->
        handColor = if Rlt_dec distance 8 then Red else Green)
    /\ (handColor = Green ->
        handFullyVisible (openHand (num := R)) = true ->
        checkFingerExtension (openHand (num := R)) = Normal true ->
        classify (scanning openHand (Some Right)) openHand = Normal (Some Perfect)).
Proof.
  exact (proj1 perfect_hand_is_green_from_8_cm (scanning openHand (Some Right)) None
           openHand eq_refl eq_refl).
Defined.

(** The bounds of the open hand on a canvas of 1280 by 720 with padding 80. *)
Lemma palm_bounds_stay_in_canvas_and_hold_the_hand_witness :
  let b := getPalmBounds (Some (openHand (num := R))) 1280 720 80 in
  0 <= left b /\ 0 <= width b /\ left b + width b <= 1280
  /\ 0 <= top b /\ 0 <= height b /\ top b + height b <= 720
  /\ centerX b = left b + width b / 2 /\ centerY b = top b + height b / 2
  /\ radius b = Rmax (width b) (height b) / 2
  /\ forall p, In p (openHand (num := R)) ->
       0 <= px p <= 1 -> 0 <= py p <= 1 ->
       left b <= px p * 1280 <= left b + width b
       /\ top b <= py p * 720 <= top b + height b.
Proof.
  apply (@palm_bounds_stay_in_canvas_and_hold_the_hand openHand 1280 720 80);
    [discriminate|lra|lra|lra].
Defined.

(** The framing of the open hand on a canvas of 1280 by 720. *)
Lemma capture_framing_centres_the_hand_witness :
  let f := captureFraming (openHand (num := R)) 1280 720 in
  0 < zoomFactor f
  /\ vignetteX f = 1280 / 2 /\ vignetteY f = 720 / 2
  /\ forall p, In p (openHand (num := R)) ->
       0 <= px p <= 1 -> 0 <= py p <= 1 ->
       1280 / 10 <= translateX f + px p * 1280 * zoomFactor f <= 1280 * 9 / 10
       /\ 720 / 10 <= translateY f + py p * 720 * zoomFactor f <= 720 * 9 / 10.
Proof.
  apply (@capture_framing_centres_the_hand openHand 1280 720); lra.
Defined.

(** The open hand upside down passes the orientation check under the label Left. *)
Lemma upsideDown_openHand_faces_as_left :
  checkPalmOrientation (Some Left) (upsideDown (openHand (num := R))) = Normal true.
Proof.
  cbn. exact_arith. unfold Exact.ltb.
  repeat match goal with |- context [Rlt_dec ?a ?b] => destruct (Rlt_dec a b) end;
    try reflexivity; exfalso; lra.
Qed.

(** The open hand upside down, labelled Left: its index base is left of its
    pinky base. *)
Lemma handedness_disagreement_caps_alignment_witness :
  exists alignment : R,
    calculateAlignment (upsideDown (openHand (num := R))) = Normal alignment
    /\ alignment <= 65 / 100.
Proof.
  destruct (@calculateAlignment_range (upsideDown openHand) eq_refl) as (a & Ea & _).
  exists a. split; [exact Ea|].
  apply (@handedness_disagreement_caps_alignment (Some Left) (upsideDown openHand)
           (point 4200 4500 (-100)) (point 6300 4000 (-100)) a).
  - cbn. unfold point. cbn. exact_arith. do 2 f_equal. lra.
  - cbn. unfold point. cbn. exact_arith. do 2 f_equal. lra.
  - exact upsideDown_openHand_faces_as_left.
  - cbn. exact_arith. split; [intros _; lra|reflexivity].
  - exact Ea.
Defined.

End MoreExactSamples.

(** The open hand is Perfect: an indicator shown before is hidden. *)
Lemma rotation_indicator_agrees_with_the_chain_witness :
  classify (H0 := firstOrder) (scanning openHand (Some Right)) openHand
    = Normal (Some Perfect)
  /\ updateHandVisualization (H0 := firstOrder) (scanning openHand (Some Right))
       (Some (RotateCW, true)) openHand
     = Normal (Some (RotateCW, false), Green)
  /\ displayed (Some (RotateCW, false)) = false.
Proof.
  split; [vm_compute; reflexivity|]. split; [vm_compute; reflexivity|].
  apply (@rotation_indicator_agrees_with_the_chain float float64 firstOrder
           (scanning openHand (Some Right)) (Some (RotateCW, true))
           (Some (RotateCW, false)) openHand Perfect Green);
    vm_compute; reflexivity.
Defined.

(** A single capture of the open hand, stored before one older capture. *)
Lemma single_capture_leads_a_gallery_of_at_most_ten_witness :
  exists (g' : @Gallery float) (ok : bool),
    regularCaptureLoaded roomy 1000 String.EmptyString String.EmptyString
      openHand (Some openHand) (mkGallery [snapshot 1] (Some [snapshot 1]))
    = Normal (g', ok)
    /\ exists (captureData : @CaptureData float) (k : nat),
         captures g' = captureData :: firstn k [snapshot 1]
         /\ id captureData = 1000%Z /\ image captureData = String.EmptyString
         /\ type captureData = regular /\ pairedWith captureData = None
         /\ (length (captures g') <= 10)%nat.
Proof.
  let run := eval vm_compute in
    (regularCaptureLoaded roomy 1000 String.EmptyString String.EmptyString
       (openHand (num := float)) (Some openHand)
       (mkGallery [snapshot 1] (Some [snapshot 1]))) in
  match run with Normal (?g, ?ok) => exists g, ok end.
  split; [vm_compute; reflexivity|].
  eapply (@single_capture_leads_a_gallery_of_at_most_ten float float64 roomy 1000
            String.EmptyString String.EmptyString openHand (Some openHand)
            (mkGallery [snapshot 1] (Some [snapshot 1]))).
  vm_compute; reflexivity.
Defined.

(** A dual capture stored before one older capture. *)
Lemma dual_capture_is_stored_as_a_linked_pair_witness :
  exists (irCapture regularCapture : @CaptureData float) (k : nat),
    captures (fst (dualCaptureLoaded roomy 1000 String.EmptyString
                     (mkMetrics 33%float 96%float) String.EmptyString
                     String.EmptyString (mkGallery [snapshot 1] (Some [snapshot 1]))))
    = irCapture :: regularCapture :: firstn k [snapshot 1]
    /\ type irCapture = ir /\ type regularCapture = regular
    /\ id irCapture = 1000%Z /\ id regularCapture = (1000 + 1)%Z
    /\ pairedWith irCapture = Some (id regularCapture)
    /\ pairedWith regularCapture = Some (id irCapture)
    /\ image irCapture = String.EmptyString
    /\ image regularCapture = String.EmptyString
    /\ metrics irCapture = mkMetrics 33%float 96%float
    /\ metrics regularCapture = mkMetrics 33%float 96%float
    /\ (length (captures (fst (dualCaptureLoaded roomy 1000 String.EmptyString
                     (mkMetrics 33%float 96%float) String.EmptyString
                     String.EmptyString (mkGallery [snapshot 1] (Some [snapshot 1])))))
        <= 10)%nat.
Proof.
  apply (@dual_capture_is_stored_as_a_linked_pair float roomy 1000
           String.EmptyString (mkMetrics 33%float 96%float) String.EmptyString
           String.EmptyString (mkGallery [snapshot 1] (Some [snapshot 1])) _ true).
  reflexivity.
Defined.

(** The open hand captured; no hand, or the close hand, tracked when the
    image is ready. *)
Lemma single_capture_takes_its_distance_at_encoding_time_witness :
  regularCaptureLoaded roomy 1000 String.EmptyString String.EmptyString
    (openHand (num := float)) None (mkGallery [] None) = Throw
  /\ exists (palmArea alignment : float) (g' : @Gallery float) (ok : bool)
            (older : list (@CaptureData float)),
       calculatePalmArea (closeHand (num := float)) = Normal palmArea
       /\ calculateAlignment (openHand (num := float)) = Normal alignment
       /\ regularCaptureLoaded roomy 1000 String.EmptyString String.EmptyString
            openHand (Some closeHand) (mkGallery [] None) = Normal (g', ok)
       /\ captures g' =
          mkCaptureData 1000 String.EmptyString regular String.EmptyString
            (mkMetrics (distanceFromArea palmArea)
                       (Math_round (num_mul alignment (fromZ 100)))) None
          :: older.
Proof.
  exact (@single_capture_takes_its_distance_at_encoding_time float float64 roomy
           1000 String.EmptyString String.EmptyString openHand closeHand
           (mkGallery [] None) eq_refl eq_refl).
Defined.

(** Two captures in memory, one stored, and a full storage. *)
Lemma failed_retry_leaves_the_old_item_stored_witness :
  captures (mkGallery [snapshot (num := float) 2; snapshot 1] (Some [snapshot 1]))
  = firstn 5 [snapshot 2; snapshot 1]
  /\ palmCaptures (mkGallery [snapshot (num := float) 2; snapshot 1] (Some [snapshot 1]))
     = Some [snapshot 1]
  /\ loadCaptures (Some [snapshot (num := float) 1]) = loadCaptures (Some [snapshot 1])
  /\ full (firstn 10 [snapshot (num := float) 2; snapshot 1]) = QuotaExceededError
  /\ full (firstn 5 [snapshot (num := float) 2; snapshot 1]) <> Stored.
Proof.
  exact (@failed_retry_leaves_the_old_item_stored float full
           (mkGallery [snapshot 2; snapshot 1] (Some [snapshot 1]))
           (mkGallery [snapshot 2; snapshot 1] (Some [snapshot 1])) eq_refl).
Defined.

(** Saving one capture to an empty storage. *)
Lemma reload_gives_the_gallery_back_witness :
  loadCaptures (palmCaptures (mkGallery [snapshot (num := float) 1] (Some [snapshot 1])))
  = captures (mkGallery [snapshot (num := float) 1] (Some [snapshot 1])).
Proof.
  apply (@reload_gives_the_gallery_back float roomy (mkGallery [snapshot 1] None)).
  - discriminate.
  - left. reflexivity.
Defined.

(** Capture 2 saved before capture 1, then deleted. *)
Lemma deleting_a_new_capture_undoes_its_save_witness :
  fst (deleteCapture roomy (id (snapshot (num := float) 2))
         (fst (storeCaptures roomy
                 (mkGallery [snapshot 2; snapshot 1] (Some [snapshot 1])))))
  = mkGallery [snapshot (num := float) 1] (Some [snapshot 1]).
Proof.
  apply (@deleting_a_new_capture_undoes_its_save float roomy (snapshot 2)
           (mkGallery [snapshot 1] (Some [snapshot 1]))).
  - reflexivity.
  - intros c [<-|[]]. discriminate.
  - reflexivity.
  - cbn. lia.
Defined.

(** A first start with a browser that refuses the stream. *)
Lemma start_ends_scanning_or_ready_witness :
  let s' := startScanning asciiLowerCase (refusing [webcam]) (constructed (num := float)) in
  isProcessingStart s' = false
  /\ (isScanning (this s') = true ->
      srcObject (this s') = true
      /\ exists log, statusLog s' = BySession DetectingHands :: log)
  /\ (isScanning (this s') = false ->
      srcObject (this s') = false
      /\ exists log,
           statusLog s' = BySession NoCamerasFound :: log
           \/ statusLog s' = ByCore ReadyToScan TNone
                             :: BySession CameraAccessDenied :: log).
Proof.
  apply (@start_ends_scanning_or_ready float asciiLowerCase (refusing [webcam])
           constructed); reflexivity.
Defined.

(** Toggling the mode while filming, then two starts. *)
Lemma scheduled_restart_stops_a_scan_started_meanwhile_witness :
  let restarted :=
    startScanning asciiLowerCase (granting [webcam])
      (fst (toggleIRMode (filming (num := float)))) in
  let final := startScanning asciiLowerCase (granting [webcam]) restarted in
  snd (toggleIRMode (filming (num := float))) = true
  /\ irMode (this (fst (toggleIRMode (filming (num := float)))))
     = negb (irMode (this (filming (num := float))))
  /\ isScanning (this (fst (toggleIRMode (filming (num := float))))) = false
  /\ isScanning (this restarted) = true
  /\ isScanning (this final) = false
  /\ exists log, statusLog final = ByCore ReadyToScan TNone :: log.
Proof.
  apply (@scheduled_restart_stops_a_scan_started_meanwhile float asciiLowerCase
           (granting [webcam]) (granting [webcam]) filming);
    try reflexivity; discriminate.
Defined.

(** A webcam and a depth camera. *)
Lemma first_detection_selects_default_cameras_witness :
  let s' := detectCameras asciiLowerCase (granting [webcam; depthCamera])
              (constructed (num := float)) in
  hasIRCamera s' = existsb (looksInfrared asciiLowerCase) [webcam; depthCamera]
  /\ selectedCameraId s' = Some (deviceId webcam)
  /\ selectedIRCameraId s' =
     Some (deviceId match find (looksInfrared asciiLowerCase) [webcam; depthCamera] with
                    | Some camera => camera
                    | None => webcam
                    end).
Proof.
  apply (@first_detection_selects_default_cameras float asciiLowerCase
           (granting [webcam; depthCamera]) constructed webcam [depthCamera]);
    try reflexivity.
  intros c [<-|[<-|[]]]; discriminate.
Defined.

(** 41 frames of the open hand, 100 ms apart. *)
Lemma captures_are_at_least_3500_ms_apart_witness :
  exists this' fires,
    perfectFrames (every100ms 5000 (repeat (openHand (num := float)) 41)) started
    = Normal (this', fires)
    /\ length fires = length (every100ms 5000 (repeat (openHand (num := float)) 41))
    /\ spaced 3500
         (captureTimes (every100ms 5000 (repeat (openHand (num := float)) 41)) fires).
Proof.
  apply (@captures_are_at_least_3500_ms_apart float float64
           (every100ms 5000 (repeat openHand 41)) started).
  repeat constructor.
Defined.

(** The first frame of a session, with the open hand. *)
Lemma frame_callback_never_throws_witness :
  exists this' fired,
    onHandResults (H0 := firstOrder) 5000 started (Some (openHand, Some Right))
    = Normal (this', fired)
    /\ tracking this'
    /\ (Some (openHand (num := float), Some Right) = None ->
        palmData this' = None /\ landmarkHistory this' = [])
    /\ (forall raw label,
        Some (openHand (num := float), Some Right) = Some (raw, label) ->
        exists palm,
          palmData this' = Some palm /\ length palm = 21%nat
          /\ returns (updateHandVisualization (H0 := firstOrder) this' None palm)
          /\ returns (updateMetrics (H0 := firstOrder) this' (Some palm))).
Proof.
  apply (@frame_callback_never_throws float float64 firstOrder 5000 started
           (Some (openHand, Some Right)) None).
  - unfold tracking, palmReady, historySize. cbn. repeat split; [lia|constructor].
  - intros raw label E. injection E as <- _. reflexivity.
Defined.

Section SmoothingSample.
Local Open Scope R_scope.


End SmoothingSample.
